(** * SEC_API: a shallow embedding of [SEC_API.py] and its specification

    The client fetches one JSON document per call and flattens it into a
    table.  The embedding keeps the three layers of the source apart:

    - [Py]: the Python values the code manipulates (parsed JSON, [np.nan],
      ordered dicts) and the exceptions the built-in operations raise;
    - [Pandas]: the part of [pandas.DataFrame] the five operations use;
    - [SEC_API]: the five class methods, over an explicit transport.

    pandas gives every column one dtype and converts its cells to it.
    That inference is modelled where all versions of the library agree
    (a missing-value marker stays one; columns of strings and of 64-bit
    integers are kept) and is a parameter elsewhere ([Pandas.library]).
    Not modelled: the text of exception messages. *)

From Stdlib Require Import List String Ascii ZArith Lia Bool Arith PeanoNat.
Import ListNotations.
Local Open Scope string_scope.
Local Open Scope list_scope.

Set Implicit Arguments.
Set Warnings "-register-all".

(* ------------------------------------------------------------------ *)
(** ** Python values and exceptions *)

Module Py.

(** The exception classes that the built-in operations used by the source
    can raise.  [ConnectionError] stands for every exception of
    [requests.get] itself (connection failure, timeout); [JSONDecodeError]
    is raised by [Response.json()]. *)
Inductive exn : Type :=
| KeyError (key : string)
| TypeError
| AttributeError
| ValueError
| JSONDecodeError
| ConnectionError.

Inductive result (A : Type) : Type :=
| Ok (a : A)
| Raise (e : exn).
Arguments Ok {A} a.
Arguments Raise {A} e.

Definition bind {A B} (m : result A) (k : A -> result B) : result B :=
  match m with
  | Ok a => k a
  | Raise e => Raise e
  end.

Notation "x <- m ;; k" := (bind m (fun x => k))
  (at level 61, m at next level, right associativity).

(** Evaluation of [[f x for x in xs]]: elements are computed left to right
    and the first exception aborts the whole comprehension. *)
Fixpoint mapM {A B} (f : A -> result B) (xs : list A) : result (list B) :=
  match xs with
  | [] => Ok []
  | x :: xs' =>
      y <- f x ;;
      ys <- mapM f xs' ;;
      Ok (y :: ys)
  end.

(** Evaluation of a nested [for] clause of a comprehension: the rows of the
    inner clauses are produced for each element in turn. *)
Fixpoint flat_mapM {A B} (f : A -> result (list B)) (xs : list A)
  : result (list B) :=
  match xs with
  | [] => Ok []
  | x :: xs' =>
      ys <- f x ;;
      zs <- flat_mapM f xs' ;;
      Ok (ys ++ zs)
  end.

(** What [json.loads] returns.  A JSON object becomes a [dict], which keeps
    its keys in document order: an association list.  [JFloat] is a number
    with a fraction or an exponent, identified by its literal; the code
    only carries such values along. *)
Inductive json : Type :=
| JNull
| JBool (b : bool)
| JInt (z : Z)
| JFloat (literal : string)
| JStr (s : string)
| JArr (elems : list json)
| JObj (fields : list (string * json)).

(** A Python object held in a row: a parsed JSON value, or [np.nan], the
    missing-value marker. *)
Inductive pyval : Type :=
| NaN
| Val (v : json).

Definition dict (A : Type) := list (string * A).

Fixpoint dict_get {A} (k : string) (d : dict A) : option A :=
  match d with
  | [] => None
  | (k', v) :: d' => if String.eqb k k' then Some v else dict_get k d'
  end.

Definition keys {A} (d : dict A) : list string := map fst d.

(** [obj[key]] with a string key. *)
Definition getitem (obj : json) (key : string) : result json :=
  match obj with
  | JObj d =>
      match dict_get key d with
      | Some v => Ok v
      | None => Raise (KeyError key)
      end
  | _ => Raise TypeError
  end.

(** [obj.items()]. *)
Definition items (obj : json) : result (list (string * json)) :=
  match obj with
  | JObj d => Ok d
  | _ => Raise AttributeError
  end.

Fixpoint chars (s : string) : list json :=
  match s with
  | EmptyString => []
  | String c s' => JStr (String c EmptyString) :: chars s'
  end.

(** [iter(obj)], as a [for] clause performs it: a list yields its elements,
    a dict its keys, a string its characters. *)
Definition iter (obj : json) : result (list json) :=
  match obj with
  | JArr l => Ok l
  | JObj d => Ok (map JStr (keys d))
  | JStr s => Ok (chars s)
  | _ => Raise TypeError
  end.

(** [obj.get(key, np.nan)]. *)
Definition get_nan (obj : json) (key : string) : result pyval :=
  match obj with
  | JObj d =>
      match dict_get key d with
      | Some v => Ok (Val v)
      | None => Ok NaN
      end
  | _ => Raise AttributeError
  end.

(** *** [str(int)] *)

Definition digit_char (d : Z) : ascii :=
  ascii_of_nat (48 + Z.to_nat d).

Fixpoint digits_acc (fuel : nat) (n : Z) (acc : string) : string :=
  match fuel with
  | O => acc
  | S fuel' =>
      let acc' := String (digit_char (n mod 10)) acc in
      if (n / 10 =? 0)%Z then acc' else digits_acc fuel' (n / 10) acc'
  end.

(** Decimal digits of a non-negative integer; a number has no more decimal
    digits than binary ones. *)
Definition digits (n : Z) : string :=
  digits_acc (S (Z.to_nat (Z.log2 n))) n "".

Definition str_int (z : Z) : string :=
  if (z <? 0)%Z then String "-" (digits (- z)) else digits z.

(** Reading a digit string back. *)
Definition digit_val (c : ascii) : Z := Z.of_nat (nat_of_ascii c) - 48.

Fixpoint int_acc (s : string) (acc : Z) : Z :=
  match s with
  | EmptyString => acc
  | String c s' => int_acc s' (10 * acc + digit_val c)
  end.

Definition int_of_digits (s : string) : Z := int_acc s 0.

Definition is_digit (c : ascii) : bool :=
  (48 <=? nat_of_ascii c)%nat && (nat_of_ascii c <=? 57)%nat.

Fixpoint all_digits (s : string) : bool :=
  match s with
  | EmptyString => true
  | String c s' => is_digit c && all_digits s'
  end.

(** *** [sorted] on strings *)

Fixpoint insert_sorted (k : string) (l : list string) : list string :=
  match l with
  | [] => [k]
  | k' :: l' =>
      if String.leb k k' then k :: l else k' :: insert_sorted k l'
  end.

Definition sorted (l : list string) : list string :=
  fold_right insert_sorted [] l.

End Py.

(* ------------------------------------------------------------------ *)
(** ** The fragment of pandas the client uses *)

Module Pandas.
Import Py.

(** Row and column labels: positions of a [RangeIndex] or strings. *)
Inductive label : Type :=
| LInt (i : nat)
| LStr (s : string).

Definition label_eqb (a b : label) : bool :=
  match a, b with
  | LInt i, LInt j => Nat.eqb i j
  | LStr s, LStr t => String.eqb s t
  | _, _ => false
  end.

(** A frame: row labels, column labels and the cells, row by row. *)
Record DataFrame : Type := mkDataFrame {
  index : list label;
  columns : list label;
  values : list (list pyval)
}.

Definition range_index (n : nat) : list label := map LInt (seq 0 n).

Fixpoint mem (k : string) (l : list string) : bool :=
  match l with
  | [] => false
  | k' :: l' => String.eqb k k' || mem k l'
  end.

(** Union of key lists in order of first appearance (what pandas computes
    for the columns of a list of dicts, and for the index of a dict of
    dicts). *)
Definition add_keys (acc l : list string) : list string :=
  fold_left (fun acc k => if mem k acc then acc else acc ++ [k]) l acc.

Definition unique_multiple (ls : list (list string)) : list string :=
  fold_left add_keys ls [].

Definition get_default (k : string) (d : dict pyval) : pyval :=
  match dict_get k d with
  | Some v => v
  | None => NaN
  end.

(** *** Dtype inference

    pandas gives each column it builds one dtype, inferred from the
    objects of the column, and converts the cells to it: an integer next
    to a missing value becomes a float, [None] in a column of numbers
    becomes [nan], and so on, with differences between versions of the
    library.  What does not depend on the version is modelled:
    - [np.nan] stays [np.nan], whatever the dtype;
    - a column of integers that fit in 64 bits keeps them (int64);
    - a column that holds a string and, besides strings, only such
      integers and [np.nan], is kept as it is (object or string dtype).
    How the cells of any other column are converted is the library's
    ([library], below). *)

Definition is_str (v : pyval) : bool :=
  match v with
  | Val (JStr _) => true
  | _ => false
  end.

Definition is_int64 (v : pyval) : bool :=
  match v with
  | Val (JInt z) => ((- 2 ^ 63 <=? z) && (z <? 2 ^ 63))%Z
  | _ => false
  end.

Definition is_nan (v : pyval) : bool :=
  match v with
  | NaN => true
  | _ => false
  end.

Definition int_column (col : list pyval) : bool := forallb is_int64 col.

Definition object_column (col : list pyval) : bool :=
  existsb is_str col
  && forallb (fun v => is_str v || is_int64 v || is_nan v) col.

(** The columns whose cells every version of pandas leaves as they are. *)
Definition kept_column (col : list pyval) : bool :=
  int_column col || object_column col.

(** A conversion of parsed values, within a context [ctx] (the column, or
    the frame, that decides the dtype), applied to a cell: [np.nan] is
    left alone. *)
Definition cellwise {C : Type} (other : C -> json -> pyval) (ctx : C)
  (v : pyval) : pyval :=
  match v with
  | NaN => NaN
  | Val j => other ctx j
  end.

(** The cells of a column, converted to the dtype of the column. *)
Definition convert_with (other : list pyval -> json -> pyval)
  (col : list pyval) : list pyval :=
  if kept_column col then col else map (cellwise other col) col.

(** Library behaviour outside the modelled fragment, taken as given:
    Python's [str] on floats, lists and dicts; [from_records] on data
    that is not a dict; and how a value is converted in a column that is
    not kept as it is, when [from_records] infers the dtype of a column
    of records ([infer_records]) or of a column given as a sequence or a
    dict ([infer_array]), and when [transpose] brings a frame without
    strings to one common dtype ([interleave]). *)
Record library : Type := mkLibrary {
  str_other : json -> string;
  from_records_other : json -> result DataFrame;
  infer_records : list pyval -> json -> pyval;
  infer_array : list pyval -> json -> pyval;
  interleave : list (list pyval) -> json -> pyval
}.

(** [DataFrame.from_records] on a dict: the columns are the sorted keys;
    the values are the per-column data.  The index is the union of the keys
    of the dict values, or a range when the values are lists, which must
    then have one common length; scalars are broadcast. *)
Definition dict_lists (arrays : list json) : list (list string) :=
  flat_map (fun a => match a with JObj d => [keys d] | _ => [] end) arrays.

Definition raw_lengths (arrays : list json) : list nat :=
  flat_map (fun a => match a with JArr l => [List.length l] | _ => [] end) arrays.

Definition extract_index (arrays : list json) : result (list label) :=
  match arrays with
  | [] => Ok []
  | _ =>
      match dict_lists arrays, raw_lengths arrays with
      | [], [] => Raise ValueError
      | ks, [] => Ok (map LStr (unique_multiple ks))
      | ks, n :: ns =>
          if forallb (Nat.eqb n) ns then
            match ks with
            | [] => Ok (range_index n)
            | _ => Raise ValueError
            end
          else Raise ValueError
      end
  end.

(** The objects of one column, aligned with the index, before their dtype
    is inferred: a dict is looked up label by label, with [np.nan] for
    the labels it lacks; a list is taken as it is; a scalar is
    broadcast. *)
Definition aligned (idx : list label) (a : json) : list pyval :=
  match a with
  | JObj d =>
      map (fun l => match l with
                    | LStr k => match dict_get k d with
                                | Some v => Val v
                                | None => NaN
                                end
                    | LInt _ => NaN
                    end) idx
  | JArr l => map Val l
  | _ => repeat (Val a) (List.length idx)
  end.

(** [data[k]] for a key [k] of [data]. *)
Definition dict_item (data : dict json) (k : string) : json :=
  match dict_get k data with
  | Some v => v
  | None => JNull
  end.

(** [df.reset_index(drop=True)]. *)
Definition reset_index_drop (df : DataFrame) : DataFrame :=
  {| index := range_index (List.length (index df));
     columns := columns df;
     values := values df |}.

(** [df.columns = names]. *)
Definition set_columns (df : DataFrame) (names : list string)
  : result DataFrame :=
  if Nat.eqb (List.length (columns df)) (List.length names) then
    Ok {| index := index df; columns := map LStr names; values := values df |}
  else Raise ValueError.

Fixpoint position (l : label) (ls : list label) : option nat :=
  match ls with
  | [] => None
  | l' :: ls' =>
      if label_eqb l l' then Some O
      else option_map S (position l ls')
  end.

(** [df[name]]. *)
Definition get_column (df : DataFrame) (name : string)
  : result (list pyval) :=
  match position (LStr name) (columns df) with
  | Some j => Ok (map (fun row => nth j row NaN) (values df))
  | None => Raise (KeyError name)
  end.

Fixpoint set_nth (j : nat) (v : pyval) (row : list pyval) : list pyval :=
  match row, j with
  | [], _ => []
  | _ :: row', O => v :: row'
  | c :: row', S j' => c :: set_nth j' v row'
  end.

(** [df[name] = series], for a series aligned with the frame. *)
Definition set_column (df : DataFrame) (name : string) (series : list pyval)
  : DataFrame :=
  match position (LStr name) (columns df) with
  | Some j =>
      {| index := index df;
         columns := columns df;
         values := map (fun '(row, v) => set_nth j v row)
                       (combine (values df) series) |}
  | None =>
      {| index := index df;
         columns := columns df ++ [LStr name];
         values := map (fun '(row, v) => row ++ [v])
                       (combine (values df) series) |}
  end.

Fixpoint replicate (n : nat) (c : ascii) (s : string) : string :=
  match n with
  | O => s
  | S n' => String c (replicate n' c s)
  end.

(** [Series.str.pad(width, fillchar=c)]: pads on the left. *)
Definition str_pad (width : nat) (fillchar : ascii) (s : string) : string :=
  replicate (width - String.length s) fillchar s.

(** Cell of row [i] in the column labelled [name]. *)
Definition cell (df : DataFrame) (i : nat) (name : string) : option pyval :=
  match position (LStr name) (columns df), nth_error (values df) i with
  | Some j, Some row => nth_error row j
  | _, _ => None
  end.

Definition nrows (df : DataFrame) : nat := List.length (values df).

Section Library.

Variable L : library.

(** The dtype inference of [from_records] on the columns of a list of
    records, and on a column given as a sequence or a dict. *)
Definition convert_objects : list pyval -> list pyval :=
  convert_with (infer_records L).

Definition sanitize_array : list pyval -> list pyval :=
  convert_with (infer_array L).

(** [DataFrame.from_records] on a list of dicts: one row per dict, one
    column per key, [NaN] where a dict lacks the key; each column is then
    given its dtype.  An empty list gives a frame with no rows and no
    columns. *)
Definition from_records_dicts (data : list (dict pyval)) : DataFrame :=
  let cols := unique_multiple (map (@keys pyval) data) in
  let arrays :=
    map (fun c => convert_objects (map (get_default c) data)) cols in
  {| index := range_index (List.length data);
     columns := map LStr cols;
     values := map (fun r => map (fun col => nth r col NaN) arrays)
                   (seq 0 (List.length data)) |}.

(** One column of [from_records] on a dict: the objects are aligned with
    the index and given their dtype. *)
Definition homogenize (idx : list label) (a : json) : list pyval :=
  sanitize_array (aligned idx a).

Definition from_records_dict (data : dict json) : result DataFrame :=
  let cols := sorted (keys data) in
  let arrays := map (dict_item data) cols in
  idx <- extract_index arrays ;;
  let cols_data := map (homogenize idx) arrays in
  Ok {| index := idx;
        columns := map LStr cols;
        values := map (fun r => map (fun col => nth r col NaN) cols_data)
                      (seq 0 (List.length idx)) |}.

(** The cells of a frame brought to one common dtype, as [df.values]
    does: a frame that holds a string anywhere has a column of object or
    string dtype, so the common dtype keeps every cell as it is; for any
    other frame the conversion is the library's. *)
Definition common_dtype_cell (vals : list (list pyval)) (v : pyval) : pyval :=
  if existsb (existsb is_str) vals then v
  else cellwise (interleave L) vals v.

Definition interleaved (vals : list (list pyval)) : list (list pyval) :=
  map (map (common_dtype_cell vals)) vals.

(** [df.transpose()]: the cells, in one common dtype, with rows and
    columns exchanged. *)
Definition transpose (df : DataFrame) : DataFrame :=
  {| index := columns df;
     columns := index df;
     values := map (fun c => map (fun row => nth c row NaN)
                                 (interleaved (values df)))
                   (seq 0 (List.length (columns df))) |}.

(** Python's [str], as [astype("str")] applies it to each cell. *)
Definition py_str (v : pyval) : string :=
  match v with
  | NaN => "nan"
  | Val JNull => "None"
  | Val (JBool true) => "True"
  | Val (JBool false) => "False"
  | Val (JInt z) => str_int z
  | Val (JStr s) => s
  | Val j => str_other L j
  end.

Definition astype_str (series : list pyval) : list string :=
  map py_str series.

(** [DataFrame.from_records(data)] on parsed JSON. *)
Definition from_records (data : json) : result DataFrame :=
  match data with
  | JObj d => from_records_dict d
  | _ => from_records_other L data
  end.

End Library.

End Pandas.

(* ------------------------------------------------------------------ *)
(** ** The client *)

Module SEC_API.
Import Py Pandas.

(** *** Transport

    [requests.get] is the only effect of the client.  A server answers the
    [n]-th request sent during a call; the requests sent are logged, so
    that the number of round trips of an operation can be stated. *)

Record request : Type := mkRequest {
  url : string;
  headers : dict string
}.

Record response : Type := mkResponse {
  status_code : Z;
  body : option json   (* [None]: the body is not JSON *)
}.

Inductive exchange : Type :=
| Failed                      (* no response: connection error, timeout *)
| Answered (r : response).

Definition server : Type := nat -> request -> exchange.

Definition IO (A : Type) : Type :=
  server -> list request -> result A * list request.

Definition io_bind {A B} (m : IO A) (k : A -> IO B) : IO B :=
  fun srv log =>
    match m srv log with
    | (Ok a, log') => k a srv log'
    | (Raise e, log') => (Raise e, log')
    end.

Definition lift {A} (m : result A) : IO A := fun _ log => (m, log).

Notation "x <~ m ;; k" := (io_bind m (fun x => k))
  (at level 61, m at next level, right associativity).

Definition run {A} (m : IO A) (srv : server) : result A * list request :=
  m srv [].

(** [requests.get(url, headers=headers)]. *)
Definition requests_get (u : string) (h : dict string) : IO response :=
  fun srv log =>
    let rq := mkRequest u h in
    match srv (List.length log) rq with
    | Failed => (Raise ConnectionError, log ++ [rq])
    | Answered r => (Ok r, log ++ [rq])
    end.

(** [Response.json()]. *)
Definition response_json (r : response) : result json :=
  match body r with
  | Some j => Ok j
  | None => Raise JSONDecodeError
  end.

(** The specification's two names for failures.  The source defines no
    exception class: what propagates is the exception of the library call
    that failed.  Exceptions of [requests] ([JSONDecodeError] is one of its
    [RequestException]s) count as network errors, the exceptions raised
    while a parsed document is taken apart as format errors. *)
Inductive error_kind : Type :=
| NetworkError
| UpstreamFormatError.

Definition kind_of (e : exn) : error_kind :=
  match e with
  | ConnectionError | JSONDecodeError => NetworkError
  | KeyError _ | TypeError | AttributeError | ValueError =>
      UpstreamFormatError
  end.

Section WithLibrary.

Variable L : library.

(** *** [get_companytickers] and [get_submissions] *)

(** One element of ["CIK" + series.str.pad(10, fillchar='0')]. *)
Definition cik_format (s : string) : pyval :=
  Val (JStr ("CIK" ++ str_pad 10 "0" s)%string).

Definition get_companytickers (parse_cik : bool) : IO DataFrame :=
  let url := "https://www.sec.gov/files/company_tickers.json" in
  r <~ requests_get url [] ;;
  lift (
    raw_json <- response_json r ;;
    df <- from_records L raw_json ;;
    let df := reset_index_drop (transpose L df) in
    df <- set_columns df ["cik"; "ticker"; "title"] ;;
    if parse_cik then
      cik <- get_column df "cik" ;;
      Ok (set_column df "cik" (map cik_format (astype_str L cik)))
    else Ok df).

Definition get_submissions (cik header_email : string) : IO DataFrame :=
  let url := ("https://data.sec.gov/submissions/" ++ cik ++ ".json")%string
  in
  let headers := [("User-Agent", header_email)] in
  r <~ requests_get url headers ;;
  lift (
    raw_json <- response_json r ;;
    filings <- getitem raw_json "filings" ;;
    df_list <- getitem filings "recent" ;;
    from_records L df_list).

(** *** [get_companyconcept] *)

(** The dict display of the comprehension, for one observation. *)
Definition companyconcept_row (raw_json : json) (key_units : string)
  (row_list : json) : result (dict pyval) :=
  cik <- getitem raw_json "cik" ;;
  taxonomy <- getitem raw_json "taxonomy" ;;
  tag <- getitem raw_json "tag" ;;
  label <- getitem raw_json "label" ;;
  description <- getitem raw_json "description" ;;
  entityName <- getitem raw_json "entityName" ;;
  end_ <- get_nan row_list "end" ;;
  val <- get_nan row_list "val" ;;
  accn <- get_nan row_list "accn" ;;
  fy <- get_nan row_list "fy" ;;
  fp <- get_nan row_list "fp" ;;
  form <- get_nan row_list "form" ;;
  filed <- get_nan row_list "filed" ;;
  frame <- get_nan row_list "frame" ;;
  Ok [("cik", Val cik);
      ("taxonomy", Val taxonomy);
      ("tag", Val tag);
      ("label", Val label);
      ("description", Val description);
      ("entityName", Val entityName);
      ("units", Val (JStr key_units));
      ("end", end_);
      ("val", val);
      ("accn", accn);
      ("fy", fy);
      ("fp", fp);
      ("form", form);
      ("filed", filed);
      ("frame", frame)].

Definition companyconcept_df_list (raw_json : json)
  : result (list (dict pyval)) :=
  units <- getitem raw_json "units" ;;
  units_items <- items units ;;
  flat_mapM (fun '(key_units, value_units) =>
    rows <- iter value_units ;;
    mapM (companyconcept_row raw_json key_units) rows) units_items.

Definition get_companyconcept (cik header_email taxonomy tag : string)
  : IO DataFrame :=
  let url := ("https://data.sec.gov/api/xbrl/companyconcept/" ++ cik ++ "/"
              ++ taxonomy ++ "/" ++ tag ++ ".json")%string in
  let headers := [("User-Agent", header_email)] in
  r <~ requests_get url headers ;;
  lift (
    raw_json <- response_json r ;;
    df_list <- companyconcept_df_list raw_json ;;
    Ok (from_records_dicts L df_list)).

(** *** [get_companyfacts] *)

Definition companyfacts_row (raw_json : json) (key_taxonomy key_tag : string)
  (value_tag : json) (key_units : string) (row_list : json)
  : result (dict pyval) :=
  cik <- getitem raw_json "cik" ;;
  entityName <- getitem raw_json "entityName" ;;
  label <- getitem value_tag "label" ;;
  description <- getitem value_tag "description" ;;
  end_ <- get_nan row_list "end" ;;
  val <- get_nan row_list "val" ;;
  accn <- get_nan row_list "accn" ;;
  fy <- get_nan row_list "fy" ;;
  fp <- get_nan row_list "fp" ;;
  form <- get_nan row_list "form" ;;
  filed <- get_nan row_list "filed" ;;
  frame <- get_nan row_list "frame" ;;
  Ok [("cik", Val cik);
      ("entityName", Val entityName);
      ("taxonomy", Val (JStr key_taxonomy));
      ("tag", Val (JStr key_tag));
      ("label", Val label);
      ("description", Val description);
      ("units", Val (JStr key_units));
      ("end", end_);
      ("val", val);
      ("accn", accn);
      ("fy", fy);
      ("fp", fp);
      ("form", form);
      ("filed", filed);
      ("frame", frame)].

Definition companyfacts_df_list (raw_json : json)
  : result (list (dict pyval)) :=
  facts <- getitem raw_json "facts" ;;
  facts_items <- items facts ;;
  flat_mapM (fun '(key_taxonomy, value_taxonomy) =>
    tags <- items value_taxonomy ;;
    flat_mapM (fun '(key_tag, value_tag) =>
      units <- getitem value_tag "units" ;;
      units_items <- items units ;;
      flat_mapM (fun '(key_units, value_units) =>
        rows <- iter value_units ;;
        mapM (companyfacts_row raw_json key_taxonomy key_tag value_tag
                               key_units) rows) units_items) tags)
    facts_items.

Definition get_companyfacts (cik header_email : string) : IO DataFrame :=
  let url := ("https://data.sec.gov/api/xbrl/companyfacts/" ++ cik
              ++ ".json")%string in
  let headers := [("User-Agent", header_email)] in
  r <~ requests_get url headers ;;
  lift (
    raw_json <- response_json r ;;
    df_list <- companyfacts_df_list raw_json ;;
    Ok (from_records_dicts L df_list)).

(** *** [get_frames] *)

Definition frames_row (raw_json : json) (row_list : json)
  : result (dict pyval) :=
  taxonomy <- getitem raw_json "taxonomy" ;;
  tag <- getitem raw_json "tag" ;;
  ccp <- getitem raw_json "ccp" ;;
  uom <- getitem raw_json "uom" ;;
  label <- getitem raw_json "label" ;;
  description <- getitem raw_json "description" ;;
  accn <- get_nan row_list "accn" ;;
  cik <- get_nan row_list "cik" ;;
  entityName <- get_nan row_list "entityName" ;;
  loc <- get_nan row_list "loc" ;;
  end_ <- get_nan row_list "end" ;;
  val <- get_nan row_list "val" ;;
  Ok [("taxonomy", Val taxonomy);
      ("tag", Val tag);
      ("ccp", Val ccp);
      ("uom", Val uom);
      ("label", Val label);
      ("description", Val description);
      ("accn", accn);
      ("cik", cik);
      ("entityName", entityName);
      ("loc", loc);
      ("end", end_);
      ("val", val)].

Definition frames_df_list (raw_json : json) : result (list (dict pyval)) :=
  data <- getitem raw_json "data" ;;
  rows <- iter data ;;
  mapM (frames_row raw_json) rows.

Definition get_frames (header_email taxonomy tag units period : string)
  : IO DataFrame :=
  let url := ("https://data.sec.gov/api/xbrl/frames/" ++ taxonomy ++ "/"
              ++ tag ++ "/" ++ units ++ "/" ++ period ++ ".json")%string in
  let headers := [("User-Agent", header_email)] in
  r <~ requests_get url headers ;;
  lift (
    raw_json <- response_json r ;;
    df_list <- frames_df_list raw_json ;;
    Ok (from_records_dicts L df_list)).

End WithLibrary.

End SEC_API.

(* ------------------------------------------------------------------ *)
(** ** Upstream documents

    Vocabulary for the statements: the request each operation sends, what
    a server delivers, the shape of a well-formed document of each
    endpoint, and the observations of a document in document order. *)

Module Upstream.
Import Py Pandas SEC_API.

Definition tickers_request : request :=
  mkRequest "https://www.sec.gov/files/company_tickers.json" [].

Definition submissions_request (cik header_email : string) : request :=
  mkRequest ("https://data.sec.gov/submissions/" ++ cik ++ ".json")%string
            [("User-Agent", header_email)].

Definition companyconcept_request (cik header_email taxonomy tag : string)
  : request :=
  mkRequest ("https://data.sec.gov/api/xbrl/companyconcept/" ++ cik ++ "/"
             ++ taxonomy ++ "/" ++ tag ++ ".json")%string
            [("User-Agent", header_email)].

Definition companyfacts_request (cik header_email : string) : request :=
  mkRequest ("https://data.sec.gov/api/xbrl/companyfacts/" ++ cik
             ++ ".json")%string
            [("User-Agent", header_email)].

Definition frames_request (header_email taxonomy tag units period : string)
  : request :=
  mkRequest ("https://data.sec.gov/api/xbrl/frames/" ++ taxonomy ++ "/"
             ++ tag ++ "/" ++ units ++ "/" ++ period ++ ".json")%string
            [("User-Agent", header_email)].

(** The five operations, to quantify over them. *)
Inductive operation : Type :=
| Tickers (parse_cik : bool)
| Submissions (cik header_email : string)
| CompanyConcept (cik header_email taxonomy tag : string)
| CompanyFacts (cik header_email : string)
| Frames (header_email taxonomy tag units period : string).

Definition perform (L : library) (op : operation) : IO DataFrame :=
  match op with
  | Tickers p => get_companytickers L p
  | Submissions c h => get_submissions L c h
  | CompanyConcept c h x t => get_companyconcept L c h x t
  | CompanyFacts c h => get_companyfacts L c h
  | Frames h x t u p => get_frames L h x t u p
  end.

Definition request_of (op : operation) : request :=
  match op with
  | Tickers _ => tickers_request
  | Submissions c h => submissions_request c h
  | CompanyConcept c h x t => companyconcept_request c h x t
  | CompanyFacts c h => companyfacts_request c h
  | Frames h x t u p => frames_request h x t u p
  end.

(** The exchange for the first request completes, with any status, and its
    body parses to [raw]. *)
Definition delivers (srv : server) (rq : request) (raw : json) : Prop :=
  exists st, srv O rq = Answered (mkResponse st (Some raw)).

(** A server that answers every request with one response. *)
Definition upstream (st : Z) (b : option json) : server :=
  fun _ _ => Answered (mkResponse st b).

Definition unreachable : server := fun _ _ => Failed.

(** *** Reading a document *)

Definition lookup (j : json) (k : string) : option json :=
  match j with
  | JObj d => dict_get k d
  | _ => None
  end.

Definition has_key (j : json) (k : string) : bool :=
  match lookup j k with
  | Some _ => true
  | None => false
  end.

Definition is_obj (j : json) : bool :=
  match j with
  | JObj _ => true
  | _ => false
  end.

Definition obj_items (j : json) : list (string * json) :=
  match j with
  | JObj d => d
  | _ => []
  end.

Definition arr_elems (j : json) : list json :=
  match j with
  | JArr l => l
  | _ => []
  end.

(** The value a row holds for an optional field of a record. *)
Definition field (o : json) (k : string) : pyval :=
  match lookup o k with
  | Some v => Val v
  | None => NaN
  end.

(** *** Well-formed documents *)

Definition is_array_of (N : nat) (a : json) : Prop :=
  exists l, a = JArr l /\ List.length l = N.

Definition observations_ok (vu : json) : bool :=
  match vu with
  | JArr l => forallb is_obj l
  | _ => false
  end.

Definition units_ok (u : json) : bool :=
  match u with
  | JObj d => forallb (fun kv => observations_ok (snd kv)) d
  | _ => false
  end.

Definition has_units (j : json) : bool :=
  match lookup j "units" with
  | Some u => units_ok u
  | None => false
  end.

Definition concept_ok (raw : json) : bool :=
  has_key raw "cik" && has_key raw "taxonomy" && has_key raw "tag"
  && has_key raw "label" && has_key raw "description"
  && has_key raw "entityName" && has_units raw.

Definition tag_ok (t : json) : bool :=
  has_key t "label" && has_key t "description" && has_units t.

Definition taxonomy_ok (t : json) : bool :=
  match t with
  | JObj tags => forallb (fun kv => tag_ok (snd kv)) tags
  | _ => false
  end.

Definition facts_section_ok (raw : json) : bool :=
  match lookup raw "facts" with
  | Some (JObj taxonomies) =>
      forallb (fun kv => taxonomy_ok (snd kv)) taxonomies
  | _ => false
  end.

Definition facts_ok (raw : json) : bool :=
  has_key raw "cik" && has_key raw "entityName" && facts_section_ok raw.

Definition frames_metadata : list string :=
  ["taxonomy"; "tag"; "ccp"; "uom"; "label"; "description"].

Definition frames_data_ok (raw : json) : bool :=
  match lookup raw "data" with
  | Some (JArr l) => forallb is_obj l
  | _ => false
  end.

Definition frames_ok (raw : json) : bool :=
  forallb (has_key raw) frames_metadata && frames_data_ok raw.

(** *** Observations in document order *)

Definition unit_leaves (u : json) : list (string * json) :=
  flat_map (fun '(key_units, value_units) =>
              map (pair key_units) (arr_elems value_units))
           (obj_items u).

Definition concept_leaves (raw : json) : list (string * json) :=
  match lookup raw "units" with
  | Some u => unit_leaves u
  | None => []
  end.

Record leaf : Type := mkLeaf {
  leaf_taxonomy : string;
  leaf_tag : string;
  leaf_concept : json;     (* the tag's object: label, description, units *)
  leaf_units : string;
  leaf_obs : json
}.

Definition tag_leaves (key_taxonomy key_tag : string) (value_tag : json)
  : list leaf :=
  match lookup value_tag "units" with
  | Some u =>
      map (fun '(key_units, o) =>
             mkLeaf key_taxonomy key_tag value_tag key_units o)
          (unit_leaves u)
  | None => []
  end.

Definition facts_leaves (raw : json) : list leaf :=
  match lookup raw "facts" with
  | Some facts =>
      flat_map (fun '(key_taxonomy, value_taxonomy) =>
                  flat_map (fun '(key_tag, value_tag) =>
                              tag_leaves key_taxonomy key_tag value_tag)
                           (obj_items value_taxonomy))
               (obj_items facts)
  | None => []
  end.

Definition frames_entries (raw : json) : list json :=
  match lookup raw "data" with
  | Some data => arr_elems data
  | None => []
  end.

(** *** Declared columns *)

Definition observation_fields : list string :=
  ["end"; "val"; "accn"; "fy"; "fp"; "form"; "filed"; "frame"].

Definition entry_fields : list string :=
  ["accn"; "cik"; "entityName"; "loc"; "end"; "val"].

Definition concept_columns : list string :=
  ["cik"; "taxonomy"; "tag"; "label"; "description"; "entityName"; "units"]
  ++ observation_fields.

Definition facts_columns : list string :=
  ["cik"; "entityName"; "taxonomy"; "tag"; "label"; "description"; "units"]
  ++ observation_fields.

Definition frames_columns : list string := frames_metadata ++ entry_fields.

Definition tickers_columns : list string := ["cik"; "ticker"; "title"].

Definition concept_metadata : list string :=
  ["cik"; "taxonomy"; "tag"; "label"; "description"; "entityName"].

(** *** The row of one observation

    One row combines the metadata shared by the call with the unit name
    and the observation's own fields. *)

Definition concept_row_of (raw : json) (l : string * json) : dict pyval :=
  [("cik", field raw "cik");
   ("taxonomy", field raw "taxonomy");
   ("tag", field raw "tag");
   ("label", field raw "label");
   ("description", field raw "description");
   ("entityName", field raw "entityName");
   ("units", Val (JStr (fst l)))]
  ++ map (fun k => (k, field (snd l) k)) observation_fields.

Definition facts_row_of (raw : json) (l : leaf) : dict pyval :=
  [("cik", field raw "cik");
   ("entityName", field raw "entityName");
   ("taxonomy", Val (JStr (leaf_taxonomy l)));
   ("tag", Val (JStr (leaf_tag l)));
   ("label", field (leaf_concept l) "label");
   ("description", field (leaf_concept l) "description");
   ("units", Val (JStr (leaf_units l)))]
  ++ map (fun k => (k, field (leaf_obs l) k)) observation_fields.

Definition frames_row_of (raw : json) (o : json) : dict pyval :=
  map (fun k => (k, field raw k)) frames_metadata
  ++ map (fun k => (k, field o k)) entry_fields.

(** Every row has one cell per column. *)
Definition rectangular (df : DataFrame) : Prop :=
  Forall (fun row => List.length row = List.length (columns df)) (values df).

(** One row per row label as well. *)
Definition well_formed (df : DataFrame) : Prop :=
  List.length (values df) = List.length (index df) /\ rectangular df.

(** The cell of row [i] under [k] is the missing-value marker when the
    upstream record [o] has no field [k]. *)
Definition marks_missing (df : DataFrame) (i : nat) (o : json) (k : string)
  : Prop :=
  lookup o k = None -> cell df i k = Some NaN.

(** A value that a column of its like keeps: a string, or an integer that
    fits in 64 bits. *)
Definition plain (v : pyval) : bool := is_str v || is_int64 v.

(** The values that the observations of a document hold under [k], one
    per row, in document order: the objects from which pandas builds the
    column [k]. *)
Definition concept_values (raw : json) (k : string) : list pyval :=
  map (fun l => field (snd l) k) (concept_leaves raw).

Definition facts_values (raw : json) (k : string) : list pyval :=
  map (fun l => field (leaf_obs l) k) (facts_leaves raw).

(** The values that the tags of the observations hold under [k] (their
    label, their description), one per row. *)
Definition facts_tag_values (raw : json) (k : string) : list pyval :=
  map (fun l => field (leaf_concept l) k) (facts_leaves raw).

Definition frames_values (raw : json) (k : string) : list pyval :=
  map (fun o => field o k) (frames_entries raw).

(** What row [i] holds under [k], in a frame whose column [k] was built
    from the objects [vs], one per row, by the dtype inference [conv],
    [v] being the object of row [i]: the cell is the [i]-th cell of the
    converted column; it is the missing-value marker when [v] is; and it
    is [v] itself when the column is one that pandas keeps as it is. *)
Definition holds_in_column (conv : list pyval -> list pyval) (df : DataFrame)
  (i : nat) (k : string) (vs : list pyval) (v : pyval) : Prop :=
  cell df i k = nth_error (conv vs) i /\
  (v = NaN -> cell df i k = Some NaN) /\
  (kept_column vs = true -> cell df i k = Some v).

(** Cell of row [i] under [name] is the value [j] holds under [k]. *)
Definition holds_value (df : DataFrame) (i : nat) (name : string)
  (j : json) (k : string) : Prop :=
  exists v, lookup j k = Some v /\ cell df i name = Some (Val v).

(** *** Documents that differ by fields the client does not read

    Two objects are the same on a list of keys when they hold the same
    value, or both none, under each of them; whatever else they hold is
    free.  Arrays are compared element by element and mappings value by
    value, in order; values of any other shape must be equal. *)

Definition same_on (ks : list string) (a b : json) : Prop :=
  match a, b with
  | JObj da, JObj db => forall k, In k ks -> dict_get k da = dict_get k db
  | _, _ => a = b
  end.

Definition elementwise (R : json -> json -> Prop) (a b : json) : Prop :=
  match a, b with
  | JArr la, JArr lb => Forall2 R la lb
  | _, _ => a = b
  end.

Definition valuewise (R : json -> json -> Prop) (a b : json) : Prop :=
  match a, b with
  | JObj da, JObj db =>
      Forall2 (fun x y => fst x = fst y /\ R (snd x) (snd y)) da db
  | _, _ => a = b
  end.

(** The values of [a] and [b] under the key [k] are related by [R], or
    both absent. *)
Definition under (k : string) (R : json -> json -> Prop) (a b : json)
  : Prop :=
  match lookup a k, lookup b k with
  | Some u, Some v => R u v
  | None, None => True
  | _, _ => False
  end.

Definition units_alike : json -> json -> Prop :=
  valuewise (elementwise (same_on observation_fields)).

Definition concept_alike (a b : json) : Prop :=
  is_obj a = true /\ is_obj b = true /\
  same_on concept_metadata a b /\ under "units" units_alike a b.

Definition tag_alike (a b : json) : Prop :=
  match a, b with
  | JObj _, JObj _ =>
      same_on ["label"; "description"] a b /\ under "units" units_alike a b
  | _, _ => a = b
  end.

Definition facts_alike (a b : json) : Prop :=
  is_obj a = true /\ is_obj b = true /\
  same_on ["cik"; "entityName"] a b /\
  under "facts" (valuewise (valuewise tag_alike)) a b.

Definition frames_alike (a b : json) : Prop :=
  is_obj a = true /\ is_obj b = true /\
  same_on frames_metadata a b /\
  under "data" (elementwise (same_on entry_fields)) a b.

Definition submissions_alike (a b : json) : Prop :=
  is_obj a = true /\ is_obj b = true /\
  under "filings" (same_on ["recent"]) a b.

(** [d] with the field [(k, v)] added at position [n]. *)
Definition with_field (d : dict json) (n : nat) (k : string) (v : json)
  : dict json :=
  firstn n d ++ (k, v) :: skipn n d.

(** The field names of the entries of a ticker document, as pandas
    collects them. *)
Definition entry_field_names (entries : dict json) : list string :=
  unique_multiple
    (dict_lists (map (dict_item entries) (sorted (keys entries)))).

(** The objects of the entry under the key [k] of a ticker document, for
    the three field names [f1], [f2], [f3]: pandas builds one column of
    them before it transposes the frame. *)
Definition entry_values (entries : dict json) (k f1 f2 f3 : string)
  : list pyval :=
  [field (dict_item entries k) f1; field (dict_item entries k) f2;
   field (dict_item entries k) f3].

(** Row [i] names the taxonomy, tag and unit it descends from. *)
Definition ancestry (df : DataFrame) (i : nat) (taxonomy tag units : string)
  : Prop :=
  cell df i "taxonomy" = Some (Val (JStr taxonomy)) /\
  cell df i "tag" = Some (Val (JStr tag)) /\
  cell df i "units" = Some (Val (JStr units)).

End Upstream.

(* ------------------------------------------------------------------ *)
(** ** Sample documents *)

Module Samples.
Import Py Pandas SEC_API Upstream.

(** A library to run the samples with; the statements hold for every
    library.  This one follows pandas 2 on columns of numbers: where a
    column holds numbers and missing values only, its integers become
    floats, written with their digits, and [None] becomes [nan]; the
    cells of any other column are left as they are. *)
Definition is_number (v : pyval) : bool :=
  match v with
  | Val (JInt _) | Val (JFloat _) => true
  | _ => false
  end.

Definition is_missing (v : pyval) : bool :=
  match v with
  | NaN | Val JNull => true
  | _ => false
  end.

Definition numeric_column (col : list pyval) : bool :=
  forallb (fun v => is_number v || is_missing v) col
  && (existsb is_number col || existsb is_nan col).

Definition as_float (col : list pyval) (j : json) : pyval :=
  if numeric_column col then
    match j with
    | JInt z => Val (JFloat (str_int z ++ ".0")%string)
    | JNull => NaN
    | _ => Val j
    end
  else Val j.

Definition sample_library : library :=
  mkLibrary (fun _ => "") (fun _ => Raise TypeError)
            as_float as_float (fun vals => as_float (List.concat vals)).

Definition tickers_doc : json :=
  JObj [("0", JObj [("cik_str", JInt 320193); ("ticker", JStr "AAPL");
                    ("title", JStr "Apple Inc.")]);
        ("1", JObj [("cik_str", JInt 789019); ("ticker", JStr "MSFT");
                    ("title", JStr "MICROSOFT CORP")])].

(** [tickers_doc] with one more field in its second entry. *)
Definition tickers_doc_extra : json :=
  JObj [("0", JObj [("cik_str", JInt 320193); ("ticker", JStr "AAPL");
                    ("title", JStr "Apple Inc.")]);
        ("1", JObj [("cik_str", JInt 789019); ("ticker", JStr "MSFT");
                    ("title", JStr "MICROSOFT CORP");
                    ("exchange", JStr "Nasdaq")])].

Definition recent_doc : list (string * json) :=
  [("accessionNumber", JArr [JStr "0000320193-23-000106";
                             JStr "0000320193-23-000077"]);
   ("form", JArr [JStr "10-K"; JStr "10-Q"]);
   ("filingDate", JArr [JStr "2023-11-03"; JStr "2023-08-04"])].

Definition submissions_doc : json :=
  JObj [("cik", JStr "320193");
        ("name", JStr "Apple Inc.");
        ("filings", JObj [("recent", JObj recent_doc);
                          ("files", JArr [])])].

Definition obs1 : json :=
  JObj [("end", JStr "2022-09-24"); ("val", JInt 352755000000);
        ("accn", JStr "0000320193-22-000108"); ("fy", JInt 2022);
        ("fp", JStr "FY"); ("form", JStr "10-K");
        ("filed", JStr "2022-10-28"); ("frame", JStr "CY2022Q3I")].

(** An observation without ["fy"] and without ["frame"]. *)
Definition obs2 : json :=
  JObj [("end", JStr "2023-09-30"); ("val", JInt 352583000000);
        ("accn", JStr "0000320193-23-000106");
        ("fp", JStr "FY"); ("form", JStr "10-K");
        ("filed", JStr "2023-11-03")].

Definition obs3 : json :=
  JObj [("end", JStr "2023-09-30"); ("val", JInt 15550061000);
        ("fy", JInt 2023)].

Definition concept_doc : json :=
  JObj [("cik", JInt 320193);
        ("taxonomy", JStr "us-gaap");
        ("tag", JStr "Assets");
        ("label", JStr "Assets");
        ("description", JStr "Sum of the carrying amounts of all assets.");
        ("entityName", JStr "Apple Inc.");
        ("units", JObj [("USD", JArr [obs1; obs2]);
                        ("shares", JArr [obs3])])].

(** [concept_doc] with fields the operation does not read, at the top
    level and inside an observation. *)
Definition concept_doc_extra : json :=
  JObj [("cik", JInt 320193);
        ("taxonomy", JStr "us-gaap");
        ("source", JStr "edgar");
        ("tag", JStr "Assets");
        ("label", JStr "Assets");
        ("description", JStr "Sum of the carrying amounts of all assets.");
        ("entityName", JStr "Apple Inc.");
        ("units", JObj [("USD", JArr [obs1; obs2]);
                        ("shares",
                         JArr [JObj [("end", JStr "2023-09-30");
                                     ("val", JInt 15550061000);
                                     ("fy", JInt 2023);
                                     ("start", JStr "2022-10-01")]])])].

Definition tag_doc (label : string) (u1 u2 : string) : json :=
  JObj [("label", JStr label);
        ("description", JNull);
        ("units", JObj [(u1, JArr [obs1]); (u2, JArr [obs2])])].

(** Two taxonomies, one tag each, two units each, one observation each. *)
Definition facts_section : json :=
  JObj [("dei", JObj [("EntityPublicFloat",
                       tag_doc "Entity Public Float" "USD" "EUR")]);
        ("us-gaap", JObj [("Assets", tag_doc "Assets" "USD" "shares")])].

Definition facts_doc : json :=
  JObj [("cik", JInt 320193);
        ("entityName", JStr "Apple Inc.");
        ("facts", facts_section)].

(** A document with its ["facts"] section but without ["cik"]. *)
Definition facts_doc_no_cik : json :=
  JObj [("entityName", JStr "Apple Inc.");
        ("facts", facts_section)].

(** A document without its ["facts"] section. *)
Definition facts_doc_no_facts : json :=
  JObj [("cik", JInt 320193); ("entityName", JStr "Apple Inc.")].

Definition entry1 : json :=
  JObj [("accn", JStr "0000320193-19-000119"); ("cik", JInt 320193);
        ("entityName", JStr "Apple Inc."); ("loc", JStr "US-CA");
        ("end", JStr "2019-03-30"); ("val", JInt 29115000000)].

(** An entry without ["loc"]. *)
Definition entry2 : json :=
  JObj [("accn", JStr "0000789019-19-000009"); ("cik", JInt 789019);
        ("entityName", JStr "MICROSOFT CORP");
        ("end", JStr "2019-03-31"); ("val", JInt 7544000000)].

Definition frames_doc : json :=
  JObj [("taxonomy", JStr "us-gaap");
        ("tag", JStr "AccountsPayableCurrent");
        ("ccp", JStr "CY2019Q1I");
        ("uom", JStr "USD");
        ("label", JStr "Accounts Payable, Current");
        ("description", JStr "Carrying value of liabilities.");
        ("pts", JInt 2);
        ("data", JArr [entry1; entry2])].

(** [frames_doc] without ["ccp"]. *)
Definition frames_doc_no_ccp : json :=
  JObj [("taxonomy", JStr "us-gaap");
        ("tag", JStr "AccountsPayableCurrent");
        ("uom", JStr "USD");
        ("label", JStr "Accounts Payable, Current");
        ("description", JStr "Carrying value of liabilities.");
        ("pts", JInt 2);
        ("data", JArr [entry1; entry2])].

End Samples.

(* ------------------------------------------------------------------ *)
(** ** Edge cases

    Vocabulary and sample documents for the behaviour of the operations
    on empty, incomplete and malformed documents. *)

Module Edge.
Import Py Pandas SEC_API Upstream.

(** [pd.DataFrame()] as [from_records] builds it from nothing: no row
    label, no column, no row. *)
Definition empty_frame : DataFrame := mkDataFrame [] [] [].

(** The exceptions that taking a parsed document apart can raise:
    [TypeError] (subscript or iteration of a value that has none),
    [AttributeError] ([.items()] or [.get] of a value that is no dict), or
    [KeyError] for one of the keys [ks]. *)
Definition access_error (ks : list string) (e : exn) : Prop :=
  e = TypeError \/ e = AttributeError \/
  exists k, In k ks /\ e = KeyError k.

Definition frames_keys : list string := "data" :: frames_metadata.

Definition concept_keys : list string := "units" :: concept_metadata.

Definition facts_keys : list string :=
  ["facts"; "cik"; "entityName"; "label"; "description"; "units"].

(** Ascending order of strings, as Python compares them. *)
Definition str_le (a b : string) : Prop := String.leb a b = true.

(** The first of the keys [ks] that the document lacks. *)
Definition first_missing (raw : json) (ks : list string) : option string :=
  find (fun k => negb (has_key raw k)) ks.

Definition is_arr (j : json) : bool :=
  match j with
  | JArr _ => true
  | _ => false
  end.

(** A units mapping whose values are arrays, of anything. *)
Definition units_arrays (u : json) : bool :=
  match u with
  | JObj d => forallb (fun kv => is_arr (snd kv)) d
  | _ => false
  end.

(** A frame document whose second entry is a number. *)
Definition frames_doc_bad_entry : json :=
  JObj [("taxonomy", JStr "us-gaap");
        ("tag", JStr "AccountsPayableCurrent");
        ("ccp", JStr "CY2019Q1I");
        ("uom", JStr "USD");
        ("label", JStr "Accounts Payable, Current");
        ("description", JStr "Carrying value of liabilities.");
        ("data", JArr [JObj [("accn", JStr "0000320193-19-000119")];
                       JInt 7])].

(** A ticker document whose keys are not in lexicographic order, and
    whose entries name their fields in another way. *)
Definition tickers_doc_unordered : json :=
  JObj [("2", JObj [("id", JInt 1318605); ("symbol", JStr "TSLA");
                    ("name", JStr "Tesla, Inc.")]);
        ("10", JObj [("id", JInt 1045810); ("symbol", JStr "NVDA");
                     ("name", JStr "NVIDIA CORP")]);
        ("1", JObj [("id", JInt 789019); ("symbol", JStr "MSFT")])].

(** A "recent" section whose arrays do not have one common length. *)
Definition recent_ragged : list (string * json) :=
  [("form", JArr [JStr "10-K"; JStr "10-Q"]);
   ("filingDate", JArr [JStr "2023-11-03"])].

Definition submissions_doc_ragged : json :=
  JObj [("cik", JStr "320193");
        ("filings", JObj [("recent", JObj recent_ragged)])].

(** A ticker document with an identifier of eleven digits. *)
Definition tickers_doc_wide : json :=
  JObj [("0", JObj [("cik_str", JInt 12345678901); ("ticker", JStr "WIDE");
                    ("title", JStr "Wide Identifier Corp")]);
        ("1", JObj [("cik_str", JInt 789019); ("ticker", JStr "MSFT");
                    ("title", JStr "MICROSOFT CORP")])].

(** A concept document without "taxonomy" and without "label"; its first
    unit has no observation. *)
Definition concept_doc_no_taxonomy : json :=
  JObj [("cik", JInt 320193);
        ("tag", JStr "Assets");
        ("description", JStr "Sum of the carrying amounts of all assets.");
        ("entityName", JStr "Apple Inc.");
        ("units", JObj [("EUR", JArr []);
                        ("USD", JArr [JObj [("val", JInt 1)]])])].

(** A frame document for a period nobody reported: no metadata is needed
    to flatten it. *)
Definition frames_doc_no_entry : json :=
  JObj [("pts", JInt 0); ("data", JArr [])].

End Edge.

(* ------------------------------------------------------------------ *)
(** ** Properties *)

Import Py Pandas SEC_API Upstream Samples.

Unset Implicit Arguments.

(** *** Comprehensions that raise nothing *)

Lemma mapM_ok {A B} (f : A -> result B) (g : A -> B) (l : list A) :
  (forall x, In x l -> f x = Ok (g x)) -> mapM f l = Ok (map g l).
Proof.
  induction l as [|a l IH]; intros H; simpl; [reflexivity|].
  rewrite (H a (or_introl eq_refl)); simpl.
  rewrite IH by (intros x Hx; apply H; right; exact Hx).
  reflexivity.
Qed.

Lemma flat_mapM_ok {A B} (f : A -> result (list B)) (g : A -> list B)
  (l : list A) :
  (forall x, In x l -> f x = Ok (g x)) -> flat_mapM f l = Ok (flat_map g l).
Proof.
  induction l as [|a l IH]; intros H; simpl; [reflexivity|].
  rewrite (H a (or_introl eq_refl)); simpl.
  rewrite IH by (intros x Hx; apply H; right; exact Hx).
  reflexivity.
Qed.

Lemma mapM_ext {A B} (f g : A -> result B) (l : list A) :
  (forall x, In x l -> f x = g x) -> mapM f l = mapM g l.
Proof.
  induction l as [|a l IH]; intros H; simpl; [reflexivity|].
  rewrite (H a (or_introl eq_refl)).
  rewrite IH by (intros x Hx; apply H; right; exact Hx).
  reflexivity.
Qed.

(** *** Reading fields *)

Lemma getitem_lookup (j : json) (k : string) (v : json) :
  lookup j k = Some v -> getitem j k = Ok v.
Proof.
  destruct j; simpl; try discriminate.
  intros ->. reflexivity.
Qed.

Lemma getitem_has_key (j : json) (k : string) :
  has_key j k = true ->
  exists v, lookup j k = Some v /\ getitem j k = Ok v /\ field j k = Val v.
Proof.
  unfold has_key, field. destruct (lookup j k) as [v|] eqn:E; [|discriminate].
  intros _. exists v. repeat split. apply getitem_lookup. exact E.
Qed.

Lemma get_nan_obj (o : json) (k : string) :
  is_obj o = true -> get_nan o k = Ok (field o k).
Proof.
  destruct o; simpl; try discriminate. intros _.
  unfold field; simpl. destruct (dict_get k fields); reflexivity.
Qed.

(** *** Lists, dicts and positions *)

Lemma insert_sorted_In (k x : string) (l : list string) :
  In x (insert_sorted k l) <-> x = k \/ In x l.
Proof.
  induction l as [|a l IH]; simpl; [intuition|].
  destruct (String.leb k a); simpl; [intuition|].
  rewrite IH. intuition.
Qed.

Lemma sorted_In (x : string) (l : list string) : In x (sorted l) <-> In x l.
Proof.
  unfold sorted. induction l as [|a l IH]; simpl; [reflexivity|].
  rewrite insert_sorted_In, IH. intuition.
Qed.

Lemma sorted_nonempty (l : list string) : l <> [] -> sorted l <> [].
Proof.
  intros Hne Hs. destruct l as [|a l]; [congruence|].
  assert (In a (sorted (a :: l))) as Ha by (apply sorted_In; left; reflexivity).
  rewrite Hs in Ha. contradiction.
Qed.

Lemma dict_get_In {A} (k : string) (d : dict A) (v : A) :
  dict_get k d = Some v -> In (k, v) d.
Proof.
  induction d as [|[k' v'] d IH]; simpl; [discriminate|].
  destruct (String.eqb k k') eqn:E.
  - apply String.eqb_eq in E. intros H. inversion H. subst. left. reflexivity.
  - intros H. right. apply IH. exact H.
Qed.

Lemma dict_get_keys {A} (k : string) (d : dict A) :
  In k (keys d) -> exists v, dict_get k d = Some v.
Proof.
  induction d as [|[k' v'] d IH]; simpl; [contradiction|].
  intros [->|H].
  - rewrite String.eqb_refl. eauto.
  - destruct (String.eqb k k'); eauto.
Qed.

Lemma dict_get_some_keys {A} (k : string) (d : dict A) (v : A) :
  dict_get k d = Some v -> In k (keys d).
Proof.
  intros H. apply dict_get_In in H. apply (in_map fst) in H. exact H.
Qed.

Lemma position_In (k : string) (l : list string) :
  In k l ->
  exists j, position (LStr k) (map LStr l) = Some j /\ nth_error l j = Some k.
Proof.
  induction l as [|a l IH]; simpl; [contradiction|].
  intros H. destruct (String.eqb k a) eqn:E.
  - apply String.eqb_eq in E. subst. exists O. split; reflexivity.
  - assert (In k l) as Hin.
    { destruct H as [->|H]; [|exact H].
      rewrite String.eqb_refl in E. discriminate. }
    destruct (IH Hin) as (j & Hp & Hn). exists (S j). rewrite Hp.
    split; [reflexivity | exact Hn].
Qed.

Lemma length_range_index (n : nat) : List.length (range_index n) = n.
Proof. unfold range_index. rewrite length_map, length_seq. reflexivity. Qed.

Lemma nth_error_seq_0 (n i : nat) :
  (i < n)%nat -> nth_error (seq 0 n) i = Some i.
Proof.
  intros H. rewrite (nth_error_nth' _ O) by (rewrite length_seq; exact H).
  rewrite seq_nth by exact H. reflexivity.
Qed.

Lemma nth_error_lt {A} (l : list A) (i : nat) :
  (i < List.length l)%nat -> exists x, nth_error l i = Some x.
Proof.
  intros H. destruct (nth_error l i) as [x|] eqn:E; [exists x; reflexivity|].
  apply nth_error_None in E. lia.
Qed.

(** *** Flattening a well-formed document *)

Ltac split_andb :=
  repeat match goal with
         | H : _ && _ = true |- _ => apply andb_prop in H; destruct H
         end.

Ltac read_key H :=
  let v := fresh "v" in
  let Hl := fresh "Hl" in
  let Hg := fresh "Hg" in
  let Hf := fresh "Hf" in
  destruct (getitem_has_key _ _ H) as (v & Hl & Hg & Hf);
  rewrite Hg, Hf; simpl bind.

Lemma units_loop_ok (row : string -> json -> result (dict pyval))
  (g : string * json -> dict pyval) (u : json) :
  units_ok u = true ->
  (forall k o, is_obj o = true -> row k o = Ok (g (k, o))) ->
  (units_items <- items u ;;
   flat_mapM (fun '(key_units, value_units) =>
                rows <- iter value_units ;;
                mapM (row key_units) rows) units_items)
  = Ok (map g (unit_leaves u)).
Proof.
  intros Hu Hrow. destruct u; try discriminate. simpl in Hu. simpl bind.
  unfold unit_leaves; simpl obj_items.
  rewrite flat_map_concat_map, concat_map, map_map, <- flat_map_concat_map.
  apply flat_mapM_ok. intros [k vu] Hin.
  rewrite forallb_forall in Hu. specialize (Hu _ Hin). simpl in Hu.
  destruct vu; try discriminate. simpl in *.
  rewrite map_map. apply mapM_ok. intros o Ho.
  apply Hrow. rewrite forallb_forall in Hu. apply Hu. exact Ho.
Qed.

Lemma companyconcept_row_ok (raw : json) (u : string) (o : json) :
  concept_ok raw = true -> is_obj o = true ->
  companyconcept_row raw u o = Ok (concept_row_of raw (u, o)).
Proof.
  unfold concept_ok. intros H Ho. split_andb.
  unfold companyconcept_row, concept_row_of.
  repeat match goal with
         | H : has_key raw _ = true |- _ => read_key H; clear H
         end.
  rewrite !(get_nan_obj _ _ Ho). reflexivity.
Qed.

Lemma companyconcept_df_list_ok (raw : json) :
  concept_ok raw = true ->
  companyconcept_df_list raw
  = Ok (map (concept_row_of raw) (concept_leaves raw)).
Proof.
  intros H. pose proof H as H0. unfold concept_ok in H0. split_andb.
  unfold companyconcept_df_list, concept_leaves.
  match goal with Hu : has_units raw = true |- _ =>
    unfold has_units in Hu;
    destruct (lookup raw "units") as [u|] eqn:E; [|discriminate];
    rewrite (getitem_lookup _ _ _ E); simpl bind;
    apply (units_loop_ok (companyconcept_row raw) (concept_row_of raw) u Hu)
  end.
  intros k o Ho. apply companyconcept_row_ok; assumption.
Qed.

Lemma companyfacts_row_ok (raw : json) (tx tg : string) (t : json)
  (u : string) (o : json) :
  has_key raw "cik" = true -> has_key raw "entityName" = true ->
  tag_ok t = true -> is_obj o = true ->
  companyfacts_row raw tx tg t u o = Ok (facts_row_of raw (mkLeaf tx tg t u o)).
Proof.
  unfold tag_ok. intros H1 H2 H Ho. split_andb.
  unfold companyfacts_row, facts_row_of.
  cbn [leaf_taxonomy leaf_tag leaf_concept leaf_units leaf_obs].
  read_key H1. read_key H2.
  repeat match goal with
         | H : has_key t _ = true |- _ => read_key H; clear H
         end.
  rewrite !(get_nan_obj _ _ Ho). reflexivity.
Qed.

Lemma companyfacts_df_list_ok (raw : json) :
  facts_ok raw = true ->
  companyfacts_df_list raw = Ok (map (facts_row_of raw) (facts_leaves raw)).
Proof.
  unfold facts_ok. intros H. split_andb.
  match goal with Hs : facts_section_ok raw = true |- _ =>
    unfold facts_section_ok in Hs;
    destruct (lookup raw "facts") as [facts|] eqn:E; [|discriminate];
    destruct facts as [| | | | | |taxonomies]; try discriminate;
    rename Hs into Htx
  end.
  unfold companyfacts_df_list, facts_leaves.
  rewrite E, (getitem_lookup _ _ _ E). simpl bind. simpl obj_items.
  rewrite flat_map_concat_map, concat_map, map_map, <- flat_map_concat_map.
  apply flat_mapM_ok. intros [tx vtx] Hin.
  rewrite forallb_forall in Htx. specialize (Htx _ Hin). simpl in Htx.
  destruct vtx as [| | | | | |tags]; try discriminate.
  simpl in Htx. simpl bind. simpl obj_items.
  rewrite flat_map_concat_map, concat_map, map_map, <- flat_map_concat_map.
  apply flat_mapM_ok. intros [tg t] Hin'.
  rewrite forallb_forall in Htx. specialize (Htx _ Hin'). simpl in Htx.
  pose proof Htx as Ht. unfold tag_ok in Htx. split_andb.
  match goal with Hu : has_units t = true |- _ =>
    unfold has_units in Hu; unfold tag_leaves;
    destruct (lookup t "units") as [u|] eqn:Eu; [|discriminate];
    rewrite (getitem_lookup _ _ _ Eu); simpl bind;
    rewrite map_map;
    rewrite (units_loop_ok (companyfacts_row raw tx tg t)
               (fun l => facts_row_of raw (mkLeaf tx tg t (fst l) (snd l)))
               u Hu)
  end.
  - f_equal. apply map_ext. intros [k o]. reflexivity.
  - intros k o Ho. simpl. apply companyfacts_row_ok; assumption.
Qed.

Lemma frames_row_ok (raw o : json) :
  forallb (has_key raw) frames_metadata = true -> is_obj o = true ->
  frames_row raw o = Ok (frames_row_of raw o).
Proof.
  intros H Ho. simpl in H. split_andb.
  unfold frames_row, frames_row_of, frames_metadata, entry_fields.
  cbn [map app].
  repeat match goal with
         | H : has_key raw _ = true |- _ => read_key H; clear H
         end.
  rewrite !(get_nan_obj _ _ Ho). reflexivity.
Qed.

Lemma frames_df_list_ok (raw : json) :
  frames_ok raw = true ->
  frames_df_list raw = Ok (map (frames_row_of raw) (frames_entries raw)).
Proof.
  unfold frames_ok. intros H. split_andb.
  match goal with Hd : frames_data_ok raw = true |- _ =>
    unfold frames_data_ok in Hd;
    destruct (lookup raw "data") as [data|] eqn:E; [|discriminate];
    destruct data as [| | | | |l|]; try discriminate;
    rename Hd into Hl
  end.
  unfold frames_df_list, frames_entries.
  rewrite E, (getitem_lookup _ _ _ E). simpl bind. simpl arr_elems.
  apply mapM_ok. intros o Ho. apply frames_row_ok; [assumption|].
  rewrite forallb_forall in Hl. apply Hl. exact Ho.
Qed.

(** *** Frames built from rows with one common list of keys *)

Lemma mem_In (k : string) (l : list string) : mem k l = true <-> In k l.
Proof.
  induction l as [|a l IH]; simpl; [intuition discriminate|].
  rewrite orb_true_iff, IH, String.eqb_eq. intuition congruence.
Qed.

Lemma add_keys_absorb (l acc : list string) :
  (forall k, In k l -> In k acc) -> add_keys acc l = acc.
Proof.
  unfold add_keys. induction l as [|a l IH]; intros H; simpl; [reflexivity|].
  destruct (mem a acc) eqn:E.
  - apply IH. intros k Hk. apply H. right. exact Hk.
  - assert (In a acc) as Ha by (apply H; left; reflexivity).
    apply mem_In in Ha. congruence.
Qed.

Lemma add_keys_fresh (l acc : list string) :
  NoDup (acc ++ l) -> add_keys acc l = acc ++ l.
Proof.
  unfold add_keys. revert acc.
  induction l as [|a l IH]; intros acc H; simpl.
  - rewrite app_nil_r. reflexivity.
  - destruct (mem a acc) eqn:E.
    + apply mem_In in E. apply NoDup_remove_2 in H.
      exfalso. apply H. apply in_or_app. left. exact E.
    + rewrite IH; rewrite <- app_assoc; simpl; [reflexivity | exact H].
Qed.

Lemma unique_multiple_uniform (K : list string) (ls : list (list string)) :
  NoDup K -> ls <> [] -> (forall l, In l ls -> l = K) ->
  unique_multiple ls = K.
Proof.
  intros HK Hne Hall. unfold unique_multiple.
  destruct ls as [|l ls]; [congruence|]. simpl.
  rewrite (Hall l (or_introl eq_refl)).
  rewrite (add_keys_fresh K []) by exact HK. simpl.
  assert (forall l', In l' ls -> l' = K) as Hrest
      by (intros l' Hl'; apply Hall; right; exact Hl').
  clear Hall Hne. induction ls as [|l' ls IH]; simpl; [reflexivity|].
  rewrite (Hrest l' (or_introl eq_refl)).
  rewrite add_keys_absorb by auto.
  apply IH. intros l'' Hl''. apply Hrest. right. exact Hl''.
Qed.

(** *** Dtype inference: what every column keeps *)

Lemma convert_with_length (other : list pyval -> json -> pyval)
  (col : list pyval) :
  List.length (convert_with other col) = List.length col.
Proof.
  unfold convert_with. destruct (kept_column col);
    [reflexivity | apply length_map].
Qed.

Lemma convert_with_nth (other : list pyval -> json -> pyval)
  (col : list pyval) (i : nat) (v : pyval) :
  nth_error col i = Some v ->
  nth_error (convert_with other col) i
  = Some (if kept_column col then v else cellwise other col v).
Proof.
  intros H. unfold convert_with.
  destruct (kept_column col); [exact H | apply map_nth_error; exact H].
Qed.

Lemma convert_with_nan (other : list pyval -> json -> pyval)
  (col : list pyval) (i : nat) :
  nth_error col i = Some NaN ->
  nth_error (convert_with other col) i = Some NaN.
Proof.
  intros H. rewrite (convert_with_nth other col i NaN H).
  destruct (kept_column col); reflexivity.
Qed.

Lemma convert_with_kept (other : list pyval -> json -> pyval)
  (col : list pyval) :
  kept_column col = true -> convert_with other col = col.
Proof. intros H. unfold convert_with. rewrite H. reflexivity. Qed.

(** Equal objects of one column are converted alike. *)
Lemma convert_with_same (other : list pyval -> json -> pyval)
  (col : list pyval) (i j : nat) (v : pyval) :
  nth_error col i = Some v -> nth_error col j = Some v ->
  nth_error (convert_with other col) i = nth_error (convert_with other col) j.
Proof.
  intros Hi Hj.
  rewrite (convert_with_nth other col i v Hi).
  rewrite (convert_with_nth other col j v Hj). reflexivity.
Qed.

Lemma strings_kept (col : list pyval) :
  col <> [] -> (forall v, In v col -> is_str v = true) ->
  kept_column col = true.
Proof.
  intros Hne Hall. unfold kept_column, object_column.
  apply orb_true_iff. right. apply andb_true_intro. split.
  - destruct col as [|a col]; [congruence|]. cbn [existsb].
    rewrite (Hall a (or_introl eq_refl)). reflexivity.
  - apply forallb_forall. intros v Hv. rewrite (Hall v Hv). reflexivity.
Qed.

Lemma plain_constant_kept {A} (v : pyval) (l : list A) :
  plain v = true -> l <> [] -> kept_column (map (fun _ => v) l) = true.
Proof.
  intros Hv Hne. unfold plain in Hv. apply orb_true_iff in Hv.
  destruct Hv as [Hs|Hi].
  - apply strings_kept.
    + destruct l; [congruence | discriminate].
    + intros w Hw. apply in_map_iff in Hw. destruct Hw as (_ & <- & _).
      exact Hs.
  - unfold kept_column, int_column. apply orb_true_iff. left.
    apply forallb_forall. intros w Hw. apply in_map_iff in Hw.
    destruct Hw as (_ & <- & _). exact Hi.
Qed.

Lemma holds_in_column_intro (other : list pyval -> json -> pyval)
  (df : DataFrame) (i : nat) (k : string) (vs : list pyval) (v : pyval) :
  cell df i k = nth_error (convert_with other vs) i ->
  nth_error vs i = Some v ->
  holds_in_column (convert_with other) df i k vs v.
Proof.
  intros Hc Hv. split; [exact Hc|]. split.
  - intros ->. rewrite Hc. apply convert_with_nan. exact Hv.
  - intros Hk. rewrite Hc, (convert_with_kept other vs Hk). exact Hv.
Qed.

(** *** Frames built from a list of records *)

Lemma from_records_dicts_nrows (L : library) (data : list (dict pyval)) :
  nrows (from_records_dicts L data) = List.length data.
Proof.
  unfold nrows, from_records_dicts. cbn [values].
  rewrite length_map, length_seq. reflexivity.
Qed.

Lemma from_records_dicts_rectangular (L : library)
  (data : list (dict pyval)) :
  rectangular (from_records_dicts L data).
Proof.
  unfold rectangular, from_records_dicts. cbn [values columns].
  apply Forall_forall. intros row Hrow.
  apply in_map_iff in Hrow. destruct Hrow as (r & <- & _).
  rewrite !length_map. reflexivity.
Qed.

Section UniformRows.

Variable L : library.
Variable K : list string.
Variable rows : list (dict pyval).
Hypothesis K_nodup : NoDup K.
Hypothesis rows_keys : forall d, In d rows -> keys d = K.

Lemma uniform_rows_keys :
  rows <> [] -> unique_multiple (map (@keys pyval) rows) = K.
Proof.
  intros Hne. apply (unique_multiple_uniform K _ K_nodup).
  - destruct rows; [congruence | discriminate].
  - intros l Hl. apply in_map_iff in Hl. destruct Hl as (d & <- & Hd).
    apply rows_keys. exact Hd.
Qed.

Lemma from_records_dicts_columns :
  rows <> [] -> columns (from_records_dicts L rows) = map LStr K.
Proof.
  intros Hne. unfold from_records_dicts. cbn [columns].
  rewrite (uniform_rows_keys Hne). reflexivity.
Qed.

(** The cell of row [i] under [c]: the [i]-th cell of the column that the
    objects of the records under [c] are converted to. *)
Lemma from_records_dicts_cell (i : nat) (c : string) :
  In c K -> (i < List.length rows)%nat ->
  cell (from_records_dicts L rows) i c
  = nth_error (convert_objects L (map (get_default c) rows)) i.
Proof.
  intros Hc Hi.
  assert (rows <> []) as Hne
      by (destruct rows; [simpl in Hi; lia | discriminate]).
  unfold cell, from_records_dicts. cbn [columns values].
  rewrite (uniform_rows_keys Hne).
  destruct (position_In c K Hc) as (j & Hp & Hn). rewrite Hp.
  rewrite (map_nth_error _ i _ (nth_error_seq_0 _ i Hi)).
  rewrite (map_nth_error _ j _ (map_nth_error _ j _ Hn)).
  symmetry. apply nth_error_nth'.
  unfold convert_objects. rewrite convert_with_length, length_map. exact Hi.
Qed.

End UniformRows.

Lemma rows_nrows {A} (L : library) (f : A -> dict pyval) (leaves : list A) :
  nrows (from_records_dicts L (map f leaves)) = List.length leaves.
Proof. rewrite from_records_dicts_nrows. apply length_map. Qed.

(** Row [i] of the frame built from the rows [f l], under a key [c] that
    every row carries with the object [g l]. *)
Lemma rows_cell {A} (L : library) (f : A -> dict pyval) (g : A -> pyval)
  (K : list string) (leaves : list A) (i : nat) (l : A) (c : string) :
  NoDup K -> (forall x, keys (f x) = K) ->
  (forall x, dict_get c (f x) = Some (g x)) ->
  nth_error leaves i = Some l ->
  cell (from_records_dicts L (map f leaves)) i c
  = nth_error (convert_objects L (map g leaves)) i.
Proof.
  intros HK Hkeys Hg Hi.
  assert (i < List.length leaves)%nat as Hlt
      by (apply nth_error_Some; congruence).
  rewrite (from_records_dicts_cell L K (map f leaves) HK).
  - f_equal. f_equal. rewrite map_map. apply map_ext. intros x.
    unfold get_default. rewrite Hg. reflexivity.
  - intros d Hd. apply in_map_iff in Hd. destruct Hd as (x & <- & _).
    apply Hkeys.
  - rewrite <- (Hkeys l). apply (dict_get_some_keys _ _ _ (Hg l)).
  - rewrite length_map. exact Hlt.
Qed.

Lemma rows_hold {A} (L : library) (f : A -> dict pyval) (g : A -> pyval)
  (K : list string) (leaves : list A) (i : nat) (l : A) (c : string) :
  NoDup K -> (forall x, keys (f x) = K) ->
  (forall x, dict_get c (f x) = Some (g x)) ->
  nth_error leaves i = Some l ->
  holds_in_column (convert_objects L) (from_records_dicts L (map f leaves))
                  i c (map g leaves) (g l).
Proof.
  intros HK Hkeys Hg Hi. apply holds_in_column_intro.
  - apply (rows_cell L f g K leaves i l c HK Hkeys Hg Hi).
  - apply map_nth_error. exact Hi.
Qed.

(** A column of strings holds them. *)
Lemma rows_string {A} (L : library) (f : A -> dict pyval) (g : A -> string)
  (K : list string) (leaves : list A) (i : nat) (l : A) (c : string) :
  NoDup K -> (forall x, keys (f x) = K) ->
  (forall x, dict_get c (f x) = Some (Val (JStr (g x)))) ->
  nth_error leaves i = Some l ->
  cell (from_records_dicts L (map f leaves)) i c = Some (Val (JStr (g l))).
Proof.
  intros HK Hkeys Hg Hi.
  destruct (rows_hold L f (fun x => Val (JStr (g x))) K leaves i l c
              HK Hkeys Hg Hi) as (_ & _ & Hkept).
  apply Hkept. apply strings_kept.
  - intros H. apply map_eq_nil in H. rewrite H in Hi.
    destruct i; discriminate Hi.
  - intros v Hv. apply in_map_iff in Hv. destruct Hv as (x & <- & _).
    reflexivity.
Qed.

(** A column whose objects are one and the same in every row holds one
    and the same cell in every row, and that object itself when it is a
    string or an integer. *)
Lemma rows_constant {A} (L : library) (f : A -> dict pyval) (v : pyval)
  (K : list string) (leaves : list A) (c : string) :
  NoDup K -> (forall x, keys (f x) = K) ->
  (forall x, dict_get c (f x) = Some v) ->
  (forall i j, (i < List.length leaves)%nat -> (j < List.length leaves)%nat ->
     cell (from_records_dicts L (map f leaves)) i c
     = cell (from_records_dicts L (map f leaves)) j c) /\
  (forall i, (i < List.length leaves)%nat -> plain v = true ->
     cell (from_records_dicts L (map f leaves)) i c = Some v).
Proof.
  intros HK Hkeys Hg.
  assert (forall i, (i < List.length leaves)%nat ->
            exists l, nth_error leaves i = Some l /\
              cell (from_records_dicts L (map f leaves)) i c
              = nth_error (convert_objects L (map (fun _ => v) leaves)) i /\
              nth_error (map (fun _ : A => v) leaves) i = Some v) as Hcell.
  { intros i Hi. destruct (nth_error_lt leaves i Hi) as [l Hl].
    exists l. split; [exact Hl|]. split.
    - apply (rows_cell L f (fun _ => v) K leaves i l c HK Hkeys Hg Hl).
    - apply (map_nth_error (fun _ => v) i leaves Hl). }
  split.
  - intros i j Hi Hj.
    destruct (Hcell i Hi) as (_ & _ & -> & Hvi).
    destruct (Hcell j Hj) as (_ & _ & -> & Hvj).
    apply (convert_with_same _ _ i j v Hvi Hvj).
  - intros i Hi Hv.
    destruct (Hcell i Hi) as (l & Hl & -> & Hvi).
    unfold convert_objects. rewrite convert_with_kept; [exact Hvi|].
    apply plain_constant_kept; [exact Hv|].
    intros ->. destruct i; discriminate Hl.
Qed.

Ltac nodup_strings :=
  repeat (constructor; [simpl; intuition discriminate|]); constructor.

Lemma concept_columns_nodup : NoDup concept_columns.
Proof. unfold concept_columns, observation_fields. simpl. nodup_strings. Qed.

Lemma facts_columns_nodup : NoDup facts_columns.
Proof. unfold facts_columns, observation_fields. simpl. nodup_strings. Qed.

Lemma frames_columns_nodup : NoDup frames_columns.
Proof.
  unfold frames_columns, frames_metadata, entry_fields. simpl.
  nodup_strings.
Qed.

(** *** One round trip, then a pure transformation *)

Lemma run_get_companyconcept (L : library) (cik email taxonomy tag : string) (srv : server)
  (raw : json) :
  delivers srv (companyconcept_request cik email taxonomy tag) raw ->
  fst (run (get_companyconcept L cik email taxonomy tag) srv)
  = (df_list <- companyconcept_df_list raw ;;
     Ok (from_records_dicts L df_list)).
Proof.
  intros [st H]. unfold companyconcept_request in H.
  unfold run, get_companyconcept, io_bind, requests_get, lift.
  cbn [List.length]. rewrite H. reflexivity.
Qed.

Lemma run_get_companyfacts (L : library) (cik email : string) (srv : server) (raw : json) :
  delivers srv (companyfacts_request cik email) raw ->
  fst (run (get_companyfacts L cik email) srv)
  = (df_list <- companyfacts_df_list raw ;;
     Ok (from_records_dicts L df_list)).
Proof.
  intros [st H]. unfold companyfacts_request in H.
  unfold run, get_companyfacts, io_bind, requests_get, lift.
  cbn [List.length]. rewrite H. reflexivity.
Qed.

Lemma run_get_frames (L : library) (email taxonomy tag units period : string)
  (srv : server) (raw : json) :
  delivers srv (frames_request email taxonomy tag units period) raw ->
  fst (run (get_frames L email taxonomy tag units period) srv)
  = (df_list <- frames_df_list raw ;; Ok (from_records_dicts L df_list)).
Proof.
  intros [st H]. unfold frames_request in H.
  unfold run, get_frames, io_bind, requests_get, lift.
  cbn [List.length]. rewrite H. reflexivity.
Qed.

Lemma run_get_submissions (L : library) (cik email : string) (srv : server)
  (raw : json) :
  delivers srv (submissions_request cik email) raw ->
  fst (run (get_submissions L cik email) srv)
  = (filings <- getitem raw "filings" ;;
     df_list <- getitem filings "recent" ;;
     from_records L df_list).
Proof.
  intros [st H]. unfold submissions_request in H.
  unfold run, get_submissions, io_bind, requests_get, lift.
  cbn [List.length]. rewrite H. reflexivity.
Qed.

Lemma run_get_companytickers (L : library) (parse_cik : bool) (srv : server)
  (raw : json) :
  delivers srv tickers_request raw ->
  fst (run (get_companytickers L parse_cik) srv)
  = (df <- from_records L raw ;;
     df <- set_columns (reset_index_drop (transpose L df)) tickers_columns ;;
     if parse_cik then
       cik <- get_column df "cik" ;;
       Ok (set_column df "cik" (map cik_format (astype_str L cik)))
     else Ok df).
Proof.
  intros [st H]. unfold tickers_request in H.
  unfold run, get_companytickers, io_bind, requests_get, lift.
  cbn [List.length]. rewrite H. reflexivity.
Qed.

Lemma delivers_upstream (st : Z) (raw : json) (rq : request) :
  delivers (upstream st (Some raw)) rq raw.
Proof. exists st. reflexivity. Qed.

(** *** The three row-building operations on well-formed documents *)

Lemma get_companyconcept_ok (L : library) (cik email taxonomy tag : string) (srv : server)
  (raw : json) :
  delivers srv (companyconcept_request cik email taxonomy tag) raw ->
  concept_ok raw = true ->
  fst (run (get_companyconcept L cik email taxonomy tag) srv)
  = Ok (from_records_dicts L (map (concept_row_of raw) (concept_leaves raw))).
Proof.
  intros Hd Hok. rewrite (run_get_companyconcept L _ _ _ _ _ _ Hd).
  rewrite (companyconcept_df_list_ok _ Hok). reflexivity.
Qed.

Lemma get_companyfacts_ok (L : library) (cik email : string) (srv : server) (raw : json) :
  delivers srv (companyfacts_request cik email) raw ->
  facts_ok raw = true ->
  fst (run (get_companyfacts L cik email) srv)
  = Ok (from_records_dicts L (map (facts_row_of raw) (facts_leaves raw))).
Proof.
  intros Hd Hok. rewrite (run_get_companyfacts L _ _ _ _ Hd).
  rewrite (companyfacts_df_list_ok _ Hok). reflexivity.
Qed.

Lemma get_frames_ok (L : library) (email taxonomy tag units period : string) (srv : server)
  (raw : json) :
  delivers srv (frames_request email taxonomy tag units period) raw ->
  frames_ok raw = true ->
  fst (run (get_frames L email taxonomy tag units period) srv)
  = Ok (from_records_dicts L (map (frames_row_of raw) (frames_entries raw))).
Proof.
  intros Hd Hok. rewrite (run_get_frames L _ _ _ _ _ _ _ Hd).
  rewrite (frames_df_list_ok _ Hok). reflexivity.
Qed.

(** *** What a row holds under each column *)

Ltac each_key H :=
  simpl in H;
  repeat (destruct H as [<-|H]; [try reflexivity|]); try contradiction.

Lemma concept_row_metadata (raw : json) (l : string * json) (k : string) :
  In k concept_metadata ->
  dict_get k (concept_row_of raw l) = Some (field raw k).
Proof. intros H. each_key H. Qed.

Lemma concept_row_units (raw : json) (l : string * json) :
  dict_get "units" (concept_row_of raw l) = Some (Val (JStr (fst l))).
Proof. reflexivity. Qed.

Lemma concept_row_observation (raw : json) (l : string * json) (k : string) :
  In k observation_fields ->
  dict_get k (concept_row_of raw l) = Some (field (snd l) k).
Proof. intros H. each_key H. Qed.

Lemma facts_row_ancestry (raw : json) (l : leaf) :
  dict_get "taxonomy" (facts_row_of raw l) = Some (Val (JStr (leaf_taxonomy l)))
  /\ dict_get "tag" (facts_row_of raw l) = Some (Val (JStr (leaf_tag l)))
  /\ dict_get "units" (facts_row_of raw l) = Some (Val (JStr (leaf_units l))).
Proof. repeat split. Qed.

Lemma facts_row_shared (raw : json) (l : leaf) :
  dict_get "cik" (facts_row_of raw l) = Some (field raw "cik")
  /\ dict_get "entityName" (facts_row_of raw l) = Some (field raw "entityName")
  /\ dict_get "label" (facts_row_of raw l)
     = Some (field (leaf_concept l) "label")
  /\ dict_get "description" (facts_row_of raw l)
     = Some (field (leaf_concept l) "description").
Proof. repeat split. Qed.

Lemma facts_row_observation (raw : json) (l : leaf) (k : string) :
  In k observation_fields ->
  dict_get k (facts_row_of raw l) = Some (field (leaf_obs l) k).
Proof. intros H. each_key H. Qed.

Lemma frames_row_metadata (raw o : json) (k : string) :
  In k frames_metadata ->
  dict_get k (frames_row_of raw o) = Some (field raw k).
Proof. intros H. each_key H. Qed.

Lemma frames_row_entry (raw o : json) (k : string) :
  In k entry_fields ->
  dict_get k (frames_row_of raw o) = Some (field o k).
Proof. intros H. each_key H. Qed.

Lemma has_key_field (j : json) (k : string) :
  has_key j k = true -> exists v, lookup j k = Some v /\ field j k = Val v.
Proof.
  intros H. destruct (getitem_has_key _ _ H) as (v & Hl & _ & Hf).
  exists v. split; assumption.
Qed.

Lemma concept_ok_metadata (raw : json) (k : string) :
  concept_ok raw = true -> In k concept_metadata -> has_key raw k = true.
Proof.
  unfold concept_ok. intros H Hk. split_andb.
  simpl in Hk. repeat (destruct Hk as [<-|Hk]; [assumption|]). contradiction.
Qed.

Lemma frames_ok_metadata (raw : json) (k : string) :
  frames_ok raw = true -> In k frames_metadata -> has_key raw k = true.
Proof.
  unfold frames_ok. intros H Hk. split_andb.
  match goal with H : forallb _ _ = true |- _ =>
    rewrite forallb_forall in H; apply H; exact Hk end.
Qed.


Lemma facts_row_tag (raw : json) (l : leaf) (k : string) :
  In k ["label"; "description"] ->
  dict_get k (facts_row_of raw l) = Some (field (leaf_concept l) k).
Proof. intros H. each_key H. Qed.

Lemma facts_row_document (raw : json) (l : leaf) (k : string) :
  In k ["cik"; "entityName"] ->
  dict_get k (facts_row_of raw l) = Some (field raw k).
Proof. intros H. each_key H. Qed.

(** *** What the frames of the three row-building operations hold *)

Lemma concept_frame_units (L : library) (raw : json) (i : nat) (u : string)
  (o : json) :
  nth_error (concept_leaves raw) i = Some (u, o) ->
  cell (from_records_dicts L (map (concept_row_of raw) (concept_leaves raw)))
       i "units" = Some (Val (JStr u)).
Proof.
  intros Hi.
  apply (rows_string L (concept_row_of raw) fst concept_columns
           (concept_leaves raw) i (u, o) "units" concept_columns_nodup);
    [reflexivity | apply concept_row_units | exact Hi].
Qed.

Lemma concept_frame_observation (L : library) (raw : json) (i : nat)
  (u : string) (o : json) (k : string) :
  nth_error (concept_leaves raw) i = Some (u, o) ->
  In k observation_fields ->
  holds_in_column
    (convert_objects L)
    (from_records_dicts L (map (concept_row_of raw) (concept_leaves raw)))
    i k (concept_values raw k) (field o k).
Proof.
  intros Hi Hk.
  apply (rows_hold L (concept_row_of raw) (fun l => field (snd l) k)
           concept_columns (concept_leaves raw) i (u, o) k
           concept_columns_nodup);
    [reflexivity | intros x; apply concept_row_observation; exact Hk
    | exact Hi].
Qed.

Lemma concept_frame_metadata (L : library) (raw : json) (k : string) :
  In k concept_metadata ->
  (forall i j,
      (i < List.length (concept_leaves raw))%nat ->
      (j < List.length (concept_leaves raw))%nat ->
      cell (from_records_dicts L
              (map (concept_row_of raw) (concept_leaves raw))) i k
      = cell (from_records_dicts L
                (map (concept_row_of raw) (concept_leaves raw))) j k) /\
  (forall i,
      (i < List.length (concept_leaves raw))%nat ->
      plain (field raw k) = true ->
      cell (from_records_dicts L
              (map (concept_row_of raw) (concept_leaves raw))) i k
      = Some (field raw k)).
Proof.
  intros Hk.
  apply (rows_constant L (concept_row_of raw) (field raw k) concept_columns
           (concept_leaves raw) k concept_columns_nodup);
    [reflexivity | intros x; apply concept_row_metadata; exact Hk].
Qed.

Lemma facts_frame_ancestry (L : library) (raw : json) (i : nat) (l : leaf) :
  nth_error (facts_leaves raw) i = Some l ->
  ancestry (from_records_dicts L (map (facts_row_of raw) (facts_leaves raw)))
           i (leaf_taxonomy l) (leaf_tag l) (leaf_units l).
Proof.
  intros Hi. unfold ancestry. split; [|split].
  - apply (rows_string L (facts_row_of raw) leaf_taxonomy facts_columns
             (facts_leaves raw) i l "taxonomy" facts_columns_nodup);
      [reflexivity | intros x; apply facts_row_ancestry | exact Hi].
  - apply (rows_string L (facts_row_of raw) leaf_tag facts_columns
             (facts_leaves raw) i l "tag" facts_columns_nodup);
      [reflexivity | intros x; apply facts_row_ancestry | exact Hi].
  - apply (rows_string L (facts_row_of raw) leaf_units facts_columns
             (facts_leaves raw) i l "units" facts_columns_nodup);
      [reflexivity | intros x; apply facts_row_ancestry | exact Hi].
Qed.

Lemma facts_frame_tag (L : library) (raw : json) (i : nat) (l : leaf)
  (k : string) :
  nth_error (facts_leaves raw) i = Some l ->
  In k ["label"; "description"] ->
  holds_in_column
    (convert_objects L)
    (from_records_dicts L (map (facts_row_of raw) (facts_leaves raw)))
    i k (facts_tag_values raw k) (field (leaf_concept l) k).
Proof.
  intros Hi Hk.
  apply (rows_hold L (facts_row_of raw) (fun l => field (leaf_concept l) k)
           facts_columns (facts_leaves raw) i l k facts_columns_nodup);
    [reflexivity | intros x; apply facts_row_tag; exact Hk | exact Hi].
Qed.

Lemma facts_frame_observation (L : library) (raw : json) (i : nat) (l : leaf)
  (k : string) :
  nth_error (facts_leaves raw) i = Some l ->
  In k observation_fields ->
  holds_in_column
    (convert_objects L)
    (from_records_dicts L (map (facts_row_of raw) (facts_leaves raw)))
    i k (facts_values raw k) (field (leaf_obs l) k).
Proof.
  intros Hi Hk.
  apply (rows_hold L (facts_row_of raw) (fun l => field (leaf_obs l) k)
           facts_columns (facts_leaves raw) i l k facts_columns_nodup);
    [reflexivity | intros x; apply facts_row_observation; exact Hk
    | exact Hi].
Qed.

Lemma facts_frame_document (L : library) (raw : json) (k : string) :
  In k ["cik"; "entityName"] ->
  (forall i j,
      (i < List.length (facts_leaves raw))%nat ->
      (j < List.length (facts_leaves raw))%nat ->
      cell (from_records_dicts L
              (map (facts_row_of raw) (facts_leaves raw))) i k
      = cell (from_records_dicts L
                (map (facts_row_of raw) (facts_leaves raw))) j k) /\
  (forall i,
      (i < List.length (facts_leaves raw))%nat ->
      plain (field raw k) = true ->
      cell (from_records_dicts L
              (map (facts_row_of raw) (facts_leaves raw))) i k
      = Some (field raw k)).
Proof.
  intros Hk.
  apply (rows_constant L (facts_row_of raw) (field raw k) facts_columns
           (facts_leaves raw) k facts_columns_nodup);
    [reflexivity | intros x; apply facts_row_document; exact Hk].
Qed.

Lemma frames_frame_entry (L : library) (raw : json) (i : nat) (o : json)
  (k : string) :
  nth_error (frames_entries raw) i = Some o ->
  In k entry_fields ->
  holds_in_column
    (convert_objects L)
    (from_records_dicts L (map (frames_row_of raw) (frames_entries raw)))
    i k (frames_values raw k) (field o k).
Proof.
  intros Hi Hk.
  apply (rows_hold L (frames_row_of raw) (fun o => field o k)
           frames_columns (frames_entries raw) i o k frames_columns_nodup);
    [reflexivity | intros x; apply frames_row_entry; exact Hk | exact Hi].
Qed.

Lemma frames_frame_metadata (L : library) (raw : json) (k : string) :
  In k frames_metadata ->
  (forall i j,
      (i < List.length (frames_entries raw))%nat ->
      (j < List.length (frames_entries raw))%nat ->
      cell (from_records_dicts L
              (map (frames_row_of raw) (frames_entries raw))) i k
      = cell (from_records_dicts L
                (map (frames_row_of raw) (frames_entries raw))) j k) /\
  (forall i,
      (i < List.length (frames_entries raw))%nat ->
      plain (field raw k) = true ->
      cell (from_records_dicts L
              (map (frames_row_of raw) (frames_entries raw))) i k
      = Some (field raw k)).
Proof.
  intros Hk.
  apply (rows_constant L (frames_row_of raw) (field raw k) frames_columns
           (frames_entries raw) k frames_columns_nodup);
    [reflexivity | intros x; apply frames_row_metadata; exact Hk].
Qed.

(** A metadata cell that holds the value of the document. *)
Lemma holds_value_field (df : DataFrame) (i : nat) (k : string) (j : json) :
  has_key j k = true -> cell df i k = Some (field j k) ->
  holds_value df i k j k.
Proof.
  intros Hk Hc. destruct (has_key_field _ _ Hk) as (v & Hv & Hf).
  exists v. split; [exact Hv|]. rewrite Hc, Hf. reflexivity.
Qed.

(** *** Claims on [get_companyconcept] and [get_companyfacts] *)

(** C2. On a well-formed single-concept document, [get_companyconcept]
    returns one row per (unit, observation) pair, in unit order and then
    array order: row [i] names the unit of the [i]-th pair, and under
    each observation field it holds the cell that pandas makes of that
    pair's value within the column of all the pairs' values -- the
    missing-value marker when the observation lacks the field, the value
    itself when the column is one that pandas keeps.  Each metadata
    column holds one and the same cell in every row, which is the value
    of the document when that is a string or an integer.  With units
    [{"USD": [o1, o2], "shares": [o3]}] there are exactly 3 rows, of
    units USD, USD, shares, and the metadata columns are the same in all
    of them. *)
Theorem companyconcept_rows_by_unit
  (L : library) (cik email taxonomy tag : string) (srv : server)
  (raw : json) :
  delivers srv (companyconcept_request cik email taxonomy tag) raw ->
  concept_ok raw = true ->
  exists df,
    fst (run (get_companyconcept L cik email taxonomy tag) srv) = Ok df /\
    nrows df = List.length (concept_leaves raw) /\
    (forall i u o,
        nth_error (concept_leaves raw) i = Some (u, o) ->
        cell df i "units" = Some (Val (JStr u)) /\
        forall k, In k observation_fields ->
          holds_in_column (convert_objects L) df i k
                          (concept_values raw k) (field o k)) /\
    (forall i j k,
        (i < nrows df)%nat -> (j < nrows df)%nat -> In k concept_metadata ->
        cell df i k = cell df j k) /\
    (forall i k,
        (i < nrows df)%nat -> In k concept_metadata ->
        plain (field raw k) = true -> holds_value df i k raw k) /\
    (forall o1 o2 o3,
        lookup raw "units"
        = Some (JObj [("USD", JArr [o1; o2]); ("shares", JArr [o3])]) ->
        nrows df = 3%nat /\
        cell df 0 "units" = Some (Val (JStr "USD")) /\
        cell df 1 "units" = Some (Val (JStr "USD")) /\
        cell df 2 "units" = Some (Val (JStr "shares")) /\
        forall k i j,
          In k concept_metadata -> (i < 3)%nat -> (j < 3)%nat ->
          cell df i k = cell df j k).
Proof.
  intros Hd Hok. eexists.
  split; [apply (get_companyconcept_ok L _ _ _ _ _ _ Hd Hok)|].
  split; [apply rows_nrows|].
  split; [|split; [|split]].
  - intros i u o Hi. split.
    + apply (concept_frame_units L raw i u o Hi).
    + intros k Hk. apply (concept_frame_observation L raw i u o k Hi Hk).
  - intros i j k Hi Hj Hk. rewrite rows_nrows in Hi, Hj.
    apply (proj1 (concept_frame_metadata L raw k Hk) i j Hi Hj).
  - intros i k Hi Hk Hp. rewrite rows_nrows in Hi.
    apply holds_value_field; [apply (concept_ok_metadata _ _ Hok Hk)|].
    apply (proj2 (concept_frame_metadata L raw k Hk) i Hi Hp).
  - intros o1 o2 o3 Hu.
    assert (concept_leaves raw = [("USD", o1); ("USD", o2); ("shares", o3)])
      as Hleaves by (unfold concept_leaves; rewrite Hu; reflexivity).
    split; [rewrite rows_nrows, Hleaves; reflexivity|].
    repeat split.
    + apply (concept_frame_units L raw 0 "USD" o1).
      rewrite Hleaves. reflexivity.
    + apply (concept_frame_units L raw 1 "USD" o2).
      rewrite Hleaves. reflexivity.
    + apply (concept_frame_units L raw 2 "shares" o3).
      rewrite Hleaves. reflexivity.
    + intros k i j Hk Hi Hj.
      assert (List.length (concept_leaves raw) = 3%nat) as Hlen
          by (rewrite Hleaves; reflexivity).
      apply (proj1 (concept_frame_metadata L raw k Hk) i j); lia.
Qed.

Lemma companyconcept_rows_by_unit_witness :
  delivers (upstream 200 (Some concept_doc))
           (companyconcept_request "CIK0000320193" "a@b.org" "us-gaap" "Assets")
           concept_doc /\
  concept_ok concept_doc = true /\
  exists df,
    fst (run (get_companyconcept sample_library
                "CIK0000320193" "a@b.org" "us-gaap" "Assets")
             (upstream 200 (Some concept_doc))) = Ok df /\
    nrows df = 3%nat /\
    cell df 2 "units" = Some (Val (JStr "shares")) /\
    cell df 1 "end" = Some (Val (JStr "2023-09-30")) /\
    cell df 1 "frame" = Some NaN.
Proof.
  split; [apply delivers_upstream|]. split; [reflexivity|].
  destruct (companyconcept_rows_by_unit
              sample_library "CIK0000320193" "a@b.org" "us-gaap" "Assets"
              (upstream 200 (Some concept_doc)) concept_doc
              (delivers_upstream _ _ _) eq_refl)
    as (df & Hrun & _ & Hrows & _ & _ & Hex).
  destruct (Hex obs1 obs2 obs3 eq_refl) as (Hn & _ & _ & Hc & _).
  destruct (Hrows 1%nat "USD" obs2 eq_refl) as [_ Hfields].
  exists df. split; [exact Hrun|]. split; [exact Hn|]. split; [exact Hc|].
  split.
  - apply (proj2 (proj2 (Hfields "end" ltac:(simpl; tauto)))). reflexivity.
  - apply (proj1 (proj2 (Hfields "frame" ltac:(simpl; tauto)))). reflexivity.
Defined.

(** C1. On a well-formed company-facts document, [get_companyfacts] returns
    one row per innermost observation, in taxonomy, tag, unit and array
    order as the document has them: row [i] names the taxonomy, tag and
    unit of the [i]-th observation, and under the label, the description
    and each observation field it holds the cell that pandas makes of
    that observation's value within the column of the values of all
    observations in this order -- the missing-value marker when the field
    is absent, the value itself when the column is one that pandas
    keeps.  Two taxonomies of one tag, two units and one observation each
    give exactly 4 rows, each naming its ancestry. *)
Theorem companyfacts_rows_in_document_order
  (L : library) (cik email : string) (srv : server) (raw : json) :
  delivers srv (companyfacts_request cik email) raw ->
  facts_ok raw = true ->
  exists df,
    fst (run (get_companyfacts L cik email) srv) = Ok df /\
    nrows df = List.length (facts_leaves raw) /\
    (forall i l,
        nth_error (facts_leaves raw) i = Some l ->
        ancestry df i (leaf_taxonomy l) (leaf_tag l) (leaf_units l) /\
        (forall k, In k ["label"; "description"] ->
           holds_in_column (convert_objects L) df i k
                           (facts_tag_values raw k)
                           (field (leaf_concept l) k)) /\
        (forall k, In k observation_fields ->
           holds_in_column (convert_objects L) df i k
                           (facts_values raw k) (field (leaf_obs l) k))) /\
    (forall t1 g1 c1 u11 o11 u12 o12 t2 g2 c2 u21 o21 u22 o22,
        lookup raw "facts"
        = Some (JObj [(t1, JObj [(g1, c1)]); (t2, JObj [(g2, c2)])]) ->
        lookup c1 "units"
        = Some (JObj [(u11, JArr [o11]); (u12, JArr [o12])]) ->
        lookup c2 "units"
        = Some (JObj [(u21, JArr [o21]); (u22, JArr [o22])]) ->
        nrows df = 4%nat /\
        ancestry df 0 t1 g1 u11 /\ ancestry df 1 t1 g1 u12 /\
        ancestry df 2 t2 g2 u21 /\ ancestry df 3 t2 g2 u22).
Proof.
  intros Hd Hok. eexists.
  split; [apply (get_companyfacts_ok L _ _ _ _ Hd Hok)|].
  split; [apply rows_nrows|].
  split.
  - intros i l Hi. split; [apply (facts_frame_ancestry L raw i l Hi)|].
    split.
    + intros k Hk. apply (facts_frame_tag L raw i l k Hi Hk).
    + intros k Hk. apply (facts_frame_observation L raw i l k Hi Hk).
  - intros t1 g1 c1 u11 o11 u12 o12 t2 g2 c2 u21 o21 u22 o22 Hf H1 H2.
    assert (facts_leaves raw
            = [mkLeaf t1 g1 c1 u11 o11; mkLeaf t1 g1 c1 u12 o12;
               mkLeaf t2 g2 c2 u21 o21; mkLeaf t2 g2 c2 u22 o22])
      as Hleaves.
    { unfold facts_leaves. rewrite Hf. simpl. unfold tag_leaves.
      rewrite H1, H2. reflexivity. }
    split; [rewrite rows_nrows, Hleaves; reflexivity|].
    split; [apply (facts_frame_ancestry L raw 0%nat
                     (mkLeaf t1 g1 c1 u11 o11));
            rewrite Hleaves; reflexivity|].
    split; [apply (facts_frame_ancestry L raw 1%nat
                     (mkLeaf t1 g1 c1 u12 o12));
            rewrite Hleaves; reflexivity|].
    split; [apply (facts_frame_ancestry L raw 2%nat
                     (mkLeaf t2 g2 c2 u21 o21));
            rewrite Hleaves; reflexivity|].
    apply (facts_frame_ancestry L raw 3%nat (mkLeaf t2 g2 c2 u22 o22)).
    rewrite Hleaves. reflexivity.
Qed.

Lemma companyfacts_rows_in_document_order_witness :
  delivers (upstream 200 (Some facts_doc))
           (companyfacts_request "CIK0000320193" "a@b.org") facts_doc /\
  facts_ok facts_doc = true /\
  exists df,
    fst (run (get_companyfacts sample_library "CIK0000320193" "a@b.org")
             (upstream 200 (Some facts_doc))) = Ok df /\
    nrows df = 4%nat /\
    ancestry df 0 "dei" "EntityPublicFloat" "USD" /\
    ancestry df 1 "dei" "EntityPublicFloat" "EUR" /\
    ancestry df 2 "us-gaap" "Assets" "USD" /\
    ancestry df 3 "us-gaap" "Assets" "shares".
Proof.
  split; [apply delivers_upstream|]. split; [reflexivity|].
  destruct (companyfacts_rows_in_document_order
              sample_library "CIK0000320193" "a@b.org"
              (upstream 200 (Some facts_doc)) facts_doc
              (delivers_upstream _ _ _) eq_refl)
    as (df & Hrun & _ & _ & Hex).
  exists df. split; [exact Hrun|].
  exact (Hex "dei" "EntityPublicFloat"
             (tag_doc "Entity Public Float" "USD" "EUR") "USD" obs1 "EUR" obs2
             "us-gaap" "Assets" (tag_doc "Assets" "USD" "shares")
             "USD" obs1 "shares" obs2 eq_refl eq_refl eq_refl).
Defined.

(** *** Frames built from a dict of parallel arrays *)


Lemma dict_lists_arrays (N : nat) (arrays : list json) :
  Forall (is_array_of N) arrays -> dict_lists arrays = [].
Proof.
  induction 1 as [|a arrays (l & -> & _) _ IH]; simpl; [reflexivity|].
  exact IH.
Qed.

Lemma raw_lengths_arrays (N : nat) (arrays : list json) :
  Forall (is_array_of N) arrays ->
  raw_lengths arrays = repeat N (List.length arrays).
Proof.
  induction 1 as [|a arrays (l & -> & Hl) _ IH]; simpl; [reflexivity|].
  rewrite Hl, IH. reflexivity.
Qed.

Lemma forallb_repeat (N n : nat) : forallb (Nat.eqb N) (repeat N n) = true.
Proof.
  induction n as [|n IH]; simpl; [reflexivity|].
  rewrite Nat.eqb_refl. exact IH.
Qed.

Lemma extract_index_arrays (N : nat) (arrays : list json) :
  arrays <> [] -> Forall (is_array_of N) arrays ->
  extract_index arrays = Ok (range_index N).
Proof.
  intros Hne Hall. unfold extract_index.
  rewrite (dict_lists_arrays N arrays Hall).
  rewrite (raw_lengths_arrays N arrays Hall).
  destruct arrays as [|a arrays]; [congruence|]. simpl.
  rewrite forallb_repeat. reflexivity.
Qed.


Section ParallelArrays.

Variable L : library.
Variable N : nat.
Variable fields : dict json.
Hypothesis fields_nonempty : fields <> [].
Hypothesis fields_parallel : Forall (fun kv => is_array_of N (snd kv)) fields.

Lemma parallel_arrays_sorted :
  Forall (is_array_of N) (map (dict_item fields) (sorted (keys fields))).
Proof.
  apply Forall_forall. intros a Ha.
  apply in_map_iff in Ha. destruct Ha as (k & <- & Hk).
  apply (proj1 (sorted_In _ _)) in Hk.
  destruct (dict_get_keys k fields Hk) as (v & Hv).
  unfold dict_item. rewrite Hv.
  apply dict_get_In in Hv. rewrite Forall_forall in fields_parallel.
  apply (fields_parallel _ Hv).
Qed.

Lemma from_records_dict_parallel :
  from_records_dict L fields
  = Ok (mkDataFrame
          (range_index N)
          (map LStr (sorted (keys fields)))
          (map (fun r =>
                  map (fun col => nth r col NaN)
                      (map (homogenize L (range_index N))
                           (map (dict_item fields) (sorted (keys fields)))))
               (seq 0 N))).
Proof.
  unfold from_records_dict.
  rewrite (extract_index_arrays N).
  - simpl. rewrite length_range_index. reflexivity.
  - intros H. apply map_eq_nil in H. revert H. apply sorted_nonempty.
    destruct fields; [congruence | discriminate].
  - apply parallel_arrays_sorted.
Qed.


End ParallelArrays.

(** *** Claim on [get_submissions] *)


Lemma is_array_of_recent_doc :
  Forall (fun kv => is_array_of 2 (snd kv)) recent_doc.
Proof.
  repeat constructor; simpl; eexists; split; reflexivity.
Defined.


(** *** Decimal rendering and padding *)

Lemma digit_char_spec (d : Z) :
  (0 <= d < 10)%Z ->
  is_digit (digit_char d) = true /\ digit_val (digit_char d) = d.
Proof.
  intros H. unfold is_digit, digit_val, digit_char.
  rewrite nat_ascii_embedding by lia.
  split.
  - apply andb_true_intro. split; apply Nat.leb_le; lia.
  - lia.
Qed.

Lemma int_acc_shift (s : string) (a : Z) :
  int_acc s a = (a * 10 ^ Z.of_nat (String.length s) + int_acc s 0)%Z.
Proof.
  revert a. induction s as [|c s IH]; intros a.
  - simpl. lia.
  - cbn [int_acc String.length]. rewrite (IH (10 * a + digit_val c)%Z).
    rewrite (IH (10 * 0 + digit_val c)%Z).
    rewrite Nat2Z.inj_succ, Z.pow_succ_r by lia. ring.
Qed.

Lemma int_of_digits_cons (c : ascii) (s : string) :
  int_of_digits (String c s)
  = (digit_val c * 10 ^ Z.of_nat (String.length s) + int_of_digits s)%Z.
Proof.
  unfold int_of_digits. cbn [int_acc]. rewrite int_acc_shift.
  replace (10 * 0 + digit_val c)%Z with (digit_val c) by lia. reflexivity.
Qed.

Lemma digits_acc_spec (fuel : nat) :
  forall (k : nat) (n : Z) (acc : string),
    (1 <= k <= fuel)%nat -> (0 <= n < 10 ^ Z.of_nat k)%Z ->
    (String.length acc + 1 <= String.length (digits_acc fuel n acc)
     <= String.length acc + k)%nat /\
    (all_digits acc = true -> all_digits (digits_acc fuel n acc) = true) /\
    int_of_digits (digits_acc fuel n acc)
    = (n * 10 ^ Z.of_nat (String.length acc) + int_of_digits acc)%Z.
Proof.
  induction fuel as [|fuel IH]; intros k n acc Hk Hn; [lia|].
  cbn [digits_acc].
  assert (0 <= n mod 10 < 10)%Z as Hmod by (apply Z.mod_pos_bound; lia).
  destruct (digit_char_spec _ Hmod) as [Hd Hv].
  pose proof (Z.div_mod n 10 ltac:(lia)) as Hdm.
  set (q := (n / 10)%Z) in *. set (r := (n mod 10)%Z) in *.
  destruct (q =? 0)%Z eqn:E.
  - apply Z.eqb_eq in E. split; [|split].
    + cbn [String.length]. lia.
    + intros Hacc. cbn [all_digits]. rewrite Hd, Hacc. reflexivity.
    + rewrite int_of_digits_cons, Hv. f_equal. f_equal. lia.
  - apply Z.eqb_neq in E.
    assert (2 <= k)%nat as Hk2.
    { destruct k as [|[|k]]; lia. }
    assert (0 <= q < 10 ^ Z.of_nat (k - 1))%Z as Hq.
    { split; [apply Z.div_pos; lia|].
      apply Z.div_lt_upper_bound; [lia|].
      rewrite <- Z.pow_succ_r by lia.
      replace (Z.succ (Z.of_nat (k - 1))) with (Z.of_nat k) by lia. lia. }
    destruct (IH (k - 1)%nat q (String (digit_char r) acc) ltac:(lia) Hq)
      as (Hlen & Hall & Hval).
    split; [|split].
    + cbn [String.length] in Hlen. lia.
    + intros Hacc. apply Hall. cbn [all_digits]. rewrite Hd, Hacc.
      reflexivity.
    + rewrite Hval, int_of_digits_cons, Hv. cbn [String.length].
      rewrite Nat2Z.inj_succ, Z.pow_succ_r by lia.
      rewrite Hdm. ring.
Qed.

Lemma digits_fuel (n : Z) :
  (0 <= n)%Z -> (n < 10 ^ Z.of_nat (S (Z.to_nat (Z.log2 n))))%Z.
Proof.
  intros H. rewrite Nat2Z.inj_succ, Z2Nat.id by apply Z.log2_nonneg.
  destruct (Z.eq_dec n 0) as [->|Hn]; [reflexivity|].
  apply Z.lt_le_trans with (2 ^ Z.succ (Z.log2 n))%Z.
  - apply Z.log2_spec. lia.
  - apply Z.pow_le_mono_l. lia.
Qed.

Lemma digits_spec (n : Z) (k : nat) :
  (1 <= k)%nat -> (0 <= n < 10 ^ Z.of_nat k)%Z ->
  (1 <= String.length (digits n) <= k)%nat /\
  all_digits (digits n) = true /\
  int_of_digits (digits n) = n.
Proof.
  intros Hk Hn. unfold digits.
  pose proof (digits_fuel n (proj1 Hn)) as Hfuel.
  set (fuel := S (Z.to_nat (Z.log2 n))) in *.
  assert (exists k', (1 <= k' <= fuel)%nat /\ (k' <= k)%nat /\
                     (0 <= n < 10 ^ Z.of_nat k')%Z) as (k' & Hk' & Hle & Hn').
  { destruct (le_lt_dec k fuel) as [Hle|Hlt].
    - exists k. repeat split; try lia.
    - exists fuel. unfold fuel at 1 2. repeat split; try lia. }
  destruct (digits_acc_spec fuel k' n "" Hk' Hn') as (Hlen & Hall & Hval).
  cbn [String.length] in Hlen, Hval.
  split; [lia|]. split; [apply Hall; reflexivity|].
  rewrite Hval. change (int_of_digits "") with 0%Z.
  change (10 ^ Z.of_nat 0)%Z with 1%Z. lia.
Qed.

Lemma replicate_zero_spec (m : nat) (s : string) :
  String.length (replicate m "0" s) = (m + String.length s)%nat /\
  all_digits (replicate m "0" s) = all_digits s /\
  int_of_digits (replicate m "0" s) = int_of_digits s.
Proof.
  induction m as [|m (Hl & Ha & Hv)]; [repeat split|].
  cbn [replicate]. split; [|split].
  - simpl. rewrite Hl. reflexivity.
  - simpl. exact Ha.
  - rewrite int_of_digits_cons, Hv. reflexivity.
Qed.

Lemma str_pad_digits (n : Z) :
  (0 <= n < 10 ^ 10)%Z ->
  String.length (str_pad 10 "0" (str_int n)) = 10%nat /\
  all_digits (str_pad 10 "0" (str_int n)) = true /\
  int_of_digits (str_pad 10 "0" (str_int n)) = n.
Proof.
  intros Hn. unfold str_int.
  destruct (n <? 0)%Z eqn:E; [apply Z.ltb_lt in E; lia|].
  destruct (digits_spec n 10 ltac:(lia) Hn) as (Hlen & Hall & Hval).
  unfold str_pad.
  destruct (replicate_zero_spec (10 - String.length (digits n)) (digits n))
    as (Hl & Ha & Hv).
  rewrite Hl, Ha, Hv. repeat split; try assumption. lia.
Qed.

(** *** [get_companytickers]: the two modes *)

Lemma set_columns_ok (df df' : DataFrame) (names : list string) :
  set_columns df names = Ok df' ->
  index df' = index df /\ columns df' = map LStr names /\
  values df' = values df.
Proof.
  unfold set_columns.
  destruct (Nat.eqb (List.length (columns df)) (List.length names));
    [|discriminate].
  intros H. inversion H. repeat split.
Qed.

Lemma combine_map_self {A B C} (f : A -> B) (g : A -> B -> C) (l : list A) :
  map (fun '(x, y) => g x y) (combine l (map f l)) = map (fun x => g x (f x)) l.
Proof.
  induction l as [|a l IH]; simpl; [reflexivity|]. rewrite IH. reflexivity.
Qed.

(** The frame of the padded mode, from the frame of the raw mode. *)
Lemma set_cik_column (L : library) (df : DataFrame) :
  columns df = map LStr tickers_columns ->
  (cik <- get_column df "cik" ;;
   Ok (set_column df "cik" (map cik_format (astype_str L cik))))
  = Ok (mkDataFrame
          (index df) (columns df)
          (map (fun row => set_nth 0 (cik_format (py_str L (nth 0 row NaN))) row)
               (values df))).
Proof.
  intros Hc. unfold get_column, set_column. rewrite Hc. simpl.
  unfold astype_str. rewrite !map_map.
  rewrite (combine_map_self
             (fun row => cik_format (py_str L (nth 0 row NaN)))
             (fun row v => set_nth 0 v row)).
  reflexivity.
Qed.

Lemma run_tickers_modes (L : library) (srv : server) :
  snd (run (get_companytickers L true) srv)
  = snd (run (get_companytickers L false) srv) /\
  fst (run (get_companytickers L true) srv)
  = (df <- fst (run (get_companytickers L false) srv) ;;
     cik <- get_column df "cik" ;;
     Ok (set_column df "cik" (map cik_format (astype_str L cik)))).
Proof.
  unfold run, get_companytickers, io_bind, requests_get, lift.
  destruct (srv _ _) as [|r]; [split; reflexivity|].
  cbn [fst snd]. split; [reflexivity|].
  destruct (response_json r) as [raw|]; [|reflexivity]. simpl bind.
  destruct (from_records L raw) as [df|]; [|reflexivity]. simpl bind.
  destruct (set_columns _ _); reflexivity.
Qed.

Lemma run_tickers_columns (L : library) (srv : server) (df : DataFrame) :
  fst (run (get_companytickers L false) srv) = Ok df ->
  columns df = map LStr tickers_columns.
Proof.
  unfold run, get_companytickers, io_bind, requests_get, lift.
  destruct (srv _ _) as [|r]; [discriminate|]. cbn [fst].
  destruct (response_json r) as [raw|]; [|discriminate]. simpl bind.
  destruct (from_records L raw) as [df0|]; [|discriminate]. simpl bind.
  destruct (set_columns _ _) as [df1|] eqn:E; [|discriminate].
  intros H. inversion H. subst.
  apply (set_columns_ok _ _ _ E).
Qed.

Lemma run_tickers_padded (L : library) (srv : server) (df : DataFrame) :
  fst (run (get_companytickers L false) srv) = Ok df ->
  fst (run (get_companytickers L true) srv)
  = Ok (mkDataFrame
          (index df) (columns df)
          (map (fun row => set_nth 0 (cik_format (py_str L (nth 0 row NaN))) row)
               (values df))).
Proof.
  intros H. rewrite (proj2 (run_tickers_modes L srv)), H. simpl bind.
  apply set_cik_column. apply (run_tickers_columns L srv df H).
Qed.

Lemma run_tickers_failure (L : library) (srv : server) (e : exn) :
  fst (run (get_companytickers L false) srv) = Raise e ->
  fst (run (get_companytickers L true) srv) = Raise e.
Proof.
  intros H. rewrite (proj2 (run_tickers_modes L srv)), H. reflexivity.
Qed.

Lemma nth_error_set_nth_other (j j' : nat) (v : pyval) (row : list pyval) :
  j <> j' -> nth_error (set_nth j v row) j' = nth_error row j'.
Proof.
  revert j j'. induction row as [|c row IH]; intros j j' H.
  - destruct j; reflexivity.
  - destruct j, j'; simpl; try reflexivity; try congruence.
    apply IH. congruence.
Qed.

Lemma nth_set_nth_other (j j' : nat) (v : pyval) (row : list pyval) :
  j <> j' -> nth j' (set_nth j v row) NaN = nth j' row NaN.
Proof.
  revert j j'. induction row as [|c row IH]; intros j j' H.
  - destruct j; reflexivity.
  - destruct j, j'; simpl; try reflexivity; try congruence.
    apply IH. congruence.
Qed.

Lemma nth_error_set_nth_same (v c : pyval) (row : list pyval) :
  nth_error row 0 = Some c -> nth_error (set_nth 0 v row) 0 = Some v.
Proof. destruct row; [discriminate | reflexivity]. Qed.

Lemma tickers_cell_position (df : DataFrame) (i : nat) (name : string)
  (j : nat) :
  columns df = map LStr tickers_columns ->
  position (LStr name) (map LStr tickers_columns) = Some j ->
  cell df i name
  = match nth_error (values df) i with
    | Some row => nth_error row j
    | None => None
    end.
Proof. intros Hc Hp. unfold cell. rewrite Hc, Hp. reflexivity. Qed.

Lemma padded_cell_other (L : library) (df : DataFrame) (i j : nat)
  (name : string) :
  columns df = map LStr tickers_columns ->
  position (LStr name) (map LStr tickers_columns) = Some (S j) ->
  cell (mkDataFrame
          (index df) (columns df)
          (map (fun row => set_nth 0 (cik_format (py_str L (nth 0 row NaN))) row)
               (values df))) i name
  = cell df i name.
Proof.
  intros Hc Hp. unfold cell. cbn [columns values]. rewrite Hc, Hp.
  rewrite nth_error_map.
  destruct (nth_error (values df) i) as [row|]; [|reflexivity].
  apply nth_error_set_nth_other. discriminate.
Qed.

Lemma padded_column_other (L : library) (df : DataFrame) (j : nat)
  (name : string) :
  columns df = map LStr tickers_columns ->
  position (LStr name) (map LStr tickers_columns) = Some (S j) ->
  get_column (mkDataFrame
          (index df) (columns df)
          (map (fun row => set_nth 0 (cik_format (py_str L (nth 0 row NaN))) row)
               (values df))) name
  = get_column df name.
Proof.
  intros Hc Hp. unfold get_column. cbn [columns values]. rewrite Hc, Hp.
  rewrite map_map. f_equal. apply map_ext. intros row.
  apply nth_set_nth_other. discriminate.
Qed.

(** C10. The padded-identifier flag of [get_companytickers] changes the
    cik column only: both modes send the same request and fail alike, and
    when they succeed the two frames have the same row labels, the same
    columns, the same number of rows, and the same ticker and title cell
    in every row. *)
Theorem parse_cik_changes_only_cik (L : library) (srv : server) :
  snd (run (get_companytickers L true) srv)
  = snd (run (get_companytickers L false) srv) /\
  match fst (run (get_companytickers L false) srv),
        fst (run (get_companytickers L true) srv) with
  | Ok df0, Ok df1 =>
      index df1 = index df0 /\
      columns df1 = columns df0 /\
      columns df0 = map LStr tickers_columns /\
      nrows df1 = nrows df0 /\
      get_column df1 "ticker" = get_column df0 "ticker" /\
      get_column df1 "title" = get_column df0 "title" /\
      (forall i,
          cell df1 i "ticker" = cell df0 i "ticker" /\
          cell df1 i "title" = cell df0 i "title")
  | Raise e0, Raise e1 => e0 = e1
  | _, _ => False
  end.
Proof.
  split; [apply run_tickers_modes|].
  destruct (fst (run (get_companytickers L false) srv)) as [df0|e] eqn:E.
  - rewrite (run_tickers_padded L srv df0 E).
    pose proof (run_tickers_columns L srv df0 E) as Hc.
    split; [reflexivity|]. split; [reflexivity|]. split; [exact Hc|].
    split; [unfold nrows; cbn [values]; apply length_map|].
    split; [apply (padded_column_other L df0 0 "ticker" Hc eq_refl)|].
    split; [apply (padded_column_other L df0 1 "title" Hc eq_refl)|].
    intros i. split.
    + apply (padded_cell_other L df0 i 0 "ticker" Hc eq_refl).
    + apply (padded_cell_other L df0 i 1 "title" Hc eq_refl).
  - rewrite (run_tickers_failure L srv e E). reflexivity.
Qed.

(** *** Shape of the frames *)

Lemma holds_in_column_marks (conv : list pyval -> list pyval)
  (df : DataFrame) (i : nat) (o : json) (k : string) (vs : list pyval) :
  holds_in_column conv df i k vs (field o k) -> marks_missing df i o k.
Proof.
  intros (_ & Hnan & _) E. apply Hnan. unfold field. rewrite E. reflexivity.
Qed.

Lemma from_records_dict_well_formed (L : library) (d : dict json)
  (df : DataFrame) :
  from_records_dict L d = Ok df -> well_formed df.
Proof.
  unfold from_records_dict.
  destruct (extract_index _) as [idx|]; [|discriminate]. simpl bind.
  intros H. injection H as <-. split.
  - cbn [values index]. rewrite length_map, length_seq. reflexivity.
  - unfold rectangular. cbn [values columns].
    apply Forall_forall. intros row Hrow.
    apply in_map_iff in Hrow. destruct Hrow as (r & <- & _).
    rewrite !length_map. reflexivity.
Qed.

Lemma length_interleaved (L : library) (vals : list (list pyval)) :
  List.length (interleaved L vals) = List.length vals.
Proof. apply length_map. Qed.

Lemma transpose_well_formed (L : library) (df : DataFrame) :
  well_formed df -> well_formed (transpose L df).
Proof.
  intros [Hlen _]. split.
  - cbn [transpose values index]. rewrite length_map, length_seq. reflexivity.
  - unfold rectangular. cbn [transpose values columns].
    apply Forall_forall. intros row Hrow.
    apply in_map_iff in Hrow. destruct Hrow as (c & <- & _).
    rewrite length_map, length_interleaved. exact Hlen.
Qed.

Lemma set_columns_rectangular (df df' : DataFrame) (names : list string) :
  rectangular df -> set_columns df names = Ok df' -> rectangular df'.
Proof.
  unfold set_columns, rectangular.
  destruct (Nat.eqb _ _) eqn:E; [|discriminate].
  apply Nat.eqb_eq in E. intros H Hdf. injection Hdf as <-.
  cbn [values columns]. rewrite length_map, <- E. exact H.
Qed.

Lemma tickers_rectangular (L : library) (p : bool) (srv : server)
  (entries : dict json) (df : DataFrame) :
  delivers srv tickers_request (JObj entries) ->
  fst (run (get_companytickers L p) srv) = Ok df ->
  rectangular df /\ columns df = map LStr tickers_columns.
Proof.
  intros Hd.
  assert (forall df0, fst (run (get_companytickers L false) srv) = Ok df0 ->
                      rectangular df0) as Hraw.
  { intros df0. rewrite (run_get_companytickers L false srv _ Hd).
    unfold from_records.
    destruct (from_records_dict L entries) as [d0|] eqn:E; [|discriminate].
    simpl bind.
    destruct (set_columns _ _) as [d1|] eqn:E1; [|discriminate].
    simpl bind. intros H. injection H as <-.
    apply (set_columns_rectangular (reset_index_drop (transpose L d0)) _ _
             (proj2 (transpose_well_formed L _
                       (from_records_dict_well_formed L _ _ E))) E1). }
  destruct p.
  - destruct (fst (run (get_companytickers L false) srv)) as [df0|e] eqn:E.
    + rewrite (run_tickers_padded L srv df0 E). intros H. injection H as <-.
      split; [|apply (run_tickers_columns L srv df0 E)].
      unfold rectangular. cbn [values columns].
      apply Forall_forall. intros row Hrow.
      apply in_map_iff in Hrow. destruct Hrow as (r & <- & Hr).
      transitivity (List.length r); [destruct r; reflexivity|].
      pose proof (Hraw df0 eq_refl) as Hrect. unfold rectangular in Hrect.
      rewrite Forall_forall in Hrect. apply Hrect. exact Hr.
    + rewrite (run_tickers_failure L srv e E). discriminate.
  - intros H. split; [apply Hraw; exact H|].
    apply (run_tickers_columns L srv df H).
Qed.

Lemma submissions_rectangular (L : library) (cik email : string)
  (srv : server) (raw filings : json) (fields : dict json) (df : DataFrame) :
  delivers srv (submissions_request cik email) raw ->
  lookup raw "filings" = Some filings ->
  lookup filings "recent" = Some (JObj fields) ->
  fst (run (get_submissions L cik email) srv) = Ok df ->
  rectangular df.
Proof.
  intros Hd Hf Hr. rewrite (run_get_submissions L _ _ _ _ Hd).
  rewrite (getitem_lookup _ _ _ Hf). simpl bind.
  rewrite (getitem_lookup _ _ _ Hr). simpl bind.
  unfold from_records. intros H.
  apply (from_records_dict_well_formed L _ _ H).
Qed.

Lemma rows_rectangular {A} (L : library) (f : A -> dict pyval)
  (leaves : list A) :
  rectangular (from_records_dicts L (map f leaves)).
Proof. apply from_records_dicts_rectangular. Qed.

Lemma rows_columns {A} (L : library) (f : A -> dict pyval) (K : list string)
  (leaves : list A) :
  NoDup K -> (forall x, keys (f x) = K) ->
  (0 < nrows (from_records_dicts L (map f leaves)))%nat ->
  columns (from_records_dicts L (map f leaves)) = map LStr K.
Proof.
  intros HK Hkeys Hn. rewrite rows_nrows in Hn.
  apply (from_records_dicts_columns L K (map f leaves) HK).
  - intros d Hd. apply in_map_iff in Hd. destruct Hd as (x & <- & _).
    apply Hkeys.
  - destruct leaves; [simpl in Hn; lia | discriminate].
Qed.

(** *** Claims on failures *)

Lemma getitem_absent (raw : json) (k : string) :
  has_key raw k = false ->
  exists e, getitem raw k = Raise e /\ kind_of e = UpstreamFormatError /\
            (is_obj raw = true -> e = KeyError k).
Proof.
  unfold has_key. destruct raw; simpl;
    try (intros _; exists TypeError; repeat split; discriminate).
  destruct (dict_get k fields); [discriminate|].
  intros _. exists (KeyError k). repeat split.
Qed.

(** C6, as stated, fails: the document [facts_doc_no_cik] has its "facts"
    section, and [get_companyfacts] raises [KeyError "cik"] on it. *)
Lemma companyfacts_fails_despite_facts :
  has_key facts_doc_no_cik "facts" = true /\
  fst (run (get_companyfacts sample_library "CIK0000320193" "a@b.org")
           (upstream 200 (Some facts_doc_no_cik)))
  = Raise (KeyError "cik") /\
  kind_of (KeyError "cik") = UpstreamFormatError /\
  ~ ((exists e,
         fst (run (get_companyfacts sample_library "CIK0000320193" "a@b.org")
                  (upstream 200 (Some facts_doc_no_cik))) = Raise e /\
         kind_of e = UpstreamFormatError)
     <-> has_key facts_doc_no_cik "facts" = false).
Proof.
  split; [reflexivity|]. split; [reflexivity|]. split; [reflexivity|].
  intros [H _].
  assert (has_key facts_doc_no_cik "facts" = false) as Habs.
  { apply H. exists (KeyError "cik"). split; reflexivity. }
  discriminate Habs.
Qed.

(** C6, amended.  When the parsed body has no top-level "facts" section,
    [get_companyfacts] fails with a format error ([KeyError "facts"] when
    the body is an object).  When the section is there and the document is
    well formed ("cik" and "entityName" present, every tag with "label",
    "description" and a "units" object of arrays of objects), it
    completes without error. *)
Theorem companyfacts_format_errors
  (L : library) (cik email : string) (srv : server) (raw : json) :
  delivers srv (companyfacts_request cik email) raw ->
  (has_key raw "facts" = false ->
   exists e,
     fst (run (get_companyfacts L cik email) srv) = Raise e /\
     kind_of e = UpstreamFormatError /\
     (is_obj raw = true -> e = KeyError "facts")) /\
  (facts_ok raw = true ->
   has_key raw "facts" = true /\
   exists df, fst (run (get_companyfacts L cik email) srv) = Ok df).
Proof.
  intros Hd. split.
  - intros Habs. rewrite (run_get_companyfacts L _ _ _ _ Hd).
    destruct (getitem_absent raw "facts" Habs) as (e & He & Hk & Ho).
    exists e. unfold companyfacts_df_list. rewrite He.
    repeat split; assumption.
  - intros Hok. split.
    + unfold facts_ok, facts_section_ok in Hok. split_andb.
      unfold has_key. destruct (lookup raw "facts"); [reflexivity|].
      discriminate.
    + eexists. apply (get_companyfacts_ok L _ _ _ _ Hd Hok).
Qed.

Lemma companyfacts_format_errors_witness :
  delivers (upstream 200 (Some facts_doc_no_facts))
           (companyfacts_request "CIK0000320193" "a@b.org")
           facts_doc_no_facts /\
  has_key facts_doc_no_facts "facts" = false /\
  fst (run (get_companyfacts sample_library "CIK0000320193" "a@b.org")
           (upstream 200 (Some facts_doc_no_facts)))
  = Raise (KeyError "facts").
Proof.
  split; [apply delivers_upstream|]. split; [reflexivity|].
  destruct (proj1 (companyfacts_format_errors sample_library
                     "CIK0000320193" "a@b.org"
                     (upstream 200 (Some facts_doc_no_facts))
                     facts_doc_no_facts (delivers_upstream _ _ _))
                  eq_refl)
    as (e & Hrun & _ & He).
  rewrite Hrun, (He eq_refl). reflexivity.
Defined.

(** C7, as stated, fails: on [frames_doc_no_ccp], a frame document without
    "ccp", [get_frames] raises [KeyError "ccp"] instead of filling the
    column with the missing-value marker. *)
Lemma frames_without_ccp_raises :
  has_key frames_doc_no_ccp "ccp" = false /\
  frames_data_ok frames_doc_no_ccp = true /\
  fst (run (get_frames sample_library "a@b.org" "us-gaap" "AccountsPayableCurrent" "USD"
                       "CY2019Q1I")
           (upstream 200 (Some frames_doc_no_ccp)))
  = Raise (KeyError "ccp").
Proof. repeat split. Qed.

Lemma frames_row_missing_metadata (d : dict json) (o : json) (k : string) :
  In k frames_metadata -> dict_get k d = None ->
  exists k', In k' frames_metadata /\
             frames_row (JObj d) o = Raise (KeyError k').
Proof.
  intros Hk Hnone. unfold frames_row, getitem.
  destruct (dict_get "taxonomy" d) eqn:E1;
    [|exists "taxonomy"; split; [simpl; tauto | reflexivity]].
  destruct (dict_get "tag" d) eqn:E2;
    [|exists "tag"; split; [simpl; tauto | reflexivity]].
  destruct (dict_get "ccp" d) eqn:E3;
    [|exists "ccp"; split; [simpl; tauto | reflexivity]].
  destruct (dict_get "uom" d) eqn:E4;
    [|exists "uom"; split; [simpl; tauto | reflexivity]].
  destruct (dict_get "label" d) eqn:E5;
    [|exists "label"; split; [simpl; tauto | reflexivity]].
  destruct (dict_get "description" d) eqn:E6;
    [|exists "description"; split; [simpl; tauto | reflexivity]].
  exfalso. simpl in Hk.
  repeat (destruct Hk as [<-|Hk]; [congruence|]). contradiction.
Qed.

(** C7, amended.  On a well-formed frame document (the six metadata fields
    present, "data" an array of objects) [get_frames] returns one row per
    entry of the data array, in array order: under each entry-specific
    field, row [i] holds the cell that pandas makes of the [i]-th entry's
    value within the column of all entries' values -- the missing-value
    marker when the entry lacks the field, the value itself when the
    column is one that pandas keeps.  Each metadata column holds one and
    the same cell in every row, the value of the document when that is a
    string or an integer.  The metadata fields, "ccp" included, are
    required: when one is absent and the data array is not empty, the
    operation raises [KeyError] for a metadata field. *)
Theorem frames_entry_fields_default
  (L : library) (email taxonomy tag units period : string) (srv : server)
  (raw : json) :
  delivers srv (frames_request email taxonomy tag units period) raw ->
  (frames_ok raw = true ->
   exists df,
     fst (run (get_frames L email taxonomy tag units period) srv) = Ok df /\
     nrows df = List.length (frames_entries raw) /\
     (forall i o,
         nth_error (frames_entries raw) i = Some o ->
         forall k, In k entry_fields ->
           marks_missing df i o k /\
           holds_in_column (convert_objects L) df i k
                           (frames_values raw k) (field o k)) /\
     (forall i j k,
         (i < nrows df)%nat -> (j < nrows df)%nat -> In k frames_metadata ->
         cell df i k = cell df j k) /\
     (forall i k,
         (i < nrows df)%nat -> In k frames_metadata ->
         plain (field raw k) = true -> holds_value df i k raw k)) /\
  (forall d o rest k,
      raw = JObj d ->
      dict_get "data" d = Some (JArr (o :: rest)) ->
      In k frames_metadata -> dict_get k d = None ->
      exists k',
        In k' frames_metadata /\
        fst (run (get_frames L email taxonomy tag units period) srv)
        = Raise (KeyError k')).
Proof.
  intros Hd. split.
  - intros Hok. eexists.
    split; [apply (get_frames_ok L _ _ _ _ _ _ _ Hd Hok)|].
    split; [apply rows_nrows|]. split; [|split].
    + intros i o Hi k Hk.
      pose proof (frames_frame_entry L raw i o k Hi Hk) as H.
      split; [apply (holds_in_column_marks _ _ _ _ _ _ H) | exact H].
    + intros i j k Hi Hj Hk. rewrite rows_nrows in Hi, Hj.
      apply (proj1 (frames_frame_metadata L raw k Hk) i j Hi Hj).
    + intros i k Hi Hk Hp. rewrite rows_nrows in Hi.
      apply holds_value_field; [apply (frames_ok_metadata _ _ Hok Hk)|].
      apply (proj2 (frames_frame_metadata L raw k Hk) i Hi Hp).
  - intros d o rest k -> Hdata Hk Hnone.
    rewrite (run_get_frames L _ _ _ _ _ _ _ Hd).
    destruct (frames_row_missing_metadata d o k Hk Hnone) as (k' & Hk' & Hrow).
    exists k'. split; [exact Hk'|].
    unfold frames_df_list. cbn [getitem]. rewrite Hdata. simpl bind.
    cbn [mapM]. rewrite Hrow. reflexivity.
Qed.

Lemma frames_entry_fields_default_witness :
  delivers (upstream 200 (Some frames_doc))
           (frames_request "a@b.org" "us-gaap" "AccountsPayableCurrent" "USD"
                           "CY2019Q1I")
           frames_doc /\
  frames_ok frames_doc = true /\
  nth_error (frames_entries frames_doc) 1 = Some entry2 /\
  exists df,
    fst (run (get_frames sample_library "a@b.org" "us-gaap"
                         "AccountsPayableCurrent" "USD" "CY2019Q1I")
             (upstream 200 (Some frames_doc))) = Ok df /\
    nrows df = 2%nat /\
    cell df 1 "loc" = Some NaN /\
    cell df 1 "cik" = Some (Val (JInt 789019)) /\
    cell df 1 "ccp" = Some (Val (JStr "CY2019Q1I")).
Proof.
  split; [apply delivers_upstream|]. split; [reflexivity|].
  split; [reflexivity|].
  destruct (proj1 (frames_entry_fields_default
                     sample_library
                     "a@b.org" "us-gaap" "AccountsPayableCurrent" "USD"
                     "CY2019Q1I" (upstream 200 (Some frames_doc)) frames_doc
                     (delivers_upstream _ _ _))
                  eq_refl)
    as (df & Hrun & Hn & Hrows & _ & Hmeta).
  exists df. split; [exact Hrun|]. split; [exact Hn|].
  split; [|split].
  - apply (proj1 (Hrows 1%nat entry2 eq_refl "loc" ltac:(simpl; tauto))).
    reflexivity.
  - apply (proj2 (proj2 (proj2 (Hrows 1%nat entry2 eq_refl "cik"
                                      ltac:(simpl; tauto))))).
    reflexivity.
  - destruct (Hmeta 1%nat "ccp" ltac:(rewrite Hn; repeat constructor)
                    ltac:(simpl; tauto) eq_refl) as (v & Hv & Hc).
    injection Hv as <-. exact Hc.
Defined.

(** C8, as stated, fails: a response with status 404 whose body is a
    valid document is parsed and flattened, by [get_companytickers] and by
    [get_submissions], instead of raising a network error. *)
Lemma error_status_is_flattened :
  fst (run (get_companytickers sample_library false)
           (upstream 404 (Some tickers_doc)))
  = Ok (mkDataFrame
          [LInt 0; LInt 1]
          [LStr "cik"; LStr "ticker"; LStr "title"]
          [[Val (JInt 320193); Val (JStr "AAPL"); Val (JStr "Apple Inc.")];
           [Val (JInt 789019); Val (JStr "MSFT");
            Val (JStr "MICROSOFT CORP")]]) /\
  fst (run (get_submissions sample_library "CIK0000320193" "a@b.org")
           (upstream 404 (Some submissions_doc)))
  = Ok (mkDataFrame
          [LInt 0; LInt 1]
          [LStr "accessionNumber"; LStr "filingDate"; LStr "form"]
          [[Val (JStr "0000320193-23-000106"); Val (JStr "2023-11-03");
            Val (JStr "10-K")];
           [Val (JStr "0000320193-23-000077"); Val (JStr "2023-08-04");
            Val (JStr "10-Q")]]).
Proof. split; reflexivity. Qed.

(** C8, amended.  No operation looks at the HTTP status: whatever the
    status, the result is the one obtained with status 200 and the same
    body.  An operation fails with a network error when the exchange gives
    no response, or a body that is not JSON.  Every operation sends exactly
    one request, so a failure is never retried and reaches the caller. *)
Theorem status_ignored_nothing_retried
  (L : library) (op : operation) (srv : server) :
  snd (run (perform L op) srv) = [request_of op] /\
  (srv O (request_of op) = Failed ->
   fst (run (perform L op) srv) = Raise ConnectionError /\
   kind_of ConnectionError = NetworkError) /\
  (forall st,
      srv O (request_of op) = Answered (mkResponse st None) ->
      fst (run (perform L op) srv) = Raise JSONDecodeError /\
      kind_of JSONDecodeError = NetworkError) /\
  (forall st b,
      srv O (request_of op) = Answered (mkResponse st b) ->
      fst (run (perform L op) srv)
      = fst (run (perform L op) (upstream 200 b))).
Proof.
  destruct op; cbn [perform request_of];
    unfold tickers_request, submissions_request, companyconcept_request,
           companyfacts_request, frames_request,
           run, get_companytickers, get_submissions, get_companyconcept,
           get_companyfacts, get_frames, io_bind, requests_get, lift,
           upstream;
    cbn [List.length];
    (split; [destruct (srv _ _); reflexivity|]);
    (split; [intros ->; split; reflexivity|]);
    (split; [intros st ->; split; reflexivity|]);
    intros st b ->; reflexivity.
Qed.

Lemma status_ignored_nothing_retried_witness :
  upstream 404 (Some tickers_doc) O (request_of (Tickers false))
  = Answered (mkResponse 404 (Some tickers_doc)) /\
  fst (run (perform sample_library (Tickers false))
           (upstream 404 (Some tickers_doc)))
  = fst (run (perform sample_library (Tickers false))
             (upstream 200 (Some tickers_doc))) /\
  unreachable O (request_of (Tickers false)) = Failed /\
  fst (run (perform sample_library (Tickers false)) unreachable)
  = Raise ConnectionError.
Proof.
  split; [reflexivity|].
  split.
  - apply (proj2 (proj2 (proj2 (status_ignored_nothing_retried
                                  sample_library (Tickers false)
                                  (upstream 404 (Some tickers_doc)))))
             404%Z (Some tickers_doc)).
    reflexivity.
  - split; [reflexivity|].
    apply (proj1 (proj2 (status_ignored_nothing_retried
                           sample_library (Tickers false) unreachable))).
    reflexivity.
Defined.

(** *** Fields the client does not read *)

Lemma same_on_refl (ks : list string) (a : json) : same_on ks a a.
Proof. destruct a; simpl; reflexivity. Qed.

Lemma getitem_same_on (ks : list string) (a b : json) (k : string) :
  same_on ks a b -> In k ks -> getitem a k = getitem b k.
Proof.
  intros H Hk. destruct a, b; simpl in H; try discriminate H;
    try (rewrite H; reflexivity); try reflexivity.
  simpl. rewrite (H k Hk). reflexivity.
Qed.

Lemma get_nan_same_on (ks : list string) (a b : json) (k : string) :
  same_on ks a b -> In k ks -> get_nan a k = get_nan b k.
Proof.
  intros H Hk. destruct a, b; simpl in H; try discriminate H;
    try (rewrite H; reflexivity); try reflexivity.
  simpl. rewrite (H k Hk). reflexivity.
Qed.

Lemma getitem_under (k : string) (R : json -> json -> Prop) (a b : json) :
  is_obj a = true -> is_obj b = true -> under k R a b ->
  (getitem a k = Raise (KeyError k) /\ getitem b k = Raise (KeyError k)) \/
  (exists u v, getitem a k = Ok u /\ getitem b k = Ok v /\ R u v).
Proof.
  destruct a, b; try discriminate. intros _ _. unfold under. simpl.
  destruct (dict_get k fields) as [u|], (dict_get k fields0) as [v|];
    try contradiction.
  - intros H. right. exists u, v. repeat split. exact H.
  - intros _. left. split; reflexivity.
Qed.

Lemma mapM_Forall2 {A B} (R : A -> A -> Prop) (f g : A -> result B)
  (l l' : list A) :
  Forall2 R l l' -> (forall x y, R x y -> f x = g y) ->
  mapM f l = mapM g l'.
Proof.
  intros H Hfg. induction H as [|x y l l' Hxy _ IH]; simpl; [reflexivity|].
  rewrite (Hfg x y Hxy), IH. reflexivity.
Qed.

Lemma flat_mapM_Forall2 {A B} (R : A -> A -> Prop)
  (f g : A -> result (list B)) (l l' : list A) :
  Forall2 R l l' -> (forall x y, R x y -> f x = g y) ->
  flat_mapM f l = flat_mapM g l'.
Proof.
  intros H Hfg. induction H as [|x y l l' Hxy _ IH]; simpl; [reflexivity|].
  rewrite (Hfg x y Hxy), IH. reflexivity.
Qed.

Lemma elementwise_loop {B} (R : json -> json -> Prop)
  (f g : json -> result B) (u v : json) :
  elementwise R u v ->
  (forall x y, R x y -> f x = g y) -> (forall x, R x x) ->
  (rows <- iter u ;; mapM f rows) = (rows <- iter v ;; mapM g rows).
Proof.
  intros H Hfg Hrefl.
  destruct u, v; simpl in H; try discriminate H; try reflexivity.
  - injection H as ->. simpl. apply mapM_ext. intros x _.
    apply Hfg, Hrefl.
  - simpl. apply (mapM_Forall2 R); assumption.
  - injection H as ->. simpl. apply mapM_ext. intros x _.
    apply Hfg, Hrefl.
Qed.

Lemma valuewise_loop {B} (R : json -> json -> Prop)
  (f g : string * json -> result (list B)) (u v : json) :
  valuewise R u v ->
  (forall k x y, R x y -> f (k, x) = g (k, y)) ->
  (its <- items u ;; flat_mapM f its) = (its <- items v ;; flat_mapM g its).
Proof.
  intros H Hfg.
  destruct u, v; simpl in H; try discriminate H; try reflexivity.
  simpl.
  apply (flat_mapM_Forall2
           (fun x y => fst x = fst y /\ R (snd x) (snd y))); [exact H|].
  intros [k x] [k' y] [Hk Hxy]. simpl in Hk, Hxy. subst k'.
  apply Hfg. exact Hxy.
Qed.

Lemma units_loop_alike (f g : string -> json -> result (dict pyval))
  (u v : json) :
  units_alike u v ->
  (forall k x y, same_on observation_fields x y -> f k x = g k y) ->
  (its <- items u ;;
   flat_mapM (fun '(key_units, value_units) =>
                rows <- iter value_units ;; mapM (f key_units) rows) its)
  = (its <- items v ;;
     flat_mapM (fun '(key_units, value_units) =>
                  rows <- iter value_units ;; mapM (g key_units) rows) its).
Proof.
  intros H Hfg.
  apply (valuewise_loop (elementwise (same_on observation_fields))); [exact H|].
  intros k x y Hxy.
  apply (elementwise_loop (same_on observation_fields)); [exact Hxy | |].
  - intros o o' Ho. apply Hfg. exact Ho.
  - apply same_on_refl.
Qed.

Lemma companyconcept_row_alike (a b : json) (k : string) (o o' : json) :
  same_on concept_metadata a b -> same_on observation_fields o o' ->
  companyconcept_row a k o = companyconcept_row b k o'.
Proof.
  intros Hm Ho. unfold companyconcept_row.
  rewrite !(getitem_same_on _ a b _ Hm) by (simpl; tauto).
  rewrite !(get_nan_same_on _ o o' _ Ho) by (simpl; tauto).
  reflexivity.
Qed.

Lemma companyconcept_df_list_alike (a b : json) :
  concept_alike a b -> companyconcept_df_list a = companyconcept_df_list b.
Proof.
  intros (Ha & Hb & Hm & Hu). unfold companyconcept_df_list.
  destruct (getitem_under _ _ a b Ha Hb Hu)
    as [[-> ->]|(u & v & -> & -> & Huv)]; [reflexivity|].
  simpl bind. apply (units_loop_alike _ _ u v Huv).
  intros k x y Hxy. apply companyconcept_row_alike; assumption.
Qed.

Lemma companyfacts_row_alike (a b : json) (tx tg : string) (t t' : json)
  (k : string) (o o' : json) :
  same_on ["cik"; "entityName"] a b ->
  same_on ["label"; "description"] t t' ->
  same_on observation_fields o o' ->
  companyfacts_row a tx tg t k o = companyfacts_row b tx tg t' k o'.
Proof.
  intros Hm Ht Ho. unfold companyfacts_row.
  rewrite !(getitem_same_on _ a b _ Hm) by (simpl; tauto).
  rewrite !(getitem_same_on _ t t' _ Ht) by (simpl; tauto).
  rewrite !(get_nan_same_on _ o o' _ Ho) by (simpl; tauto).
  reflexivity.
Qed.

Lemma companyfacts_tag_alike (a b : json) (tx tg : string) (t t' : json) :
  same_on ["cik"; "entityName"] a b -> tag_alike t t' ->
  (units <- getitem t "units" ;;
   units_items <- items units ;;
   flat_mapM (fun '(key_units, value_units) =>
                rows <- iter value_units ;;
                mapM (companyfacts_row a tx tg t key_units) rows) units_items)
  = (units <- getitem t' "units" ;;
     units_items <- items units ;;
     flat_mapM (fun '(key_units, value_units) =>
                  rows <- iter value_units ;;
                  mapM (companyfacts_row b tx tg t' key_units) rows)
               units_items).
Proof.
  intros Hm Ht.
  destruct t, t'; simpl in Ht; try discriminate Ht; try reflexivity.
  destruct Ht as [Hl Hu].
  destruct (getitem_under _ _ (JObj fields) (JObj fields0) eq_refl eq_refl Hu)
    as [[-> ->]|(u & v & -> & -> & Huv)]; [reflexivity|].
  simpl bind.
  apply (units_loop_alike
           (companyfacts_row a tx tg (JObj fields))
           (companyfacts_row b tx tg (JObj fields0)) u v Huv).
  intros k x y Hxy. apply companyfacts_row_alike; assumption.
Qed.

Lemma companyfacts_df_list_alike (a b : json) :
  facts_alike a b -> companyfacts_df_list a = companyfacts_df_list b.
Proof.
  intros (Ha & Hb & Hm & Hf). unfold companyfacts_df_list.
  destruct (getitem_under _ _ a b Ha Hb Hf)
    as [[-> ->]|(u & v & -> & -> & Huv)]; [reflexivity|].
  simpl bind.
  apply (valuewise_loop (valuewise tag_alike)); [exact Huv|].
  intros tx x y Hxy.
  apply (valuewise_loop tag_alike); [exact Hxy|].
  intros tg t t' Ht.
  apply companyfacts_tag_alike; assumption.
Qed.

Lemma frames_row_alike (a b : json) (o o' : json) :
  same_on frames_metadata a b -> same_on entry_fields o o' ->
  frames_row a o = frames_row b o'.
Proof.
  intros Hm Ho. unfold frames_row.
  rewrite !(getitem_same_on _ a b _ Hm) by (simpl; tauto).
  rewrite !(get_nan_same_on _ o o' _ Ho) by (simpl; tauto).
  reflexivity.
Qed.

Lemma frames_df_list_alike (a b : json) :
  frames_alike a b -> frames_df_list a = frames_df_list b.
Proof.
  intros (Ha & Hb & Hm & Hd). unfold frames_df_list.
  destruct (getitem_under _ _ a b Ha Hb Hd)
    as [[-> ->]|(u & v & -> & -> & Huv)]; [reflexivity|].
  simpl bind.
  apply (elementwise_loop (same_on entry_fields)); [exact Huv | |].
  - intros o o' Ho. apply frames_row_alike; assumption.
  - apply same_on_refl.
Qed.

Lemma submissions_recent_alike (a b : json) :
  submissions_alike a b ->
  (filings <- getitem a "filings" ;; getitem filings "recent")
  = (filings <- getitem b "filings" ;; getitem filings "recent").
Proof.
  intros (Ha & Hb & Hf).
  destruct (getitem_under _ _ a b Ha Hb Hf)
    as [[-> ->]|(u & v & -> & -> & Huv)]; [reflexivity|].
  simpl bind. apply (getitem_same_on _ u v "recent" Huv). simpl. tauto.
Qed.

Lemma dict_get_app {A} (k : string) (d1 d2 : dict A) :
  dict_get k (d1 ++ d2)
  = match dict_get k d1 with
    | Some v => Some v
    | None => dict_get k d2
    end.
Proof.
  induction d1 as [|[k' v'] d1 IH]; simpl; [reflexivity|].
  destruct (String.eqb k k'); [reflexivity | exact IH].
Qed.

Lemma with_field_same_on (ks : list string) (d : dict json) (n : nat)
  (k : string) (v : json) :
  ~ In k ks -> same_on ks (JObj d) (JObj (with_field d n k v)).
Proof.
  intros Hk k' Hk'. unfold with_field.
  rewrite <- (firstn_skipn n d) at 1. rewrite !dict_get_app.
  destruct (dict_get k' (firstn n d)); [reflexivity|].
  simpl. destruct (String.eqb k' k) eqn:E; [|reflexivity].
  apply String.eqb_eq in E. subst. contradiction.
Qed.

Lemma Forall2_same {A} (R : A -> A -> Prop) (l : list A) :
  (forall x, R x x) -> Forall2 R l l.
Proof. intros H. induction l; constructor; auto. Qed.

Lemma elementwise_refl (R : json -> json -> Prop) (a : json) :
  (forall x, R x x) -> elementwise R a a.
Proof.
  intros H. destruct a; simpl; try reflexivity. apply Forall2_same. exact H.
Qed.

Lemma valuewise_refl (R : json -> json -> Prop) (a : json) :
  (forall x, R x x) -> valuewise R a a.
Proof.
  intros H. destruct a; simpl; try reflexivity.
  apply Forall2_same. intros x. split; [reflexivity | apply H].
Qed.

Lemma units_alike_refl (u : json) : units_alike u u.
Proof.
  apply valuewise_refl. intros x. apply elementwise_refl. apply same_on_refl.
Qed.

Lemma under_refl (key : string) (R : json -> json -> Prop) (a : json) :
  (forall x, R x x) -> under key R a a.
Proof. intros H. unfold under. destruct (lookup a key); auto. Qed.

Lemma tag_alike_refl (t : json) : tag_alike t t.
Proof.
  destruct t; simpl; try reflexivity. split.
  - intros k _. reflexivity.
  - apply (under_refl "units" units_alike (JObj fields)), units_alike_refl.
Qed.

Lemma under_with_field (key : string) (R : json -> json -> Prop)
  (d : dict json) (n : nat) (k : string) (v : json) :
  (forall x, R x x) -> k <> key ->
  under key R (JObj d) (JObj (with_field d n k v)).
Proof.
  intros H Hk. unfold under. cbn [lookup].
  rewrite <- (with_field_same_on [key] d n k v) with (k := key);
    [|simpl; intuition congruence | simpl; tauto].
  destruct (dict_get key d); auto.
Qed.

(** Adding, at the top level of a document, a field that the operation
    does not read gives a document alike. *)
Lemma extra_top_level_field_alike (d : dict json) (n : nat) (k : string)
  (v : json) :
  (~ In k ("units" :: concept_metadata) ->
   concept_alike (JObj d) (JObj (with_field d n k v))) /\
  (~ In k ["facts"; "cik"; "entityName"] ->
   facts_alike (JObj d) (JObj (with_field d n k v))) /\
  (~ In k ("data" :: frames_metadata) ->
   frames_alike (JObj d) (JObj (with_field d n k v))) /\
  (k <> "filings" ->
   submissions_alike (JObj d) (JObj (with_field d n k v))).
Proof.
  split; [|split; [|split]]; intros Hk.
  - split; [reflexivity|]. split; [reflexivity|]. split.
    + apply with_field_same_on. intros H. apply Hk. right. exact H.
    + apply under_with_field; [exact units_alike_refl|].
      intros ->. apply Hk. left. reflexivity.
  - split; [reflexivity|]. split; [reflexivity|]. split.
    + apply with_field_same_on. intros H. apply Hk. right. exact H.
    + apply under_with_field.
      * intros x. apply valuewise_refl. intros y. apply valuewise_refl.
        exact tag_alike_refl.
      * intros ->. apply Hk. left. reflexivity.
  - split; [reflexivity|]. split; [reflexivity|]. split.
    + apply with_field_same_on. intros H. apply Hk. right. exact H.
    + apply under_with_field.
      * intros x. apply elementwise_refl. apply same_on_refl.
      * intros ->. apply Hk. left. reflexivity.
  - split; [reflexivity|]. split; [reflexivity|].
    apply under_with_field; [apply same_on_refl | exact Hk].
Qed.

Lemma raw_lengths_objects (arrays : list json) :
  Forall (fun a => is_obj a = true) arrays -> raw_lengths arrays = [].
Proof.
  induction 1 as [|a arrays Ha _ IH]; [reflexivity|].
  destruct a; try discriminate. exact IH.
Qed.

Lemma extract_index_objects (arrays : list json) :
  arrays <> [] -> Forall (fun a => is_obj a = true) arrays ->
  extract_index arrays = Ok (map LStr (unique_multiple (dict_lists arrays))).
Proof.
  intros Hne Hall. unfold extract_index.
  rewrite (raw_lengths_objects arrays Hall).
  destruct arrays as [|a arrays]; [congruence|].
  inversion Hall as [|? ? Ha _]; subst.
  destruct a; try discriminate. reflexivity.
Qed.

Lemma tickers_field_count (L : library) (p : bool) (srv : server)
  (entries : dict json) :
  delivers srv tickers_request (JObj entries) ->
  entries <> [] ->
  Forall (fun kv => is_obj (snd kv) = true) entries ->
  List.length (entry_field_names entries) <> 3%nat ->
  fst (run (get_companytickers L p) srv) = Raise ValueError.
Proof.
  intros Hd Hne Hall Hlen.
  rewrite (run_get_companytickers L p srv _ Hd).
  unfold from_records, from_records_dict.
  rewrite extract_index_objects.
  - simpl bind. unfold set_columns.
    cbn [reset_index_drop transpose columns index].
    fold (entry_field_names entries). rewrite length_map.
    destruct (Nat.eqb _ _) eqn:E; [|reflexivity].
    apply Nat.eqb_eq in E. simpl in E. contradiction.
  - intros H. apply map_eq_nil in H. revert H. apply sorted_nonempty.
    destruct entries; [congruence | discriminate].
  - apply Forall_forall. intros a Ha.
    apply in_map_iff in Ha. destruct Ha as (k & <- & Hk).
    apply (proj1 (sorted_In _ _)) in Hk.
    destruct (dict_get_keys k entries Hk) as (v & Hv).
    unfold dict_item. rewrite Hv. apply dict_get_In in Hv.
    rewrite Forall_forall in Hall. apply (Hall _ Hv).
Qed.

(** C9, as stated, fails: [tickers_doc_extra] is [tickers_doc] with one
    more field in its second entry; [get_companytickers] succeeds on the
    latter and raises [ValueError] on the former. *)
Lemma extra_ticker_field_raises :
  tickers_doc_extra
  = JObj [("0", JObj [("cik_str", JInt 320193); ("ticker", JStr "AAPL");
                      ("title", JStr "Apple Inc.")]);
          ("1", JObj (with_field
                        [("cik_str", JInt 789019); ("ticker", JStr "MSFT");
                         ("title", JStr "MICROSOFT CORP")]
                        3 "exchange" (JStr "Nasdaq")))] /\
  fst (run (get_companytickers sample_library false)
           (upstream 200 (Some tickers_doc)))
  = Ok (mkDataFrame
          [LInt 0; LInt 1]
          [LStr "cik"; LStr "ticker"; LStr "title"]
          [[Val (JInt 320193); Val (JStr "AAPL"); Val (JStr "Apple Inc.")];
           [Val (JInt 789019); Val (JStr "MSFT");
            Val (JStr "MICROSOFT CORP")]]) /\
  fst (run (get_companytickers sample_library false)
           (upstream 200 (Some tickers_doc_extra)))
  = Raise ValueError.
Proof. repeat split. Qed.

(** C9, amended.  [get_companyconcept], [get_companyfacts], [get_frames]
    and [get_submissions] give the same result, rows or failure, on two
    documents that agree on every field the operation reads by name.
    Adding a field under another key to an object keeps it in agreement on
    the keys read; so for a field added at the top level of a document.
    The units of a concept, the taxonomies and tags of the facts and the
    fields of the "recent" section are all read.  [get_companytickers]
    reads every field of every entry and names the columns by position:
    it raises [ValueError] unless the entries have three field names in
    all. *)
Theorem unread_fields_are_ignored :
  (forall ks d n k v,
      ~ In k ks -> same_on ks (JObj d) (JObj (with_field d n k v))) /\
  (forall d n k v,
      (~ In k ("units" :: concept_metadata) ->
       concept_alike (JObj d) (JObj (with_field d n k v))) /\
      (~ In k ["facts"; "cik"; "entityName"] ->
       facts_alike (JObj d) (JObj (with_field d n k v))) /\
      (~ In k ("data" :: frames_metadata) ->
       frames_alike (JObj d) (JObj (with_field d n k v))) /\
      (k <> "filings" ->
       submissions_alike (JObj d) (JObj (with_field d n k v)))) /\
  (forall L cik email taxonomy tag srv srv' a b,
      delivers srv (companyconcept_request cik email taxonomy tag) a ->
      delivers srv' (companyconcept_request cik email taxonomy tag) b ->
      concept_alike a b ->
      fst (run (get_companyconcept L cik email taxonomy tag) srv)
      = fst (run (get_companyconcept L cik email taxonomy tag) srv')) /\
  (forall L cik email srv srv' a b,
      delivers srv (companyfacts_request cik email) a ->
      delivers srv' (companyfacts_request cik email) b ->
      facts_alike a b ->
      fst (run (get_companyfacts L cik email) srv)
      = fst (run (get_companyfacts L cik email) srv')) /\
  (forall L email taxonomy tag units period srv srv' a b,
      delivers srv (frames_request email taxonomy tag units period) a ->
      delivers srv' (frames_request email taxonomy tag units period) b ->
      frames_alike a b ->
      fst (run (get_frames L email taxonomy tag units period) srv)
      = fst (run (get_frames L email taxonomy tag units period) srv')) /\
  (forall L cik email srv srv' a b,
      delivers srv (submissions_request cik email) a ->
      delivers srv' (submissions_request cik email) b ->
      submissions_alike a b ->
      fst (run (get_submissions L cik email) srv)
      = fst (run (get_submissions L cik email) srv')) /\
  (forall L parse_cik srv entries,
      delivers srv tickers_request (JObj entries) ->
      entries <> [] ->
      Forall (fun kv => is_obj (snd kv) = true) entries ->
      List.length (entry_field_names entries) <> 3%nat ->
      fst (run (get_companytickers L parse_cik) srv) = Raise ValueError).
Proof.
  split; [exact with_field_same_on|].
  split; [exact extra_top_level_field_alike|].
  split; [|split; [|split; [|split]]].
  - intros L cik email taxonomy tag srv srv' a b Ha Hb Hab.
    rewrite (run_get_companyconcept L _ _ _ _ _ _ Ha).
    rewrite (run_get_companyconcept L _ _ _ _ _ _ Hb).
    rewrite (companyconcept_df_list_alike a b Hab). reflexivity.
  - intros L cik email srv srv' a b Ha Hb Hab.
    rewrite (run_get_companyfacts L _ _ _ _ Ha).
    rewrite (run_get_companyfacts L _ _ _ _ Hb).
    rewrite (companyfacts_df_list_alike a b Hab). reflexivity.
  - intros L email taxonomy tag units period srv srv' a b Ha Hb Hab.
    rewrite (run_get_frames L _ _ _ _ _ _ _ Ha).
    rewrite (run_get_frames L _ _ _ _ _ _ _ Hb).
    rewrite (frames_df_list_alike a b Hab). reflexivity.
  - intros L cik email srv srv' a b Ha Hb Hab.
    rewrite (run_get_submissions L _ _ _ _ Ha).
    rewrite (run_get_submissions L _ _ _ _ Hb).
    pose proof (submissions_recent_alike a b Hab) as H.
    destruct (getitem a "filings") as [fa|ea], (getitem b "filings") as [fb|eb];
      simpl bind in *;
      first [congruence | rewrite H; reflexivity | rewrite <- H; reflexivity].
  - exact tickers_field_count.
Qed.

Lemma concept_doc_extra_alike : concept_alike concept_doc concept_doc_extra.
Proof.
  split; [reflexivity|]. split; [reflexivity|]. split.
  - intros k Hk. simpl in Hk.
    repeat (destruct Hk as [<-|Hk]; [reflexivity|]). contradiction.
  - unfold under, units_alike, valuewise, elementwise; cbn.
    repeat constructor; try apply same_on_refl.
    intros k Hk. simpl in Hk.
    repeat (destruct Hk as [<-|Hk]; [reflexivity|]). contradiction.
Defined.

Lemma unread_fields_are_ignored_witness :
  delivers (upstream 200 (Some concept_doc))
           (companyconcept_request "CIK0000320193" "a@b.org" "us-gaap" "Assets")
           concept_doc /\
  delivers (upstream 200 (Some concept_doc_extra))
           (companyconcept_request "CIK0000320193" "a@b.org" "us-gaap" "Assets")
           concept_doc_extra /\
  concept_alike concept_doc concept_doc_extra /\
  fst (run (get_companyconcept sample_library "CIK0000320193" "a@b.org" "us-gaap" "Assets")
           (upstream 200 (Some concept_doc)))
  = fst (run (get_companyconcept sample_library "CIK0000320193" "a@b.org" "us-gaap" "Assets")
             (upstream 200 (Some concept_doc_extra))).
Proof.
  split; [apply delivers_upstream|]. split; [apply delivers_upstream|].
  split; [exact concept_doc_extra_alike|].
  apply (proj1 (proj2 (proj2 unread_fields_are_ignored))
           sample_library "CIK0000320193" "a@b.org" "us-gaap" "Assets"
           (upstream 200 (Some concept_doc))
           (upstream 200 (Some concept_doc_extra))
           concept_doc concept_doc_extra
           (delivers_upstream _ _ _) (delivers_upstream _ _ _)
           concept_doc_extra_alike).
Defined.

(* ------------------------------------------------------------------ *)
(** ** Further properties of the operations *)

From Stdlib Require Import Sorted Permutation.
Import Edge.

(** *** Comprehensions, taken apart *)

Lemma mapM_Ok_inv {A B} (f : A -> result B) (g : A -> B) (l : list A)
  (r : list B) :
  (forall x y, In x l -> f x = Ok y -> y = g x) ->
  mapM f l = Ok r ->
  r = map g l /\ forall x, In x l -> f x = Ok (g x).
Proof.
  revert r. induction l as [|a l IH]; intros r Hg H; simpl in H.
  - injection H as <-. split; [reflexivity | intros x []].
  - destruct (f a) as [y|] eqn:Ea; [|discriminate]. simpl in H.
    destruct (mapM f l) as [ys|] eqn:El; [|discriminate]. simpl in H.
    injection H as <-.
    pose proof (Hg a y (or_introl eq_refl) Ea) as ->.
    destruct (IH ys (fun x y Hx => Hg x y (or_intror Hx)) eq_refl)
      as [-> Hall].
    split; [reflexivity|].
    intros x [<-|Hx]; [exact Ea | apply Hall; exact Hx].
Qed.

Lemma flat_mapM_Ok_inv {A B} (f : A -> result (list B)) (g : A -> list B)
  (l : list A) (r : list B) :
  (forall x y, In x l -> f x = Ok y -> y = g x) ->
  flat_mapM f l = Ok r ->
  r = flat_map g l /\ forall x, In x l -> f x = Ok (g x).
Proof.
  revert r. induction l as [|a l IH]; intros r Hg H; simpl in H.
  - injection H as <-. split; [reflexivity | intros x []].
  - destruct (f a) as [y|] eqn:Ea; [|discriminate]. simpl in H.
    destruct (flat_mapM f l) as [ys|] eqn:El; [|discriminate]. simpl in H.
    injection H as <-.
    pose proof (Hg a y (or_introl eq_refl) Ea) as ->.
    destruct (IH ys (fun x y Hx => Hg x y (or_intror Hx)) eq_refl)
      as [-> Hall].
    split; [reflexivity|].
    intros x [<-|Hx]; [exact Ea | apply Hall; exact Hx].
Qed.

Lemma mapM_Raise_inv {A B} (f : A -> result B) (l : list A) (e : exn) :
  mapM f l = Raise e -> exists x, In x l /\ f x = Raise e.
Proof.
  induction l as [|a l IH]; simpl; [discriminate|].
  destruct (f a) as [y|e'] eqn:Ea; simpl.
  - destruct (mapM f l) as [ys|e'']; simpl; [discriminate|].
    intros H. injection H as ->.
    destruct (IH eq_refl) as (x & Hx & Hfx). exists x. split; auto.
  - intros H. injection H as ->. exists a. split; auto.
Qed.

Lemma flat_mapM_Raise_inv {A B} (f : A -> result (list B)) (l : list A)
  (e : exn) :
  flat_mapM f l = Raise e -> exists x, In x l /\ f x = Raise e.
Proof.
  induction l as [|a l IH]; simpl; [discriminate|].
  destruct (f a) as [y|e'] eqn:Ea; simpl.
  - destruct (flat_mapM f l) as [ys|e'']; simpl; [discriminate|].
    intros H. injection H as ->.
    destruct (IH eq_refl) as (x & Hx & Hfx). exists x. split; auto.
  - intros H. injection H as ->. exists a. split; auto.
Qed.

(** The first element that raises decides the outcome. *)
Lemma mapM_first_raise {A B} (f : A -> result B) (l1 l2 : list A) (x : A)
  (e : exn) :
  (forall y, In y l1 -> exists r, f y = Ok r) -> f x = Raise e ->
  mapM f (l1 ++ x :: l2) = Raise e.
Proof.
  intros Hok Hx. induction l1 as [|a l1 IH]; simpl.
  - rewrite Hx. reflexivity.
  - destruct (Hok a (or_introl eq_refl)) as [r ->]. simpl.
    rewrite IH by (intros y Hy; apply Hok; right; exact Hy). reflexivity.
Qed.

Lemma getitem_Ok_inv (j : json) (k : string) (v : json) :
  getitem j k = Ok v ->
  lookup j k = Some v /\ has_key j k = true /\ field j k = Val v.
Proof.
  unfold has_key, field. destruct j; simpl; try discriminate.
  destruct (dict_get k fields) as [w|]; [|discriminate].
  intros H. injection H as ->. repeat split.
Qed.

Lemma getitem_Raise_inv (j : json) (k : string) (e : exn) :
  getitem j k = Raise e ->
  (e = TypeError /\ is_obj j = false) \/
  (e = KeyError k /\ is_obj j = true /\ has_key j k = false).
Proof.
  unfold has_key. destruct j; simpl;
    try (intros H; injection H as <-; left; split; reflexivity).
  destruct (dict_get k fields); [discriminate|].
  intros H. injection H as <-. right. repeat split.
Qed.

Lemma get_nan_Ok_inv (o : json) (k : string) (p : pyval) :
  get_nan o k = Ok p -> is_obj o = true /\ p = field o k.
Proof.
  unfold field. destruct o; simpl; try discriminate.
  destruct (dict_get k fields); intros H; injection H as <-; split;
    reflexivity.
Qed.

Lemma get_nan_Raise_inv (o : json) (k : string) (e : exn) :
  get_nan o k = Raise e -> e = AttributeError /\ is_obj o = false.
Proof.
  destruct o; simpl; try (intros H; injection H as <-; split; reflexivity).
  destruct (dict_get k fields); discriminate.
Qed.

Lemma iter_objects (data : json) (l : list json) :
  iter data = Ok l -> Forall (fun o => is_obj o = true) l ->
  l = arr_elems data.
Proof.
  destruct data; simpl; try discriminate; intros H; injection H as <-.
  - destruct s; [reflexivity|]. simpl. intros Hall.
    inversion Hall as [|? ? Hbad _]. discriminate Hbad.
  - reflexivity.
  - destruct fields as [|[k v] d]; [reflexivity|]. simpl. intros Hall.
    inversion Hall as [|? ? Hbad _]. discriminate Hbad.
Qed.

(** *** Rows, taken apart *)

Ltac read_ok :=
  match goal with
  | |- bind (getitem ?j ?k) _ = Ok _ -> _ =>
      let v := fresh "v" in
      let E := fresh "E" in
      destruct (getitem j k) as [v|] eqn:E; [|discriminate];
      apply getitem_Ok_inv in E; destruct E as (_ & ? & ?); cbn [bind]
  | |- bind (get_nan ?o ?k) _ = Ok _ -> _ =>
      let p := fresh "p" in
      let E := fresh "E" in
      destruct (get_nan o k) as [p|] eqn:E; [|discriminate];
      apply get_nan_Ok_inv in E; destruct E as (? & ->); cbn [bind]
  end.

Ltac fields_known :=
  repeat match goal with
         | H : field _ _ = Val _ |- _ => rewrite H; clear H
         end.

Ltac keys_known :=
  repeat match goal with
         | H : has_key _ _ = true |- _ => rewrite H; clear H
         end.

Lemma frames_row_Ok_inv (raw o : json) (y : dict pyval) :
  frames_row raw o = Ok y ->
  y = frames_row_of raw o /\ is_obj o = true /\
  forallb (has_key raw) frames_metadata = true.
Proof.
  unfold frames_row. repeat read_ok. intros Hy. injection Hy as <-.
  split; [|split].
  - unfold frames_row_of, frames_metadata, entry_fields. cbn [map app].
    fields_known. reflexivity.
  - assumption.
  - unfold frames_metadata. cbn [forallb]. keys_known. reflexivity.
Qed.

Lemma companyconcept_row_Ok_inv (raw : json) (u : string) (o : json)
  (y : dict pyval) :
  companyconcept_row raw u o = Ok y ->
  y = concept_row_of raw (u, o) /\ is_obj o = true /\
  forallb (has_key raw) concept_metadata = true.
Proof.
  unfold companyconcept_row. repeat read_ok. intros Hy. injection Hy as <-.
  split; [|split].
  - unfold concept_row_of, observation_fields. cbn [map app fst snd].
    fields_known. reflexivity.
  - assumption.
  - unfold concept_metadata. cbn [forallb]. keys_known. reflexivity.
Qed.

Lemma companyfacts_row_Ok_inv (raw : json) (tx tg : string) (t : json)
  (u : string) (o : json) (y : dict pyval) :
  companyfacts_row raw tx tg t u o = Ok y ->
  y = facts_row_of raw (mkLeaf tx tg t u o) /\ is_obj o = true /\
  has_key raw "cik" = true /\ has_key raw "entityName" = true /\
  has_key t "label" = true /\ has_key t "description" = true.
Proof.
  unfold companyfacts_row. repeat read_ok. intros Hy. injection Hy as <-.
  split; [|split].
  - unfold facts_row_of, observation_fields.
    cbn [map app leaf_taxonomy leaf_tag leaf_concept leaf_units leaf_obs].
    fields_known. reflexivity.
  - assumption.
  - repeat split; assumption.
Qed.

(** The rows of one unit, when nothing is raised. *)
Lemma unit_rows_Ok_inv (row : json -> result (dict pyval))
  (g : json -> dict pyval) (vu : json) (ys : list (dict pyval)) :
  (forall o y, row o = Ok y -> y = g o /\ is_obj o = true) ->
  (rows <- iter vu ;; mapM row rows) = Ok ys ->
  ys = map g (arr_elems vu) /\
  forall o, In o (arr_elems vu) -> row o = Ok (g o) /\ is_obj o = true.
Proof.
  intros Hrow. destruct (iter vu) as [rows|] eqn:Ei; [|discriminate].
  cbn [bind]. intros Hm.
  destruct (mapM_Ok_inv row g rows ys
              (fun x y _ Hx => proj1 (Hrow x y Hx)) Hm) as [-> Hall].
  assert (rows = arr_elems vu) as <-.
  { apply (iter_objects vu rows Ei). apply Forall_forall. intros x Hx.
    apply (Hrow x (g x)). apply Hall. exact Hx. }
  split; [reflexivity|].
  intros o Ho. split; [apply Hall; exact Ho|].
  apply (Hrow o (g o)). apply Hall. exact Ho.
Qed.

Lemma unit_leaves_map {B} (g : string * json -> B) (d : dict json) :
  map g (unit_leaves (JObj d))
  = flat_map (fun kv => map (fun o => g (fst kv, o)) (arr_elems (snd kv))) d.
Proof.
  unfold unit_leaves. cbn [obj_items].
  induction d as [|[k vu] d IH]; [reflexivity|].
  cbn [flat_map fst snd]. rewrite map_app, map_map, IH. reflexivity.
Qed.

(** The loop over the units of a concept, when nothing is raised. *)
Lemma units_loop_Ok_inv (row : string -> json -> result (dict pyval))
  (g : string * json -> dict pyval) (u : json) (r : list (dict pyval)) :
  (forall k o y, row k o = Ok y -> y = g (k, o) /\ is_obj o = true) ->
  (units_items <- items u ;;
   flat_mapM (fun '(key_units, value_units) =>
                rows <- iter value_units ;;
                mapM (row key_units) rows) units_items) = Ok r ->
  is_obj u = true /\
  r = map g (unit_leaves u) /\
  forall l, In l (unit_leaves u) ->
            row (fst l) (snd l) = Ok (g l) /\ is_obj (snd l) = true.
Proof.
  intros Hrow. destruct u; try discriminate. cbn [items bind].
  intros H. split; [reflexivity|].
  apply (flat_mapM_Ok_inv _
           (fun kv => map (fun o => g (fst kv, o)) (arr_elems (snd kv))))
    in H.
  - destruct H as [-> Hall]. split.
    + symmetry. apply unit_leaves_map.
    + intros [k o] Hl. unfold unit_leaves in Hl. cbn [obj_items] in Hl.
      apply in_flat_map in Hl.
      destruct Hl as ([k' vu] & Hkv & Hin).
      apply in_map_iff in Hin. destruct Hin as (o' & Heq & Ho').
      injection Heq as -> ->. cbn [fst snd].
      specialize (Hall _ Hkv). cbn beta iota in Hall. cbn [fst snd] in Hall.
      apply (unit_rows_Ok_inv (row k) (fun o => g (k, o)) vu _ (Hrow k) Hall).
      exact Ho'.
  - intros [k vu] ys _ Hys. cbn [fst snd].
    apply (unit_rows_Ok_inv (row k) (fun o => g (k, o)) vu ys (Hrow k) Hys).
Qed.

(** *** Lists of rows, taken apart *)

Lemma map_over_flat_map {A B C} (f : B -> C) (g : A -> list B) (l : list A) :
  map f (flat_map g l) = flat_map (fun x => map f (g x)) l.
Proof.
  induction l as [|a l IH]; [reflexivity|].
  cbn [flat_map]. rewrite map_app, IH. reflexivity.
Qed.

Lemma frames_df_list_Ok_inv (raw : json) (rows : list (dict pyval)) :
  frames_df_list raw = Ok rows ->
  has_key raw "data" = true /\
  rows = map (frames_row_of raw) (frames_entries raw) /\
  forall o, In o (frames_entries raw) ->
            is_obj o = true /\ forallb (has_key raw) frames_metadata = true.
Proof.
  unfold frames_df_list, frames_entries.
  destruct (getitem raw "data") as [data|] eqn:E; [|discriminate].
  apply getitem_Ok_inv in E. destruct E as (-> & Hk & _). cbn [bind].
  intros H. split; [exact Hk|].
  destruct (unit_rows_Ok_inv (frames_row raw) (frames_row_of raw) data rows)
    as [-> Hall]; [|exact H|].
  - intros o y Hy. destruct (frames_row_Ok_inv raw o y Hy) as (-> & Ho & _).
    split; [reflexivity | exact Ho].
  - split; [reflexivity|]. intros o Ho.
    destruct (Hall o Ho) as [Hrow Hobj]. split; [exact Hobj|].
    apply (frames_row_Ok_inv raw o _ Hrow).
Qed.

Lemma companyconcept_df_list_Ok_inv (raw : json) (rows : list (dict pyval)) :
  companyconcept_df_list raw = Ok rows ->
  has_key raw "units" = true /\
  rows = map (concept_row_of raw) (concept_leaves raw) /\
  forall l, In l (concept_leaves raw) ->
            is_obj (snd l) = true /\
            forallb (has_key raw) concept_metadata = true.
Proof.
  unfold companyconcept_df_list, concept_leaves.
  destruct (getitem raw "units") as [u|] eqn:E; [|discriminate].
  apply getitem_Ok_inv in E. destruct E as (-> & Hk & _). cbn [bind].
  intros H. split; [exact Hk|].
  destruct (units_loop_Ok_inv (companyconcept_row raw) (concept_row_of raw)
              u rows) as (_ & -> & Hall); [|exact H|].
  - intros k o y Hy.
    destruct (companyconcept_row_Ok_inv raw k o y Hy) as (-> & Ho & _).
    split; [reflexivity | exact Ho].
  - split; [reflexivity|]. intros [k o] Hl.
    destruct (Hall _ Hl) as [Hrow Hobj]. split; [exact Hobj|].
    apply (companyconcept_row_Ok_inv raw k o _ Hrow).
Qed.

(** What a successful row of [get_companyfacts] tells about its leaf. *)
Lemma companyfacts_tag_Ok_inv (raw : json) (tx tg : string) (t : json)
  (ys : list (dict pyval)) :
  (units <- getitem t "units" ;;
   units_items <- items units ;;
   flat_mapM (fun '(key_units, value_units) =>
                rows <- iter value_units ;;
                mapM (companyfacts_row raw tx tg t key_units) rows)
             units_items) = Ok ys ->
  ys = map (facts_row_of raw) (tag_leaves tx tg t) /\
  forall l, In l (tag_leaves tx tg t) ->
            is_obj (leaf_obs l) = true /\
            has_key raw "cik" = true /\ has_key raw "entityName" = true /\
            has_key (leaf_concept l) "label" = true /\
            has_key (leaf_concept l) "description" = true.
Proof.
  unfold tag_leaves.
  destruct (getitem t "units") as [u|] eqn:E; [|discriminate].
  apply getitem_Ok_inv in E. destruct E as (-> & _ & _). cbn [bind].
  intros H.
  destruct (units_loop_Ok_inv
              (companyfacts_row raw tx tg t)
              (fun l => facts_row_of raw (mkLeaf tx tg t (fst l) (snd l)))
              u ys) as (_ & -> & Hall); [|exact H|].
  - intros k o y Hy.
    destruct (companyfacts_row_Ok_inv raw tx tg t k o y Hy) as (-> & Ho & _).
    split; [reflexivity | exact Ho].
  - split.
    + rewrite map_map. apply map_ext. intros [k o]. reflexivity.
    + intros l Hl. apply in_map_iff in Hl.
      destruct Hl as ([k o] & <- & Hko).
      destruct (Hall _ Hko) as [Hrow Hobj]. cbn [fst snd] in Hrow, Hobj.
      cbn [leaf_obs leaf_concept].
      destruct (companyfacts_row_Ok_inv raw tx tg t k o _ Hrow)
        as (_ & _ & Hrest).
      split; [exact Hobj | exact Hrest].
Qed.

Lemma companyfacts_df_list_Ok_inv (raw : json) (rows : list (dict pyval)) :
  companyfacts_df_list raw = Ok rows ->
  has_key raw "facts" = true /\
  rows = map (facts_row_of raw) (facts_leaves raw) /\
  forall l, In l (facts_leaves raw) ->
            is_obj (leaf_obs l) = true /\
            has_key raw "cik" = true /\ has_key raw "entityName" = true /\
            has_key (leaf_concept l) "label" = true /\
            has_key (leaf_concept l) "description" = true.
Proof.
  unfold companyfacts_df_list, facts_leaves.
  destruct (getitem raw "facts") as [facts|] eqn:E; [|discriminate].
  apply getitem_Ok_inv in E. destruct E as (-> & Hk & _). cbn [bind].
  destruct facts as [| | | | | |taxonomies]; try discriminate.
  cbn [items bind obj_items]. intros H. split; [exact Hk|].
  set (tags_of := fun kv : string * json =>
                    flat_map (fun '(key_tag, value_tag) =>
                                tag_leaves (fst kv) key_tag value_tag)
                             (obj_items (snd kv))).
  assert (forall kv ys,
             (let '(key_taxonomy, value_taxonomy) := kv in
              tags <- items value_taxonomy ;;
              flat_mapM (fun '(key_tag, value_tag) =>
                 units <- getitem value_tag "units" ;;
                 units_items <- items units ;;
                 flat_mapM (fun '(key_units, value_units) =>
                    rows <- iter value_units ;;
                    mapM (companyfacts_row raw key_taxonomy key_tag value_tag
                                           key_units) rows) units_items) tags)
             = Ok ys ->
             ys = map (facts_row_of raw) (tags_of kv) /\
             forall l, In l (tags_of kv) ->
               is_obj (leaf_obs l) = true /\
               has_key raw "cik" = true /\ has_key raw "entityName" = true /\
               has_key (leaf_concept l) "label" = true /\
               has_key (leaf_concept l) "description" = true) as Htax.
  { intros [tx vtx] ys. unfold tags_of. cbn [fst snd].
    destruct vtx as [| | | | | |tags]; try discriminate.
    cbn [items bind obj_items]. intros Hys.
    apply (flat_mapM_Ok_inv _
             (fun kv => map (facts_row_of raw)
                            (tag_leaves tx (fst kv) (snd kv)))) in Hys.
    - destruct Hys as [-> Hall]. split.
      + rewrite map_over_flat_map.
        apply flat_map_ext. intros [tg t]. reflexivity.
      + intros l Hl. apply in_flat_map in Hl.
        destruct Hl as ([tg t] & Hin & Hl).
        specialize (Hall _ Hin). cbn beta iota in Hall.
        apply (proj2 (companyfacts_tag_Ok_inv raw tx tg t _ Hall) l Hl).
    - intros [tg t] y _ Hy. cbn [fst snd].
      apply (proj1 (companyfacts_tag_Ok_inv raw tx tg t y Hy)). }
  apply (flat_mapM_Ok_inv _
           (fun kv => map (facts_row_of raw) (tags_of kv))) in H.
  - destruct H as [-> Hall]. split.
    + rewrite map_over_flat_map.
      apply flat_map_ext. intros [tx vtx]. reflexivity.
    + intros l Hl. apply in_flat_map in Hl.
      destruct Hl as ([tx vtx] & Hin & Hl).
      apply (proj2 (Htax (tx, vtx) _ (Hall _ Hin)) l Hl).
  - intros kv y _ Hy. apply (proj1 (Htax kv y Hy)).
Qed.

Lemma rows_index {A} (L : library) (f : A -> dict pyval) (leaves : list A) :
  index (from_records_dicts L (map f leaves))
  = range_index (List.length leaves).
Proof. unfold from_records_dicts. cbn [index]. rewrite length_map. reflexivity. Qed.

Lemma forallb_has_key (raw : json) (ks : list string) (k : string) :
  forallb (has_key raw) ks = true -> In k ks -> has_key raw k = true.
Proof.
  intros H Hk. rewrite forallb_forall in H. apply H. exact Hk.
Qed.

(** *** Whatever succeeds is the flattening of the document *)

(** X1. Whenever [get_frames] returns a frame, on any parsed body, the
    body has a "data" member, the frame has one row per entry of it,
    labelled 0, 1, ... in array order, and the twelve declared columns
    (none when there is no entry); every entry is an object and all six
    metadata fields are present.  Under each entry field, row [i] holds
    the cell that pandas makes of the [i]-th entry's value within the
    column of all entries' values: the missing-value marker when the
    entry lacks the field, the value itself when the column is one that
    pandas keeps.  Each metadata column holds one cell in all rows, the
    value of the document when that is a string or an integer.  No entry
    is skipped and no partial frame is returned. *)
Theorem frames_success_is_flattening
  (L : library) (email taxonomy tag units period : string) (srv : server)
  (raw : json) (df : DataFrame) :
  delivers srv (frames_request email taxonomy tag units period) raw ->
  fst (run (get_frames L email taxonomy tag units period) srv) = Ok df ->
  has_key raw "data" = true /\
  nrows df = List.length (frames_entries raw) /\
  index df = range_index (List.length (frames_entries raw)) /\
  columns df = match frames_entries raw with
               | [] => []
               | _ :: _ => map LStr frames_columns
               end /\
  (forall i o,
      nth_error (frames_entries raw) i = Some o ->
      is_obj o = true /\
      (forall k, In k frames_metadata -> has_key raw k = true) /\
      (forall k, In k entry_fields ->
         marks_missing df i o k /\
         holds_in_column (convert_objects L) df i k
                         (frames_values raw k) (field o k))) /\
  (forall i j k,
      (i < nrows df)%nat -> (j < nrows df)%nat -> In k frames_metadata ->
      cell df i k = cell df j k) /\
  (forall i k,
      (i < nrows df)%nat -> In k frames_metadata ->
      plain (field raw k) = true -> holds_value df i k raw k).
Proof.
  intros Hd. rewrite (run_get_frames L _ _ _ _ _ _ _ Hd).
  destruct (frames_df_list raw) as [rows|] eqn:E; [|discriminate].
  cbn [bind]. intros Hdf. injection Hdf as <-.
  destruct (frames_df_list_Ok_inv raw rows E) as (Hk & -> & Hall).
  split; [exact Hk|]. split; [apply rows_nrows|]. split; [apply rows_index|].
  split.
  { destruct (frames_entries raw) as [|o l] eqn:El; [reflexivity|].
    rewrite <- El. apply rows_columns;
      [exact frames_columns_nodup | reflexivity |].
    rewrite rows_nrows, El. simpl. lia. }
  split; [|split].
  - intros i o Hi. destruct (Hall o (nth_error_In _ _ Hi)) as [Hobj Hmeta].
    split; [exact Hobj|]. split.
    + intros k Hin. apply (forallb_has_key raw _ k Hmeta Hin).
    + intros k Hin.
      pose proof (frames_frame_entry L raw i o k Hi Hin) as H.
      split; [apply (holds_in_column_marks _ _ _ _ _ _ H) | exact H].
  - intros i j k Hi Hj Hin. rewrite rows_nrows in Hi, Hj.
    apply (proj1 (frames_frame_metadata L raw k Hin) i j Hi Hj).
  - intros i k Hi Hin Hp. rewrite rows_nrows in Hi.
    destruct (nth_error_lt _ _ Hi) as [o Ho].
    destruct (Hall o (nth_error_In _ _ Ho)) as [_ Hmeta].
    apply holds_value_field; [apply (forallb_has_key raw _ k Hmeta Hin)|].
    apply (proj2 (frames_frame_metadata L raw k Hin) i Hi Hp).
Qed.

Lemma frames_success_is_flattening_witness :
  exists df,
    delivers (upstream 200 (Some frames_doc))
             (frames_request "a@b.org" "us-gaap" "AccountsPayableCurrent"
                             "USD" "CY2019Q1I") frames_doc /\
    fst (run (get_frames sample_library "a@b.org" "us-gaap"
                         "AccountsPayableCurrent" "USD" "CY2019Q1I")
             (upstream 200 (Some frames_doc))) = Ok df /\
    nrows df = 2%nat /\ index df = [LInt 0; LInt 1] /\
    cell df 0 "loc" = Some (Val (JStr "US-CA")) /\
    cell df 1 "loc" = Some NaN.
Proof.
  eexists. split; [apply delivers_upstream|].
  split; [vm_compute; reflexivity|].
  destruct (frames_success_is_flattening
              sample_library
              "a@b.org" "us-gaap" "AccountsPayableCurrent" "USD" "CY2019Q1I"
              (upstream 200 (Some frames_doc)) frames_doc _
              (delivers_upstream _ _ _) eq_refl)
    as (_ & Hn & Hi & _ & Hrows & _).
  split; [exact Hn|]. split; [exact Hi|]. split.
  - apply (proj2 (proj2 (proj2 (proj2 (proj2 (Hrows 0%nat entry1 eq_refl))
                                      "loc" ltac:(simpl; tauto))))).
    reflexivity.
  - apply (proj1 (proj2 (proj2 (Hrows 1%nat entry2 eq_refl))
                        "loc" ltac:(simpl; tauto))).
    reflexivity.
Defined.

(** X2. Whenever [get_companyconcept] returns a frame, on any parsed
    body, the body has a "units" member, the frame has one row per (unit,
    observation) pair of it, labelled 0, 1, ... in document order, and the
    fifteen declared columns (none when there is no observation); every
    observation is an object and all six metadata fields are present.
    Row [i] names the unit of the [i]-th pair and, under each observation
    field, holds the cell that pandas makes of that pair's value within
    the column of all pairs' values: the missing-value marker when the
    observation lacks the field, the value itself when the column is one
    that pandas keeps.  Each metadata column holds one cell in all rows,
    the value of the document when that is a string or an integer. *)
Theorem companyconcept_success_is_flattening
  (L : library) (cik email taxonomy tag : string) (srv : server)
  (raw : json) (df : DataFrame) :
  delivers srv (companyconcept_request cik email taxonomy tag) raw ->
  fst (run (get_companyconcept L cik email taxonomy tag) srv) = Ok df ->
  has_key raw "units" = true /\
  nrows df = List.length (concept_leaves raw) /\
  index df = range_index (List.length (concept_leaves raw)) /\
  columns df = match concept_leaves raw with
               | [] => []
               | _ :: _ => map LStr concept_columns
               end /\
  (forall i u o,
      nth_error (concept_leaves raw) i = Some (u, o) ->
      is_obj o = true /\
      (forall k, In k concept_metadata -> has_key raw k = true) /\
      cell df i "units" = Some (Val (JStr u)) /\
      (forall k, In k observation_fields ->
         marks_missing df i o k /\
         holds_in_column (convert_objects L) df i k
                         (concept_values raw k) (field o k))) /\
  (forall i j k,
      (i < nrows df)%nat -> (j < nrows df)%nat -> In k concept_metadata ->
      cell df i k = cell df j k) /\
  (forall i k,
      (i < nrows df)%nat -> In k concept_metadata ->
      plain (field raw k) = true -> holds_value df i k raw k).
Proof.
  intros Hd. rewrite (run_get_companyconcept L _ _ _ _ _ _ Hd).
  destruct (companyconcept_df_list raw) as [rows|] eqn:E; [|discriminate].
  cbn [bind]. intros Hdf. injection Hdf as <-.
  destruct (companyconcept_df_list_Ok_inv raw rows E) as (Hk & -> & Hall).
  split; [exact Hk|]. split; [apply rows_nrows|]. split; [apply rows_index|].
  split.
  { destruct (concept_leaves raw) as [|l0 l] eqn:El; [reflexivity|].
    rewrite <- El. apply rows_columns;
      [exact concept_columns_nodup | reflexivity |].
    rewrite rows_nrows, El. simpl. lia. }
  split; [|split].
  - intros i u o Hi.
    destruct (Hall _ (nth_error_In _ _ Hi)) as [Hobj Hmeta].
    split; [exact Hobj|]. split; [|split].
    + intros k Hin. apply (forallb_has_key raw _ k Hmeta Hin).
    + apply (concept_frame_units L raw i u o Hi).
    + intros k Hin.
      pose proof (concept_frame_observation L raw i u o k Hi Hin) as H.
      split; [apply (holds_in_column_marks _ _ _ _ _ _ H) | exact H].
  - intros i j k Hi Hj Hin. rewrite rows_nrows in Hi, Hj.
    apply (proj1 (concept_frame_metadata L raw k Hin) i j Hi Hj).
  - intros i k Hi Hin Hp. rewrite rows_nrows in Hi.
    destruct (nth_error_lt _ _ Hi) as [l Hl].
    destruct (Hall l (nth_error_In _ _ Hl)) as [_ Hmeta].
    apply holds_value_field; [apply (forallb_has_key raw _ k Hmeta Hin)|].
    apply (proj2 (concept_frame_metadata L raw k Hin) i Hi Hp).
Qed.

Lemma companyconcept_success_is_flattening_witness :
  exists df,
    delivers (upstream 200 (Some concept_doc))
             (companyconcept_request "CIK0000320193" "a@b.org" "us-gaap"
                                     "Assets") concept_doc /\
    fst (run (get_companyconcept sample_library
                "CIK0000320193" "a@b.org" "us-gaap" "Assets")
             (upstream 200 (Some concept_doc))) = Ok df /\
    nrows df = 3%nat /\ index df = [LInt 0; LInt 1; LInt 2] /\
    cell df 2 "val" = Some (Val (JInt 15550061000)) /\
    cell df 1 "fy" = Some NaN.
Proof.
  eexists. split; [apply delivers_upstream|].
  split; [vm_compute; reflexivity|].
  destruct (companyconcept_success_is_flattening
              sample_library "CIK0000320193" "a@b.org" "us-gaap" "Assets"
              (upstream 200 (Some concept_doc)) concept_doc _
              (delivers_upstream _ _ _) eq_refl)
    as (_ & Hn & Hi & _ & Hrows & _).
  split; [exact Hn|]. split; [exact Hi|]. split.
  - apply (proj2 (proj2 (proj2
             (proj2 (proj2 (proj2 (Hrows 2%nat "shares" obs3 eq_refl)))
                    "val" ltac:(simpl; tauto))))).
    reflexivity.
  - apply (proj1 (proj2 (proj2 (proj2 (Hrows 1%nat "USD" obs2 eq_refl)))
                        "fy" ltac:(simpl; tauto))).
    reflexivity.
Defined.

(** X3. Whenever [get_companyfacts] returns a frame, on any parsed body,
    the body has a "facts" member, the frame has one row per innermost
    observation, labelled 0, 1, ... in document order, and the fifteen
    declared columns (none when there is no observation); every
    observation is an object, its tag has a label and a description, and
    the document has "cik" and "entityName".  Row [i] names the taxonomy,
    tag and unit of the [i]-th observation and, under the label, the
    description and each observation field, holds the cell that pandas
    makes of that observation's value within the column of the values of
    all observations: the missing-value marker when the field is absent,
    the value itself when the column is one that pandas keeps.  The cik
    and entityName columns hold one cell in all rows, the value of the
    document when that is a string or an integer. *)
Theorem companyfacts_success_is_flattening
  (L : library) (cik email : string) (srv : server) (raw : json)
  (df : DataFrame) :
  delivers srv (companyfacts_request cik email) raw ->
  fst (run (get_companyfacts L cik email) srv) = Ok df ->
  has_key raw "facts" = true /\
  nrows df = List.length (facts_leaves raw) /\
  index df = range_index (List.length (facts_leaves raw)) /\
  columns df = match facts_leaves raw with
               | [] => []
               | _ :: _ => map LStr facts_columns
               end /\
  (forall i l,
      nth_error (facts_leaves raw) i = Some l ->
      is_obj (leaf_obs l) = true /\
      has_key raw "cik" = true /\ has_key raw "entityName" = true /\
      has_key (leaf_concept l) "label" = true /\
      has_key (leaf_concept l) "description" = true /\
      ancestry df i (leaf_taxonomy l) (leaf_tag l) (leaf_units l) /\
      (forall k, In k ["label"; "description"] ->
         holds_in_column (convert_objects L) df i k
                         (facts_tag_values raw k)
                         (field (leaf_concept l) k)) /\
      (forall k, In k observation_fields ->
         marks_missing df i (leaf_obs l) k /\
         holds_in_column (convert_objects L) df i k
                         (facts_values raw k) (field (leaf_obs l) k))) /\
  (forall i j k,
      (i < nrows df)%nat -> (j < nrows df)%nat ->
      In k ["cik"; "entityName"] ->
      cell df i k = cell df j k) /\
  (forall i k,
      (i < nrows df)%nat -> In k ["cik"; "entityName"] ->
      plain (field raw k) = true -> holds_value df i k raw k).
Proof.
  intros Hd. rewrite (run_get_companyfacts L _ _ _ _ Hd).
  destruct (companyfacts_df_list raw) as [rows|] eqn:E; [|discriminate].
  cbn [bind]. intros Hdf. injection Hdf as <-.
  destruct (companyfacts_df_list_Ok_inv raw rows E) as (Hk & -> & Hall).
  split; [exact Hk|]. split; [apply rows_nrows|]. split; [apply rows_index|].
  split.
  { destruct (facts_leaves raw) as [|l0 ls] eqn:El; [reflexivity|].
    rewrite <- El. apply rows_columns;
      [exact facts_columns_nodup | reflexivity |].
    rewrite rows_nrows, El. simpl. lia. }
  split; [|split].
  - intros i l Hi.
    destruct (Hall _ (nth_error_In _ _ Hi)) as (Hobj & H1 & H2 & H3 & H4).
    repeat (split; [assumption|]).
    split; [apply (facts_frame_ancestry L raw i l Hi)|]. split.
    + intros k Hin. apply (facts_frame_tag L raw i l k Hi Hin).
    + intros k Hin.
      pose proof (facts_frame_observation L raw i l k Hi Hin) as H.
      split; [apply (holds_in_column_marks _ _ _ _ _ _ H) | exact H].
  - intros i j k Hi Hj Hin. rewrite rows_nrows in Hi, Hj.
    apply (proj1 (facts_frame_document L raw k Hin) i j Hi Hj).
  - intros i k Hi Hin Hp. rewrite rows_nrows in Hi.
    destruct (nth_error_lt _ _ Hi) as [l Hl].
    destruct (Hall l (nth_error_In _ _ Hl)) as (_ & H1 & H2 & _).
    apply holds_value_field.
    + simpl in Hin. destruct Hin as [<-|[<-|[]]]; assumption.
    + apply (proj2 (facts_frame_document L raw k Hin) i Hi Hp).
Qed.

Lemma companyfacts_success_is_flattening_witness :
  exists df,
    delivers (upstream 200 (Some facts_doc))
             (companyfacts_request "CIK0000320193" "a@b.org") facts_doc /\
    fst (run (get_companyfacts sample_library "CIK0000320193" "a@b.org")
             (upstream 200 (Some facts_doc))) = Ok df /\
    nrows df = 4%nat /\ index df = [LInt 0; LInt 1; LInt 2; LInt 3] /\
    cell df 3 "label" = Some (Val (JStr "Assets")) /\
    cell df 3 "frame" = Some NaN.
Proof.
  eexists. split; [apply delivers_upstream|].
  split; [vm_compute; reflexivity|].
  destruct (companyfacts_success_is_flattening
              sample_library "CIK0000320193" "a@b.org"
              (upstream 200 (Some facts_doc)) facts_doc _
              (delivers_upstream _ _ _) eq_refl)
    as (_ & Hn & Hi & _ & Hrows & _).
  split; [exact Hn|]. split; [exact Hi|].
  destruct (Hrows 3%nat
              (mkLeaf "us-gaap" "Assets" (tag_doc "Assets" "USD" "shares")
                      "shares" obs2) eq_refl)
    as (_ & _ & _ & _ & _ & _ & Htag & Hobs).
  split.
  - apply (proj2 (proj2 (Htag "label" ltac:(simpl; tauto)))). reflexivity.
  - apply (proj1 (Hobs "frame" ltac:(simpl; tauto))). reflexivity.
Defined.

(** *** Whatever fails, after parsing, fails on the shape of the document *)

Lemma getitem_access_error (ks : list string) (j : json) (k : string)
  (e : exn) :
  In k ks -> getitem j k = Raise e -> access_error ks e.
Proof.
  intros Hk H. apply getitem_Raise_inv in H.
  destruct H as [[-> _]|(-> & _ & _)].
  - left. reflexivity.
  - right. right. exists k. split; [exact Hk | reflexivity].
Qed.

Lemma get_nan_access_error (ks : list string) (o : json) (k : string)
  (e : exn) :
  get_nan o k = Raise e -> access_error ks e.
Proof.
  intros H. apply get_nan_Raise_inv in H. destruct H as [-> _].
  right. left. reflexivity.
Qed.

Ltac read_any ks :=
  match goal with
  | |- bind (getitem ?j ?k) _ = Raise _ -> _ =>
      let v := fresh "v" in
      let E := fresh "E" in
      let H := fresh "Hraise" in
      destruct (getitem j k) as [v|] eqn:E; cbn [bind];
      [clear E
      |intros H; injection H as <-;
       apply (getitem_access_error ks j k _) in E; [exact E | simpl; tauto]]
  | |- bind (get_nan ?o ?k) _ = Raise _ -> _ =>
      let p := fresh "p" in
      let E := fresh "E" in
      let H := fresh "Hraise" in
      destruct (get_nan o k) as [p|] eqn:E; cbn [bind];
      [clear E
      |intros H; injection H as <-;
       apply (get_nan_access_error ks o k _ E)]
  end.

Lemma frames_row_Raise_inv (raw o : json) (e : exn) :
  frames_row raw o = Raise e -> access_error frames_keys e.
Proof.
  unfold frames_row, frames_keys, frames_metadata.
  repeat read_any ("data" :: frames_metadata). discriminate.
Qed.

Lemma companyconcept_row_Raise_inv (raw : json) (u : string) (o : json)
  (e : exn) :
  companyconcept_row raw u o = Raise e -> access_error concept_keys e.
Proof.
  unfold companyconcept_row.
  repeat read_any concept_keys. discriminate.
Qed.

Lemma companyfacts_row_Raise_inv (raw : json) (tx tg : string) (t : json)
  (u : string) (o : json) (e : exn) :
  companyfacts_row raw tx tg t u o = Raise e -> access_error facts_keys e.
Proof.
  unfold companyfacts_row.
  repeat read_any facts_keys. discriminate.
Qed.

Lemma items_Raise_inv (ks : list string) (u : json) (e : exn) :
  items u = Raise e -> access_error ks e.
Proof.
  destruct u; simpl; try discriminate;
    intros H; injection H as <-; right; left; reflexivity.
Qed.

Lemma iter_Raise_inv (ks : list string) (u : json) (e : exn) :
  iter u = Raise e -> access_error ks e.
Proof.
  destruct u; simpl; try discriminate;
    intros H; injection H as <-; left; reflexivity.
Qed.

Lemma units_loop_Raise_inv (ks : list string)
  (row : string -> json -> result (dict pyval)) (u : json) (e : exn) :
  (forall k o e', row k o = Raise e' -> access_error ks e') ->
  (units_items <- items u ;;
   flat_mapM (fun '(key_units, value_units) =>
                rows <- iter value_units ;;
                mapM (row key_units) rows) units_items) = Raise e ->
  access_error ks e.
Proof.
  intros Hrow. destruct (items u) as [its|] eqn:Ei; cbn [bind].
  - intros H. apply flat_mapM_Raise_inv in H.
    destruct H as ([k vu] & _ & H).
    destruct (iter vu) as [rows|] eqn:Er; cbn [bind] in H.
    + apply mapM_Raise_inv in H. destruct H as (o & _ & H).
      apply (Hrow k o e H).
    + injection H as <-. apply (iter_Raise_inv ks vu _ Er).
  - intros H. injection H as <-. apply (items_Raise_inv ks u _ Ei).
Qed.

Lemma frames_df_list_Raise_inv (raw : json) (e : exn) :
  frames_df_list raw = Raise e -> access_error frames_keys e.
Proof.
  unfold frames_df_list.
  destruct (getitem raw "data") as [data|] eqn:E; cbn [bind].
  - destruct (iter data) as [rows|] eqn:Er; cbn [bind].
    + intros H. apply mapM_Raise_inv in H. destruct H as (o & _ & H).
      apply (frames_row_Raise_inv raw o e H).
    + intros H. injection H as <-. apply (iter_Raise_inv _ data _ Er).
  - intros H. injection H as <-.
    apply (getitem_access_error frames_keys raw "data" _); [|exact E].
    left. reflexivity.
Qed.

Lemma companyconcept_df_list_Raise_inv (raw : json) (e : exn) :
  companyconcept_df_list raw = Raise e -> access_error concept_keys e.
Proof.
  unfold companyconcept_df_list.
  destruct (getitem raw "units") as [u|] eqn:E; cbn [bind].
  - apply units_loop_Raise_inv. intros k o e'.
    apply companyconcept_row_Raise_inv.
  - intros H. injection H as <-.
    apply (getitem_access_error concept_keys raw "units" _); [|exact E].
    left. reflexivity.
Qed.

Lemma companyfacts_df_list_Raise_inv (raw : json) (e : exn) :
  companyfacts_df_list raw = Raise e -> access_error facts_keys e.
Proof.
  unfold companyfacts_df_list.
  destruct (getitem raw "facts") as [facts|] eqn:E; cbn [bind].
  - destruct (items facts) as [txs|] eqn:Ei; cbn [bind].
    + intros H. apply flat_mapM_Raise_inv in H.
      destruct H as ([tx vtx] & _ & H).
      destruct (items vtx) as [tags|] eqn:Et; cbn [bind] in H.
      * apply flat_mapM_Raise_inv in H. destruct H as ([tg t] & _ & H).
        destruct (getitem t "units") as [u|] eqn:Eu; cbn [bind] in H.
        -- revert H. apply units_loop_Raise_inv. intros k o e'.
           apply companyfacts_row_Raise_inv.
        -- injection H as <-.
           apply (getitem_access_error facts_keys t "units" _); [|exact Eu].
           simpl. tauto.
      * injection H as <-. apply (items_Raise_inv _ vtx _ Et).
    + intros H. injection H as <-. apply (items_Raise_inv _ facts _ Ei).
  - intros H. injection H as <-.
    apply (getitem_access_error facts_keys raw "facts" _); [|exact E].
    left. reflexivity.
Qed.

Lemma access_error_kind (ks : list string) (e : exn) :
  access_error ks e ->
  kind_of e = UpstreamFormatError /\ e <> ValueError /\
  e <> JSONDecodeError /\ e <> ConnectionError.
Proof.
  intros [->|[->|(k & _ & ->)]]; repeat split; discriminate.
Qed.

(** X4. Once the body has been parsed, a failure of [get_companyconcept],
    [get_companyfacts] or [get_frames] is a [TypeError], an
    [AttributeError], or a [KeyError] naming one of the keys the operation
    reads: a format error, never a [ValueError] and never an exception of
    the transport. *)
Theorem parsed_failures_are_access_errors (L : library) (srv : server) (raw : json)
  (e : exn) :
  (forall cik email taxonomy tag,
      delivers srv (companyconcept_request cik email taxonomy tag) raw ->
      fst (run (get_companyconcept L cik email taxonomy tag) srv) = Raise e ->
      access_error concept_keys e /\ kind_of e = UpstreamFormatError) /\
  (forall cik email,
      delivers srv (companyfacts_request cik email) raw ->
      fst (run (get_companyfacts L cik email) srv) = Raise e ->
      access_error facts_keys e /\ kind_of e = UpstreamFormatError) /\
  (forall email taxonomy tag units period,
      delivers srv (frames_request email taxonomy tag units period) raw ->
      fst (run (get_frames L email taxonomy tag units period) srv) = Raise e ->
      access_error frames_keys e /\ kind_of e = UpstreamFormatError).
Proof.
  split; [|split].
  - intros cik email taxonomy tag Hd.
    rewrite (run_get_companyconcept L _ _ _ _ _ _ Hd).
    destruct (companyconcept_df_list raw) as [rows|e'] eqn:E; [discriminate|].
    cbn [bind]. intros H. injection H as <-.
    pose proof (companyconcept_df_list_Raise_inv raw e' E) as Ha.
    split; [exact Ha | apply (access_error_kind _ _ Ha)].
  - intros cik email Hd.
    rewrite (run_get_companyfacts L _ _ _ _ Hd).
    destruct (companyfacts_df_list raw) as [rows|e'] eqn:E; [discriminate|].
    cbn [bind]. intros H. injection H as <-.
    pose proof (companyfacts_df_list_Raise_inv raw e' E) as Ha.
    split; [exact Ha | apply (access_error_kind _ _ Ha)].
  - intros email taxonomy tag units period Hd.
    rewrite (run_get_frames L _ _ _ _ _ _ _ Hd).
    destruct (frames_df_list raw) as [rows|e'] eqn:E; [discriminate|].
    cbn [bind]. intros H. injection H as <-.
    pose proof (frames_df_list_Raise_inv raw e' E) as Ha.
    split; [exact Ha | apply (access_error_kind _ _ Ha)].
Qed.

Lemma parsed_failures_are_access_errors_witness :
  delivers (upstream 200 (Some frames_doc_no_ccp))
           (frames_request "a@b.org" "us-gaap" "AccountsPayableCurrent" "USD"
                           "CY2019Q1I") frames_doc_no_ccp /\
  fst (run (get_frames sample_library "a@b.org" "us-gaap" "AccountsPayableCurrent" "USD"
                       "CY2019Q1I")
           (upstream 200 (Some frames_doc_no_ccp))) = Raise (KeyError "ccp") /\
  access_error frames_keys (KeyError "ccp") /\
  kind_of (KeyError "ccp") = UpstreamFormatError.
Proof.
  split; [apply delivers_upstream|]. split; [reflexivity|].
  apply (proj2 (proj2 (parsed_failures_are_access_errors sample_library
                         (upstream 200 (Some frames_doc_no_ccp))
                         frames_doc_no_ccp (KeyError "ccp")))
           "a@b.org" "us-gaap" "AccountsPayableCurrent" "USD" "CY2019Q1I"
           (delivers_upstream _ _ _) eq_refl).
Defined.

(** *** One malformed record fails the whole call *)

Ltac subscript_known H :=
  let v := fresh "v" in
  let Hg := fresh "Hg" in
  destruct (getitem_has_key _ _ H) as (v & _ & Hg & _);
  rewrite Hg; cbn [bind]; clear Hg.

Lemma frames_row_Raise_metadata (raw o : json) (e : exn) :
  forallb (has_key raw) frames_metadata = true ->
  frames_row raw o = Raise e -> e = AttributeError.
Proof.
  intros H. simpl in H. split_andb. unfold frames_row.
  repeat match goal with
         | H : has_key raw _ = true |- _ => subscript_known H; clear H
         end.
  destruct o; cbn [get_nan bind]; try (intros Hr; injection Hr as <-;
                                        reflexivity).
  repeat match goal with
         | |- context [dict_get ?k ?d] => destruct (dict_get k d)
         end; cbn [bind]; discriminate.
Qed.

Lemma companyconcept_row_Raise_metadata (raw : json) (u : string) (o : json)
  (e : exn) :
  forallb (has_key raw) concept_metadata = true ->
  companyconcept_row raw u o = Raise e -> e = AttributeError.
Proof.
  intros H. simpl in H. split_andb. unfold companyconcept_row.
  repeat match goal with
         | H : has_key raw _ = true |- _ => subscript_known H; clear H
         end.
  destruct o; cbn [get_nan bind]; try (intros Hr; injection Hr as <-;
                                        reflexivity).
  repeat match goal with
         | |- context [dict_get ?k ?d] => destruct (dict_get k d)
         end; cbn [bind]; discriminate.
Qed.

(** X5. There is no partial result.  With all its metadata present, a
    frame document whose data array holds an entry that is not an object,
    or a concept document whose unit arrays hold such an observation,
    makes the whole call raise [AttributeError], wherever the entry
    stands and however many well-formed ones precede it. *)
Theorem one_malformed_record_fails_the_call (L : library) (srv : server) (raw : json) :
  (forall email taxonomy tag units period l o,
      delivers srv (frames_request email taxonomy tag units period) raw ->
      forallb (has_key raw) frames_metadata = true ->
      lookup raw "data" = Some (JArr l) ->
      In o l -> is_obj o = false ->
      fst (run (get_frames L email taxonomy tag units period) srv)
      = Raise AttributeError) /\
  (forall cik email taxonomy tag u k o,
      delivers srv (companyconcept_request cik email taxonomy tag) raw ->
      forallb (has_key raw) concept_metadata = true ->
      lookup raw "units" = Some u -> units_arrays u = true ->
      In (k, o) (unit_leaves u) -> is_obj o = false ->
      fst (run (get_companyconcept L cik email taxonomy tag) srv)
      = Raise AttributeError).
Proof.
  split.
  - intros email taxonomy tag units period l o Hd Hm Hdata Hin Ho.
    rewrite (run_get_frames L _ _ _ _ _ _ _ Hd).
    destruct (frames_df_list raw) as [rows|e] eqn:E; cbn [bind].
    + exfalso. destruct (frames_df_list_Ok_inv raw rows E) as (_ & _ & Hall).
      unfold frames_entries in Hall. rewrite Hdata in Hall.
      destruct (Hall o Hin) as [Hobj _]. congruence.
    + f_equal. unfold frames_df_list in E.
      rewrite (getitem_lookup _ _ _ Hdata) in E. cbn [bind iter] in E.
      apply mapM_Raise_inv in E. destruct E as (x & _ & Hx).
      apply (frames_row_Raise_metadata raw x e Hm Hx).
  - intros cik email taxonomy tag u k o Hd Hm Hu Harr Hin Ho.
    rewrite (run_get_companyconcept L _ _ _ _ _ _ Hd).
    destruct (companyconcept_df_list raw) as [rows|e] eqn:E; cbn [bind].
    + exfalso.
      destruct (companyconcept_df_list_Ok_inv raw rows E) as (_ & _ & Hall).
      unfold concept_leaves in Hall. rewrite Hu in Hall.
      destruct (Hall _ Hin) as [Hobj _]. cbn [snd] in Hobj. congruence.
    + f_equal. unfold companyconcept_df_list in E.
      rewrite (getitem_lookup _ _ _ Hu) in E. cbn [bind] in E.
      destruct u as [| | | | | |d]; try discriminate Harr.
      cbn [items bind] in E. apply flat_mapM_Raise_inv in E.
      destruct E as ([k' vu] & Hkv & Hx).
      cbn [units_arrays] in Harr. rewrite forallb_forall in Harr.
      specialize (Harr _ Hkv). cbn [snd] in Harr.
      destruct vu; try discriminate Harr. cbn [iter bind] in Hx.
      apply mapM_Raise_inv in Hx. destruct Hx as (x & _ & Hx).
      apply (companyconcept_row_Raise_metadata raw k' x e Hm Hx).
Qed.

Lemma one_malformed_record_fails_the_call_witness :
  delivers (upstream 200 (Some frames_doc_bad_entry))
           (frames_request "a@b.org" "us-gaap" "AccountsPayableCurrent" "USD"
                           "CY2019Q1I") frames_doc_bad_entry /\
  forallb (has_key frames_doc_bad_entry) frames_metadata = true /\
  In (JInt 7) [JObj [("accn", JStr "0000320193-19-000119")]; JInt 7] /\
  is_obj (JInt 7) = false /\
  fst (run (get_frames sample_library "a@b.org" "us-gaap" "AccountsPayableCurrent" "USD"
                       "CY2019Q1I")
           (upstream 200 (Some frames_doc_bad_entry))) = Raise AttributeError.
Proof.
  split; [apply delivers_upstream|]. split; [reflexivity|].
  split; [simpl; tauto|]. split; [reflexivity|].
  apply (proj1 (one_malformed_record_fails_the_call sample_library
                  (upstream 200 (Some frames_doc_bad_entry))
                  frames_doc_bad_entry)
           "a@b.org" "us-gaap" "AccountsPayableCurrent" "USD" "CY2019Q1I"
           [JObj [("accn", JStr "0000320193-19-000119")]; JInt 7] (JInt 7)
           (delivers_upstream _ _ _) eq_refl eq_refl).
  - simpl. tauto.
  - reflexivity.
Defined.

(** *** Empty and missing sections *)

Lemma flat_mapM_nil {A B} (f : A -> result (list B)) (l : list A) :
  (forall x, In x l -> f x = Ok []) -> flat_mapM f l = Ok [].
Proof.
  intros H. rewrite (flat_mapM_ok f (fun _ => []) l H).
  f_equal. clear H. induction l; simpl; [reflexivity | assumption].
Qed.

(** X6. A document without observations gives the empty frame, which has
    no column at all, not even the declared ones, and its metadata are
    never read: so for a frame document with an empty data array, a
    concept document whose units all have empty arrays, and a company-facts
    document whose taxonomies are all empty, whether or not the metadata
    fields are there. *)
Theorem no_observation_gives_the_empty_frame (L : library) (srv : server) (raw : json) :
  (forall email taxonomy tag units period,
      delivers srv (frames_request email taxonomy tag units period) raw ->
      lookup raw "data" = Some (JArr []) ->
      fst (run (get_frames L email taxonomy tag units period) srv)
      = Ok empty_frame) /\
  (forall cik email taxonomy tag d,
      delivers srv (companyconcept_request cik email taxonomy tag) raw ->
      lookup raw "units" = Some (JObj d) ->
      Forall (fun kv => snd kv = JArr []) d ->
      fst (run (get_companyconcept L cik email taxonomy tag) srv)
      = Ok empty_frame) /\
  (forall cik email d,
      delivers srv (companyfacts_request cik email) raw ->
      lookup raw "facts" = Some (JObj d) ->
      Forall (fun kv => snd kv = JObj []) d ->
      fst (run (get_companyfacts L cik email) srv) = Ok empty_frame).
Proof.
  split; [|split].
  - intros email taxonomy tag units period Hd Hdata.
    rewrite (run_get_frames L _ _ _ _ _ _ _ Hd). unfold frames_df_list.
    rewrite (getitem_lookup _ _ _ Hdata). reflexivity.
  - intros cik email taxonomy tag d Hd Hu Hall.
    rewrite (run_get_companyconcept L _ _ _ _ _ _ Hd).
    unfold companyconcept_df_list.
    rewrite (getitem_lookup _ _ _ Hu). cbn [items bind].
    rewrite flat_mapM_nil; [reflexivity|].
    intros [k vu] Hin. rewrite Forall_forall in Hall.
    specialize (Hall _ Hin). cbn [snd] in Hall. subst vu. reflexivity.
  - intros cik email d Hd Hf Hall.
    rewrite (run_get_companyfacts L _ _ _ _ Hd).
    unfold companyfacts_df_list.
    rewrite (getitem_lookup _ _ _ Hf). cbn [items bind].
    rewrite flat_mapM_nil; [reflexivity|].
    intros [k vtx] Hin. rewrite Forall_forall in Hall.
    specialize (Hall _ Hin). cbn [snd] in Hall. subst vtx. reflexivity.
Qed.

Lemma no_observation_gives_the_empty_frame_witness :
  delivers (upstream 200 (Some frames_doc_no_entry))
           (frames_request "a@b.org" "us-gaap" "AccountsPayableCurrent" "USD"
                           "CY1900Q1I") frames_doc_no_entry /\
  lookup frames_doc_no_entry "data" = Some (JArr []) /\
  has_key frames_doc_no_entry "ccp" = false /\
  fst (run (get_frames sample_library "a@b.org" "us-gaap" "AccountsPayableCurrent" "USD"
                       "CY1900Q1I")
           (upstream 200 (Some frames_doc_no_entry)))
  = Ok (mkDataFrame [] [] []).
Proof.
  split; [apply delivers_upstream|]. split; [reflexivity|].
  split; [reflexivity|].
  apply (proj1 (no_observation_gives_the_empty_frame sample_library
                  (upstream 200 (Some frames_doc_no_entry))
                  frames_doc_no_entry)
           "a@b.org" "us-gaap" "AccountsPayableCurrent" "USD" "CY1900Q1I"
           (delivers_upstream _ _ _) eq_refl).
Defined.

(** X7. The section an operation flattens is read first: when the parsed
    body is an object without it, the call raises [KeyError] naming it --
    "units" for [get_companyconcept], "data" for [get_frames], "filings"
    and then "recent" for [get_submissions] -- whatever else the body
    holds or lacks; a body that is not an object raises [TypeError]. *)
Theorem missing_section_raises (L : library) (srv : server) (raw : json) :
  (forall cik email taxonomy tag,
      delivers srv (companyconcept_request cik email taxonomy tag) raw ->
      (is_obj raw = true -> has_key raw "units" = false ->
       fst (run (get_companyconcept L cik email taxonomy tag) srv)
       = Raise (KeyError "units")) /\
      (is_obj raw = false ->
       fst (run (get_companyconcept L cik email taxonomy tag) srv)
       = Raise TypeError)) /\
  (forall email taxonomy tag units period,
      delivers srv (frames_request email taxonomy tag units period) raw ->
      (is_obj raw = true -> has_key raw "data" = false ->
       fst (run (get_frames L email taxonomy tag units period) srv)
       = Raise (KeyError "data")) /\
      (is_obj raw = false ->
       fst (run (get_frames L email taxonomy tag units period) srv)
       = Raise TypeError)) /\
  (forall cik email,
      delivers srv (submissions_request cik email) raw ->
      (is_obj raw = true -> has_key raw "filings" = false ->
       fst (run (get_submissions L cik email) srv)
       = Raise (KeyError "filings")) /\
      (forall filings,
          lookup raw "filings" = Some filings ->
          is_obj filings = true -> has_key filings "recent" = false ->
          fst (run (get_submissions L cik email) srv)
          = Raise (KeyError "recent")) /\
      (is_obj raw = false ->
       fst (run (get_submissions L cik email) srv) = Raise TypeError)).
Proof.
  assert (forall j k, is_obj j = true -> has_key j k = false ->
                      getitem j k = Raise (KeyError k)) as Hkey.
  { intros j k Hj Hk. destruct (getitem_absent j k Hk) as (e & -> & _ & He).
    rewrite (He Hj). reflexivity. }
  assert (forall j k, is_obj j = false -> getitem j k = Raise TypeError)
    as Htype.
  { intros j k Hj. destruct j; try reflexivity. discriminate Hj. }
  split; [|split].
  - intros cik email taxonomy tag Hd.
    rewrite (run_get_companyconcept L _ _ _ _ _ _ Hd).
    unfold companyconcept_df_list. split.
    + intros Ho Hk. rewrite (Hkey _ _ Ho Hk). reflexivity.
    + intros Ho. rewrite (Htype _ _ Ho). reflexivity.
  - intros email taxonomy tag units period Hd.
    rewrite (run_get_frames L _ _ _ _ _ _ _ Hd).
    unfold frames_df_list. split.
    + intros Ho Hk. rewrite (Hkey _ _ Ho Hk). reflexivity.
    + intros Ho. rewrite (Htype _ _ Ho). reflexivity.
  - intros cik email Hd.
    rewrite (run_get_submissions L _ _ _ _ Hd). split; [|split].
    + intros Ho Hk. rewrite (Hkey _ _ Ho Hk). reflexivity.
    + intros filings Hf Ho Hk. rewrite (getitem_lookup _ _ _ Hf).
      cbn [bind]. rewrite (Hkey _ _ Ho Hk). reflexivity.
    + intros Ho. rewrite (Htype _ _ Ho). reflexivity.
Qed.

Lemma missing_section_raises_witness :
  delivers (upstream 200 (Some concept_doc))
           (submissions_request "CIK0000320193" "a@b.org") concept_doc /\
  is_obj concept_doc = true /\
  has_key concept_doc "filings" = false /\
  fst (run (get_submissions sample_library "CIK0000320193" "a@b.org")
           (upstream 200 (Some concept_doc)))
  = Raise (KeyError "filings").
Proof.
  split; [apply delivers_upstream|]. split; [reflexivity|].
  split; [reflexivity|].
  apply (proj1 (proj2 (proj2 (missing_section_raises
                                sample_library
                                (upstream 200 (Some concept_doc))
                                concept_doc))
                      "CIK0000320193" "a@b.org" (delivers_upstream _ _ _))
           eq_refl eq_refl).
Defined.

(** *** [sorted] sorts *)

Lemma insert_sorted_HdRel (a k : string) (l : list string) :
  HdRel str_le a l -> str_le a k -> HdRel str_le a (insert_sorted k l).
Proof.
  intros Hl Hk. destruct l as [|b l]; simpl; [constructor; exact Hk|].
  destruct (String.leb k b); constructor; [exact Hk|].
  inversion Hl. assumption.
Qed.

Lemma insert_sorted_Sorted (k : string) (l : list string) :
  Sorted str_le l -> Sorted str_le (insert_sorted k l).
Proof.
  induction 1 as [|a l Hs IH Hd]; simpl; [repeat constructor|].
  destruct (String.leb k a) eqn:E.
  - constructor; [constructor; assumption|]. constructor. exact E.
  - constructor; [exact IH|]. apply insert_sorted_HdRel; [exact Hd|].
    destruct (String.leb_total k a) as [H|H]; [congruence | exact H].
Qed.

Lemma insert_sorted_Permutation (k : string) (l : list string) :
  Permutation (k :: l) (insert_sorted k l).
Proof.
  induction l as [|a l IH]; simpl; [reflexivity|].
  destruct (String.leb k a); [reflexivity|].
  rewrite perm_swap. constructor. exact IH.
Qed.

Lemma sorted_spec (l : list string) :
  Sorted str_le (sorted l) /\ Permutation l (sorted l).
Proof.
  unfold sorted. induction l as [|a l [IHs IHp]]; simpl.
  - split; constructor.
  - split; [apply insert_sorted_Sorted; exact IHs|].
    rewrite <- insert_sorted_Permutation. constructor. exact IHp.
Qed.

Lemma sorted_length (l : list string) :
  List.length (sorted l) = List.length l.
Proof.
  symmetry. apply Permutation_length. apply sorted_spec.
Qed.

(** *** [get_companytickers]: rows and labels *)

Lemma from_records_dict_Ok_inv (L : library) (d : dict json)
  (df : DataFrame) :
  from_records_dict L d = Ok df ->
  columns df = map LStr (sorted (keys d)) /\ well_formed df /\
  (d = [] -> index df = []).
Proof.
  intros H. split; [|split].
  - unfold from_records_dict in H.
    destruct (extract_index _); [|discriminate]. cbn [bind] in H.
    injection H as <-. reflexivity.
  - apply (from_records_dict_well_formed L d df H).
  - intros ->. cbv in H. injection H as <-. reflexivity.
Qed.

Lemma tickers_raw_Ok_inv (L : library) (srv : server) (entries : dict json)
  (df : DataFrame) :
  delivers srv tickers_request (JObj entries) ->
  fst (run (get_companytickers L false) srv) = Ok df ->
  entries <> [] /\
  nrows df = List.length entries /\
  index df = range_index (List.length entries).
Proof.
  intros Hd. rewrite (run_get_companytickers L false srv _ Hd).
  unfold from_records.
  destruct (from_records_dict L entries) as [d0|] eqn:E; [|discriminate].
  cbn [bind].
  destruct (from_records_dict_Ok_inv L entries d0 E) as (Hc & [Hlen _] & Hnil).
  unfold set_columns.
  cbn [reset_index_drop transpose columns index values].
  destruct (Nat.eqb (List.length (index d0)) _) eqn:E3; [|discriminate].
  cbn [bind]. intros H. injection H as <-.
  apply Nat.eqb_eq in E3. split; [|split].
  - intros Hempty. rewrite (Hnil Hempty) in E3. discriminate E3.
  - unfold nrows. cbn [values]. rewrite length_map, length_seq, Hc.
    rewrite length_map, sorted_length. unfold keys. apply length_map.
  - cbn [index]. rewrite Hc, length_map, sorted_length. unfold keys.
    rewrite length_map. reflexivity.
Qed.

(** X8. Whenever [get_companytickers] returns a frame for a document that
    is an object, in either mode, the document is not empty, the frame has
    exactly one row per entry of the document, the rows are labelled
    0, 1, ... (the keys of the document are dropped), and the columns are
    cik, ticker, title.  An empty document makes the call fail. *)
Theorem tickers_one_row_per_entry (L : library) (parse_cik : bool)
  (srv : server) (entries : dict json) (df : DataFrame) :
  delivers srv tickers_request (JObj entries) ->
  fst (run (get_companytickers L parse_cik) srv) = Ok df ->
  entries <> [] /\
  nrows df = List.length entries /\
  index df = range_index (List.length entries) /\
  columns df = map LStr tickers_columns.
Proof.
  intros Hd Hrun.
  assert (columns df = map LStr tickers_columns) as Hcols
      by apply (tickers_rectangular L parse_cik srv entries df Hd Hrun).
  destruct parse_cik.
  - destruct (fst (run (get_companytickers L false) srv)) as [df0|e] eqn:E.
    + destruct (tickers_raw_Ok_inv L srv entries df0 Hd E) as (Hne & Hn & Hi).
      rewrite (run_tickers_padded L srv df0 E) in Hrun.
      injection Hrun as <-.
      split; [exact Hne|]. split; [|split; [exact Hi | exact Hcols]].
      unfold nrows. cbn [values]. rewrite length_map. exact Hn.
    + rewrite (run_tickers_failure L srv e E) in Hrun. discriminate Hrun.
  - destruct (tickers_raw_Ok_inv L srv entries df Hd Hrun) as (Hne & Hn & Hi).
    repeat split; assumption.
Qed.

Lemma tickers_one_row_per_entry_witness :
  exists df,
    delivers (upstream 200 (Some tickers_doc)) tickers_request tickers_doc /\
    fst (run (get_companytickers sample_library true)
             (upstream 200 (Some tickers_doc))) = Ok df /\
    nrows df = 2%nat /\ index df = [LInt 0; LInt 1].
Proof.
  eexists. split; [apply delivers_upstream|].
  split; [vm_compute; reflexivity|].
  destruct (tickers_one_row_per_entry
              sample_library true (upstream 200 (Some tickers_doc))
              [("0", JObj [("cik_str", JInt 320193); ("ticker", JStr "AAPL");
                           ("title", JStr "Apple Inc.")]);
               ("1", JObj [("cik_str", JInt 789019); ("ticker", JStr "MSFT");
                           ("title", JStr "MICROSOFT CORP")])]
              _ (delivers_upstream _ _ _) eq_refl)
    as (_ & Hn & Hi & _).
  split; [exact Hn | exact Hi].
Defined.

Lemma from_records_dict_objects (L : library) (entries : dict json) :
  entries <> [] ->
  Forall (fun kv => is_obj (snd kv) = true) entries ->
  from_records_dict L entries
  = Ok (mkDataFrame
          (map LStr (entry_field_names entries))
          (map LStr (sorted (keys entries)))
          (map (fun r =>
                  map (fun col => nth r col NaN)
                      (map (homogenize L
                              (map LStr (entry_field_names entries)))
                           (map (dict_item entries) (sorted (keys entries)))))
               (seq 0 (List.length
                         (map LStr (entry_field_names entries)))))).
Proof.
  intros Hne Hall. unfold from_records_dict.
  rewrite extract_index_objects; [reflexivity| |].
  - intros H. apply map_eq_nil in H. revert H. apply sorted_nonempty.
    destruct entries; [congruence | discriminate].
  - apply Forall_forall. intros a Ha.
    apply in_map_iff in Ha. destruct Ha as (k & <- & Hk).
    apply (proj1 (sorted_In _ _)) in Hk.
    destruct (dict_get_keys k entries Hk) as (v & Hv).
    unfold dict_item. rewrite Hv. apply dict_get_In in Hv.
    rewrite Forall_forall in Hall. apply (Hall _ Hv).
Qed.

Lemma nth_map_known {A B} (h : A -> B) (l : list A) (i : nat) (x : A)
  (d : B) :
  nth_error l i = Some x -> nth i (map h l) d = h x.
Proof.
  intros H. apply nth_error_nth. apply map_nth_error. exact H.
Qed.

(** Row [j] of a transposed frame, at column [i]: the cell that column
    [i] of the frame had in row [j], in the common dtype. *)
Lemma transposed_cell (L : library) (cols_data : list (list pyval))
  (n i j : nat) (col : list pyval) :
  nth_error cols_data i = Some col -> (j < n)%nat ->
  nth_error
    (map (fun row => nth i row NaN)
         (interleaved L
            (map (fun r => map (fun c => nth r c NaN) cols_data) (seq 0 n))))
    j
  = Some (common_dtype_cell
            L (map (fun r => map (fun c => nth r c NaN) cols_data) (seq 0 n))
            (nth j col NaN)).
Proof.
  intros Hcol Hj. unfold interleaved.
  remember (common_dtype_cell
              L (map (fun r => map (fun c => nth r c NaN) cols_data)
                     (seq 0 n))) as g eqn:Hg.
  clear Hg. rewrite !map_map.
  rewrite (map_nth_error _ j _ (nth_error_seq_0 n j Hj)).
  f_equal. rewrite map_map.
  apply (nth_map_known (fun c => g (nth j c NaN)) _ i col NaN Hcol).
Qed.

(** A string held by a column is a string held by the frame. *)
Lemma frame_holds_string (cols_data : list (list pyval)) (n i j : nat)
  (col : list pyval) (v : pyval) :
  nth_error cols_data i = Some col -> nth_error col j = Some v ->
  (j < n)%nat -> is_str v = true ->
  existsb (existsb is_str)
          (map (fun r => map (fun c => nth r c NaN) cols_data) (seq 0 n))
  = true.
Proof.
  intros Hcol Hv Hj Hs. apply existsb_exists.
  exists (map (fun c => nth j c NaN) cols_data). split.
  - apply in_map_iff. exists j. split; [reflexivity|]. apply in_seq. lia.
  - apply existsb_exists. exists v. split; [|exact Hs].
    apply in_map_iff. exists col. split.
    + apply nth_error_nth. exact Hv.
    + apply (nth_error_In _ _ Hcol).
Qed.

Lemma common_dtype_nan (L : library) (vals : list (list pyval)) :
  common_dtype_cell L vals NaN = NaN.
Proof. unfold common_dtype_cell. destruct (existsb _ _); reflexivity. Qed.

Lemma object_column_string (col : list pyval) :
  object_column col = true ->
  kept_column col = true /\
  exists j v, nth_error col j = Some v /\ is_str v = true.
Proof.
  intros H. split; [unfold kept_column; rewrite H; apply orb_true_r|].
  unfold object_column in H. apply andb_prop in H. destruct H as [H _].
  apply existsb_exists in H. destruct H as (v & Hin & Hs).
  apply In_nth_error in Hin. destruct Hin as [j Hj].
  exists j, v. split; assumption.
Qed.

(** The frame of the raw mode, cell by cell, for a document whose
    entries are objects with three field names in all: row [i] belongs to
    the entry under the [i]-th key in ascending order; a field that the
    entry lacks is held as the missing-value marker, and the entry's own
    values are held when they are strings and integers, one at least a
    string. *)
Lemma tickers_raw_cells (L : library) (srv : server) (entries : dict json)
  (f1 f2 f3 : string) :
  delivers srv tickers_request (JObj entries) ->
  Forall (fun kv => is_obj (snd kv) = true) entries ->
  entry_field_names entries = [f1; f2; f3] ->
  exists df,
    fst (run (get_companytickers L false) srv) = Ok df /\
    forall i k,
      nth_error (sorted (keys entries)) i = Some k ->
      (forall j name,
          nth_error tickers_columns j = Some name ->
          nth_error (entry_values entries k f1 f2 f3) j = Some NaN ->
          cell df i name = Some NaN) /\
      (object_column (entry_values entries k f1 f2 f3) = true ->
       cell df i "cik" = Some (field (dict_item entries k) f1) /\
       cell df i "ticker" = Some (field (dict_item entries k) f2) /\
       cell df i "title" = Some (field (dict_item entries k) f3)).
Proof.
  intros Hd Hall Hnames.
  assert (entries <> []) as Hne by (intros ->; discriminate Hnames).
  rewrite (run_get_companytickers L false srv _ Hd). unfold from_records.
  rewrite (from_records_dict_objects L entries Hne Hall). cbn [bind].
  rewrite Hnames. unfold set_columns.
  cbn [reset_index_drop transpose columns index values List.length map
       Nat.eqb tickers_columns bind].
  eexists. split; [reflexivity|].
  intros i k Hi.
  assert (exists e, dict_item entries k = JObj e) as [e He].
  { assert (In k (keys entries)) as Hk
        by (apply (proj1 (sorted_In _ _)); apply (nth_error_In _ _ Hi)).
    destruct (dict_get_keys k entries Hk) as (v & Hv).
    unfold dict_item. rewrite Hv. apply dict_get_In in Hv.
    rewrite Forall_forall in Hall. specialize (Hall _ Hv). cbn [snd] in Hall.
    destruct v; try discriminate Hall. eexists. reflexivity. }
  assert (i < List.length (sorted (keys entries)))%nat as Hlt
      by (apply nth_error_Some; congruence).
  set (cols_data := map (homogenize L [LStr f1; LStr f2; LStr f3])
                        (map (dict_item entries) (sorted (keys entries)))).
  assert (nth_error cols_data i
          = Some (sanitize_array L (entry_values entries k f1 f2 f3)))
    as Hcol.
  { unfold cols_data.
    rewrite (map_nth_error _ i _ (map_nth_error _ i _ Hi)).
    unfold homogenize, entry_values. rewrite He. reflexivity. }
  assert (forall j name,
            position (LStr name) (map LStr tickers_columns) = Some j ->
            (j < 3)%nat ->
            cell {| index := range_index
                               (List.length
                                  (map LStr (sorted (keys entries))));
                    columns := map LStr tickers_columns;
                    values :=
                      map (fun c =>
                             map (fun row => nth c row NaN)
                                 (interleaved L
                                    (map (fun r =>
                                            map (fun c0 => nth r c0 NaN)
                                                cols_data) (seq 0 3))))
                          (seq 0 (List.length
                                    (map LStr (sorted (keys entries))))) |}
                 i name
            = Some (common_dtype_cell
                      L (map (fun r => map (fun c0 => nth r c0 NaN) cols_data)
                             (seq 0 3))
                      (nth j (sanitize_array
                                L (entry_values entries k f1 f2 f3)) NaN)))
    as Hcell.
  { intros j name Hp Hj. unfold cell. cbn [columns values]. rewrite Hp.
    rewrite length_map.
    rewrite (map_nth_error _ i _ (nth_error_seq_0 _ i Hlt)).
    apply (transposed_cell L cols_data 3 i j _ Hcol Hj). }
  split.
  - intros j name Hname Hnan.
    assert (position (LStr name) (map LStr tickers_columns) = Some j
            /\ (j < 3)%nat) as [Hp Hj].
    { destruct j as [|[|[|j]]]; cbn in Hname;
        [| | |destruct j; discriminate Hname];
        injection Hname as <-; split; try reflexivity; lia. }
    refine (eq_trans (Hcell j name Hp Hj) _). unfold sanitize_array.
    rewrite (nth_error_nth _ _ NaN
               (convert_with_nan (infer_array L) _ j Hnan)).
    rewrite common_dtype_nan. reflexivity.
  - intros Hobj.
    destruct (object_column_string _ Hobj) as (Hkept & j' & v & Hv & Hs).
    assert (sanitize_array L (entry_values entries k f1 f2 f3)
            = entry_values entries k f1 f2 f3) as Hsame
        by (apply convert_with_kept; exact Hkept).
    assert (j' < 3)%nat as Hj'.
    { assert (j' < List.length (entry_values entries k f1 f2 f3))%nat as H
          by (apply nth_error_Some; congruence).
      exact H. }
    assert (forall w,
              common_dtype_cell
                L (map (fun r => map (fun c0 => nth r c0 NaN) cols_data)
                       (seq 0 3)) w = w) as Hid.
    { intros w. unfold common_dtype_cell.
      rewrite (frame_holds_string cols_data 3 i j' _ v Hcol); try assumption.
      - reflexivity.
      - rewrite Hsame. exact Hv. }
    split; [|split].
    + refine (eq_trans (Hcell 0%nat "cik" eq_refl ltac:(lia)) _).
      rewrite Hid, Hsame. reflexivity.
    + refine (eq_trans (Hcell 1%nat "ticker" eq_refl ltac:(lia)) _).
      rewrite Hid, Hsame. reflexivity.
    + refine (eq_trans (Hcell 2%nat "title" eq_refl ltac:(lia)) _).
      rewrite Hid, Hsame. reflexivity.
Qed.

(** X9. [get_companytickers] lists the entries in the sorted order of
    their keys (as strings: "10" comes before "2"), not in document
    order, and names the columns by position: when the entries, all
    objects, have three field names [f1], [f2], [f3] in all, in order of
    first appearance, row [i] belongs to the entry under the [i]-th key in
    ascending order.  A field that this entry lacks is held as the
    missing-value marker in the column of its position; and when the
    entry's values are strings and integers (some may be lacking), one at
    least a string, its cik, ticker and title cells hold its [f1], [f2]
    and [f3]. *)
Theorem tickers_rows_by_sorted_key (L : library) (srv : server)
  (entries : dict json) (f1 f2 f3 : string) :
  delivers srv tickers_request (JObj entries) ->
  Forall (fun kv => is_obj (snd kv) = true) entries ->
  entry_field_names entries = [f1; f2; f3] ->
  Sorted str_le (sorted (keys entries)) /\
  Permutation (keys entries) (sorted (keys entries)) /\
  exists df,
    fst (run (get_companytickers L false) srv) = Ok df /\
    forall i k,
      nth_error (sorted (keys entries)) i = Some k ->
      (forall j name,
          nth_error tickers_columns j = Some name ->
          nth_error (entry_values entries k f1 f2 f3) j = Some NaN ->
          cell df i name = Some NaN) /\
      (object_column (entry_values entries k f1 f2 f3) = true ->
       cell df i "cik" = Some (field (dict_item entries k) f1) /\
       cell df i "ticker" = Some (field (dict_item entries k) f2) /\
       cell df i "title" = Some (field (dict_item entries k) f3)).
Proof.
  intros Hd Hall Hnames.
  split; [apply sorted_spec|]. split; [apply sorted_spec|].
  apply (tickers_raw_cells L srv entries f1 f2 f3 Hd Hall Hnames).
Qed.

Lemma tickers_rows_by_sorted_key_witness :
  exists df,
    delivers (upstream 200 (Some tickers_doc_unordered)) tickers_request
             tickers_doc_unordered /\
    entry_field_names
      [("2", JObj [("id", JInt 1318605); ("symbol", JStr "TSLA");
                   ("name", JStr "Tesla, Inc.")]);
       ("10", JObj [("id", JInt 1045810); ("symbol", JStr "NVDA");
                    ("name", JStr "NVIDIA CORP")]);
       ("1", JObj [("id", JInt 789019); ("symbol", JStr "MSFT")])]
    = ["id"; "symbol"; "name"] /\
    fst (run (get_companytickers sample_library false)
             (upstream 200 (Some tickers_doc_unordered))) = Ok df /\
    cell df 0 "ticker" = Some (Val (JStr "MSFT")) /\
    cell df 0 "title" = Some NaN /\
    cell df 1 "ticker" = Some (Val (JStr "NVDA")) /\
    cell df 2 "ticker" = Some (Val (JStr "TSLA")).
Proof.
  destruct (tickers_rows_by_sorted_key
              sample_library (upstream 200 (Some tickers_doc_unordered))
              [("2", JObj [("id", JInt 1318605); ("symbol", JStr "TSLA");
                           ("name", JStr "Tesla, Inc.")]);
               ("10", JObj [("id", JInt 1045810); ("symbol", JStr "NVDA");
                            ("name", JStr "NVIDIA CORP")]);
               ("1", JObj [("id", JInt 789019); ("symbol", JStr "MSFT")])]
              "id" "symbol" "name"
              (delivers_upstream _ _ _)
              ltac:(repeat constructor) eq_refl)
    as (_ & _ & df & Hrun & Hcells).
  exists df. split; [apply delivers_upstream|]. split; [reflexivity|].
  split; [exact Hrun|].
  destruct (Hcells 0%nat "1" eq_refl) as (Hn0 & H0).
  destruct (Hcells 1%nat "10" eq_refl) as (_ & H1).
  destruct (Hcells 2%nat "2" eq_refl) as (_ & H2).
  split; [apply (proj1 (proj2 (H0 eq_refl)))|].
  split; [apply (Hn0 2%nat "title" eq_refl eq_refl)|].
  split; [apply (proj1 (proj2 (H1 eq_refl))) |
          apply (proj1 (proj2 (H2 eq_refl)))].
Defined.

(** *** [get_submissions]: columns and ragged arrays *)

(** X10. The columns of the frame of [get_submissions] are the field
    names of the "recent" section in ascending order of the names, not in
    the order the upstream document lists them. *)
Theorem submissions_columns_sorted
  (L : library) (cik email : string) (srv : server)
  (raw filings : json) (fields : dict json) (N : nat) :
  delivers srv (submissions_request cik email) raw ->
  lookup raw "filings" = Some filings ->
  lookup filings "recent" = Some (JObj fields) ->
  fields <> [] ->
  Forall (fun kv => is_array_of N (snd kv)) fields ->
  exists df names,
    fst (run (get_submissions L cik email) srv) = Ok df /\
    columns df = map LStr names /\
    Sorted str_le names /\
    Permutation (keys fields) names.
Proof.
  intros Hd Hf Hr Hne Hall.
  rewrite (run_get_submissions L _ _ _ _ Hd).
  rewrite (getitem_lookup _ _ _ Hf). cbn [bind].
  rewrite (getitem_lookup _ _ _ Hr). cbn [bind].
  unfold from_records. rewrite (from_records_dict_parallel L N fields Hne Hall).
  eexists. exists (sorted (keys fields)).
  split; [reflexivity|]. split; [reflexivity|]. apply sorted_spec.
Qed.

Lemma submissions_columns_sorted_witness :
  delivers (upstream 200 (Some submissions_doc))
           (submissions_request "CIK0000320193" "a@b.org") submissions_doc /\
  keys recent_doc = ["accessionNumber"; "form"; "filingDate"] /\
  exists df,
    fst (run (get_submissions sample_library "CIK0000320193" "a@b.org")
             (upstream 200 (Some submissions_doc))) = Ok df /\
    columns df = [LStr "accessionNumber"; LStr "filingDate"; LStr "form"].
Proof.
  split; [apply delivers_upstream|]. split; [reflexivity|].
  destruct (submissions_columns_sorted
              sample_library "CIK0000320193" "a@b.org"
              (upstream 200 (Some submissions_doc)) submissions_doc
              (JObj [("recent", JObj recent_doc); ("files", JArr [])])
              recent_doc 2
              (delivers_upstream _ _ _) eq_refl eq_refl
              (fun H => eq_ind recent_doc
                          (fun l => match l with [] => False | _ => True end)
                          I [] H)
              is_array_of_recent_doc)
    as (df & names & Hrun & _ & _ & _).
  exists df. split; [exact Hrun|].
  vm_compute in Hrun. injection Hrun as <-. reflexivity.
Defined.

Lemma dict_lists_all_arrays (arrays : list json) :
  Forall (fun a => is_arr a = true) arrays -> dict_lists arrays = [].
Proof.
  induction 1 as [|a arrays Ha _ IH]; [reflexivity|].
  destruct a; try discriminate Ha. exact IH.
Qed.

Lemma raw_lengths_In (arrays : list json) (a : list json) :
  In (JArr a) arrays -> In (List.length a) (raw_lengths arrays).
Proof.
  induction arrays as [|x arrays IH]; [contradiction|].
  intros [->|H].
  - left. reflexivity.
  - unfold raw_lengths. cbn [flat_map]. apply in_or_app. right.
    apply IH. exact H.
Qed.

Lemma extract_index_ragged (arrays : list json) (a1 a2 : list json) :
  Forall (fun a => is_arr a = true) arrays ->
  In (JArr a1) arrays -> In (JArr a2) arrays ->
  List.length a1 <> List.length a2 ->
  extract_index arrays = Raise ValueError.
Proof.
  intros Hall H1 H2 Hneq. unfold extract_index.
  rewrite (dict_lists_all_arrays arrays Hall).
  pose proof (raw_lengths_In arrays a1 H1) as L1.
  pose proof (raw_lengths_In arrays a2 H2) as L2.
  destruct arrays as [|x arrays]; [contradiction|].
  destruct (raw_lengths (x :: arrays)) as [|n ns]; [contradiction|].
  destruct (forallb (Nat.eqb n) ns) eqn:E; [|reflexivity].
  exfalso. rewrite forallb_forall in E.
  assert (forall m, In m (n :: ns) -> m = n) as Hsame.
  { intros m [<-|Hm]; [reflexivity|].
    symmetry. apply Nat.eqb_eq. apply E. exact Hm. }
  apply Hneq. rewrite (Hsame _ L1), (Hsame _ L2). reflexivity.
Qed.

(** X11. When the fields of the "recent" section are all arrays but two
    of them differ in length, [get_submissions] raises [ValueError]: no
    frame is built from columns of unequal length, neither truncated nor
    padded. *)
Theorem submissions_ragged_arrays_raise
  (L : library) (cik email : string) (srv : server)
  (raw filings : json) (fields : dict json) (k1 k2 : string)
  (a1 a2 : list json) :
  delivers srv (submissions_request cik email) raw ->
  lookup raw "filings" = Some filings ->
  lookup filings "recent" = Some (JObj fields) ->
  Forall (fun kv => is_arr (snd kv) = true) fields ->
  dict_get k1 fields = Some (JArr a1) ->
  dict_get k2 fields = Some (JArr a2) ->
  List.length a1 <> List.length a2 ->
  fst (run (get_submissions L cik email) srv) = Raise ValueError.
Proof.
  intros Hd Hf Hr Hall H1 H2 Hneq.
  rewrite (run_get_submissions L _ _ _ _ Hd).
  rewrite (getitem_lookup _ _ _ Hf). cbn [bind].
  rewrite (getitem_lookup _ _ _ Hr). cbn [bind].
  unfold from_records, from_records_dict.
  assert (forall k a, dict_get k fields = Some (JArr a) ->
                      In (JArr a)
                         (map (dict_item fields) (sorted (keys fields))))
    as Hin.
  { intros k a Hk. apply in_map_iff. exists k. split.
    - unfold dict_item. rewrite Hk. reflexivity.
    - apply sorted_In. apply (dict_get_some_keys _ _ _ Hk). }
  rewrite (extract_index_ragged _ a1 a2); [reflexivity| | | |exact Hneq].
  - apply Forall_forall. intros a Ha.
    apply in_map_iff in Ha. destruct Ha as (k & <- & Hk).
    apply (proj1 (sorted_In _ _)) in Hk.
    destruct (dict_get_keys k fields Hk) as (v & Hv).
    unfold dict_item. rewrite Hv. apply dict_get_In in Hv.
    rewrite Forall_forall in Hall. apply (Hall _ Hv).
  - apply (Hin k1 a1 H1).
  - apply (Hin k2 a2 H2).
Qed.

Lemma submissions_ragged_arrays_raise_witness :
  delivers (upstream 200 (Some submissions_doc_ragged))
           (submissions_request "CIK0000320193" "a@b.org")
           submissions_doc_ragged /\
  Forall (fun kv => is_arr (snd kv) = true) recent_ragged /\
  dict_get "form" recent_ragged = Some (JArr [JStr "10-K"; JStr "10-Q"]) /\
  dict_get "filingDate" recent_ragged = Some (JArr [JStr "2023-11-03"]) /\
  fst (run (get_submissions sample_library "CIK0000320193" "a@b.org")
           (upstream 200 (Some submissions_doc_ragged))) = Raise ValueError.
Proof.
  split; [apply delivers_upstream|].
  split; [repeat constructor|]. split; [reflexivity|]. split; [reflexivity|].
  apply (submissions_ragged_arrays_raise
           sample_library "CIK0000320193" "a@b.org"
           (upstream 200 (Some submissions_doc_ragged)) submissions_doc_ragged
           (JObj [("recent", JObj recent_ragged)]) recent_ragged
           "form" "filingDate" [JStr "10-K"; JStr "10-Q"] [JStr "2023-11-03"]
           (delivers_upstream _ _ _) eq_refl eq_refl);
    [repeat constructor | reflexivity | reflexivity | discriminate].
Defined.

(** *** The padded identifier, for every identifier *)

Lemma is_digit_val (c : ascii) :
  is_digit c = true -> (0 <= digit_val c <= 9)%Z.
Proof.
  unfold is_digit, digit_val. intros H. apply andb_prop in H.
  destruct H as [H1 H2]. apply Nat.leb_le in H1. apply Nat.leb_le in H2. lia.
Qed.

Lemma int_of_digits_bound (s : string) :
  all_digits s = true ->
  (0 <= int_of_digits s < 10 ^ Z.of_nat (String.length s))%Z.
Proof.
  induction s as [|c s IH]; intros H.
  - unfold int_of_digits. cbn [int_acc String.length].
    change (10 ^ Z.of_nat 0)%Z with 1%Z. lia.
  - cbn [all_digits] in H. apply andb_prop in H. destruct H as [Hc Hs].
    specialize (IH Hs). apply is_digit_val in Hc.
    rewrite int_of_digits_cons. cbn [String.length].
    rewrite Nat2Z.inj_succ, Z.pow_succ_r by lia.
    set (p := (10 ^ Z.of_nat (String.length s))%Z) in *. nia.
Qed.

Lemma digits_any (n : Z) :
  (0 <= n)%Z ->
  all_digits (digits n) = true /\ int_of_digits (digits n) = n.
Proof.
  intros Hn.
  destruct (digits_spec n (S (Z.to_nat (Z.log2 n))) ltac:(lia)
              (conj Hn (digits_fuel n Hn))) as (_ & Ha & Hv).
  split; assumption.
Qed.

Lemma str_int_nonneg (n : Z) : (0 <= n)%Z -> str_int n = digits n.
Proof.
  intros H. unfold str_int.
  destruct (n <? 0)%Z eqn:E; [apply Z.ltb_lt in E; lia | reflexivity].
Qed.

Lemma str_pad_any (n : Z) :
  (0 <= n)%Z ->
  all_digits (str_pad 10 "0" (str_int n)) = true /\
  int_of_digits (str_pad 10 "0" (str_int n)) = n /\
  String.length (str_pad 10 "0" (str_int n))
  = Nat.max 10 (String.length (str_int n)) /\
  ((10 ^ 10 <= n)%Z ->
   (10 < String.length (str_int n))%nat /\
   str_pad 10 "0" (str_int n) = str_int n).
Proof.
  intros Hn. rewrite (str_int_nonneg n Hn).
  destruct (digits_any n Hn) as [Ha Hv].
  unfold str_pad.
  destruct (replicate_zero_spec (10 - String.length (digits n)) (digits n))
    as (Hl & Ha' & Hv').
  rewrite Ha', Hv', Hl. split; [exact Ha|]. split; [exact Hv|].
  split; [lia|]. intros Hbig.
  assert (10 < String.length (digits n))%nat as Hlen.
  { pose proof (int_of_digits_bound (digits n) Ha) as Hb. rewrite Hv in Hb.
    destruct (le_lt_dec (String.length (digits n)) 10) as [Hle|Hlt];
      [|exact Hlt].
    exfalso.
    assert (10 ^ Z.of_nat (String.length (digits n)) <= 10 ^ 10)%Z
      by (apply Z.pow_le_mono_r; lia).
    lia. }
  split; [exact Hlen|].
  replace (10 - String.length (digits n))%nat with O by lia. reflexivity.
Qed.

Lemma padded_cell (L : library) (srv : server) (df0 df1 : DataFrame)
  (i : nat) (v : pyval) :
  fst (run (get_companytickers L false) srv) = Ok df0 ->
  fst (run (get_companytickers L true) srv) = Ok df1 ->
  cell df0 i "cik" = Some v ->
  cell df1 i "cik" = Some (cik_format (py_str L v)).
Proof.
  intros H0 H1 Hcell.
  pose proof (run_tickers_columns L srv df0 H0) as Hc.
  rewrite (tickers_cell_position df0 i "cik" 0 Hc eq_refl) in Hcell.
  rewrite (run_tickers_padded L srv df0 H0) in H1.
  assert (cell (mkDataFrame
            (index df0) (columns df0)
            (map (fun row =>
                    set_nth 0 (cik_format (py_str L (nth 0 row NaN))) row)
                 (values df0))) i "cik"
          = Some (cik_format (py_str L v))) as Hpadded.
  { unfold cell. cbn [columns values]. rewrite Hc.
    change (position (LStr "cik") (map LStr tickers_columns)) with (Some O).
    cbv iota. rewrite nth_error_map.
    destruct (nth_error (values df0) i) as [row|]; [|discriminate].
    cbn [option_map].
    rewrite (nth_error_set_nth_same _ _ _ Hcell).
    destruct row as [|c row]; [discriminate|].
    simpl in Hcell. injection Hcell as ->. reflexivity. }
  injection H1 as <-. exact Hpadded.
Qed.

(** X12. The padded identifier can always be read back.  Where the raw
    mode has any integer [n >= 0] in the cik column, the padded mode has
    ["CIK"] followed by a string of digits whose decimal value is [n], as
    long as the longer of 10 and the number of digits of [n]; an
    identifier of more than ten digits is kept whole, unpadded and not
    truncated. *)
Theorem padded_cik_reads_back
  (L : library) (srv : server) (df0 df1 : DataFrame) (i : nat) (n : Z) :
  fst (run (get_companytickers L false) srv) = Ok df0 ->
  fst (run (get_companytickers L true) srv) = Ok df1 ->
  cell df0 i "cik" = Some (Val (JInt n)) ->
  (0 <= n)%Z ->
  exists s,
    cell df1 i "cik" = Some (Val (JStr ("CIK" ++ s))) /\
    all_digits s = true /\
    int_of_digits s = n /\
    String.length s = Nat.max 10 (String.length (str_int n)) /\
    ((10 ^ 10 <= n)%Z ->
     (10 < String.length s)%nat /\ s = str_int n).
Proof.
  intros H0 H1 Hcell Hn.
  exists (str_pad 10 "0" (str_int n)).
  split; [apply (padded_cell L srv df0 df1 i _ H0 H1 Hcell)|].
  destruct (str_pad_any n Hn) as (Ha & Hv & Hl & Hbig).
  split; [exact Ha|]. split; [exact Hv|]. split; [exact Hl|].
  intros Hge. destruct (Hbig Hge) as [Hlen Heq].
  rewrite Heq. split; [exact Hlen | reflexivity].
Qed.

Lemma padded_cik_reads_back_witness :
  exists df0 df1,
    fst (run (get_companytickers sample_library false)
             (upstream 200 (Some tickers_doc_wide))) = Ok df0 /\
    fst (run (get_companytickers sample_library true)
             (upstream 200 (Some tickers_doc_wide))) = Ok df1 /\
    cell df0 0 "cik" = Some (Val (JInt 12345678901)) /\
    (0 <= 12345678901)%Z /\
    exists s,
      cell df1 0 "cik" = Some (Val (JStr ("CIK" ++ s))) /\
      int_of_digits s = 12345678901%Z /\
      s = "12345678901".
Proof.
  eexists. eexists.
  split; [vm_compute; reflexivity|].
  split; [vm_compute; reflexivity|].
  split; [reflexivity|].
  split; [discriminate|].
  destruct (padded_cik_reads_back
              sample_library (upstream 200 (Some tickers_doc_wide))
              _ _ 0%nat 12345678901%Z eq_refl eq_refl eq_refl
              ltac:(discriminate))
    as (s & Hc & _ & Hv & _ & Hbig).
  exists s. split; [exact Hc|]. split; [exact Hv|].
  apply (proj2 (Hbig ltac:(discriminate))).
Defined.

(** X13. The padded mode keeps identifiers apart: two rows whose
    identifiers are different non-negative integers have different
    padded cik cells. *)
Theorem padded_cik_injective
  (L : library) (srv : server) (df0 df1 : DataFrame) (i j : nat) (n m : Z) :
  fst (run (get_companytickers L false) srv) = Ok df0 ->
  fst (run (get_companytickers L true) srv) = Ok df1 ->
  cell df0 i "cik" = Some (Val (JInt n)) ->
  cell df0 j "cik" = Some (Val (JInt m)) ->
  (0 <= n)%Z -> (0 <= m)%Z ->
  cell df1 i "cik" = cell df1 j "cik" ->
  n = m.
Proof.
  intros H0 H1 Hi Hj Hn Hm Heq.
  rewrite (padded_cell L srv df0 df1 i _ H0 H1 Hi) in Heq.
  rewrite (padded_cell L srv df0 df1 j _ H0 H1 Hj) in Heq.
  cbn [py_str] in Heq. unfold cik_format in Heq.
  injection Heq as Heq.
  destruct (str_pad_any n Hn) as (_ & <- & _).
  destruct (str_pad_any m Hm) as (_ & <- & _).
  rewrite Heq. reflexivity.
Qed.

Lemma padded_cik_injective_witness :
  exists df0 df1,
    fst (run (get_companytickers sample_library false)
             (upstream 200 (Some tickers_doc))) = Ok df0 /\
    fst (run (get_companytickers sample_library true)
             (upstream 200 (Some tickers_doc))) = Ok df1 /\
    cell df0 0 "cik" = Some (Val (JInt 320193)) /\
    cell df0 1 "cik" = Some (Val (JInt 789019)) /\
    (cell df1 0 "cik" = cell df1 1 "cik" -> 320193%Z = 789019%Z).
Proof.
  eexists. eexists.
  split; [vm_compute; reflexivity|].
  split; [vm_compute; reflexivity|].
  split; [reflexivity|]. split; [reflexivity|].
  apply (padded_cik_injective
           sample_library (upstream 200 (Some tickers_doc))
           _ _ 0%nat 1%nat 320193%Z 789019%Z eq_refl eq_refl eq_refl eq_refl);
    discriminate.
Defined.

(** *** From the ticker list to the filing history *)

(** X14. The two operations fit together: where the raw mode has an
    identifier [n], [0 <= n < 10^10], the cik cell of the padded mode,
    given as [cik] to [get_submissions], makes it send one request, to
    ["https://data.sec.gov/submissions/CIK"] followed by the ten digits
    of [n] and [".json"], with the caller's e-mail as User-Agent. *)
Theorem padded_cik_addresses_submissions
  (L : library) (srv srv' : server) (df0 df1 : DataFrame) (i : nat) (n : Z)
  (email : string) :
  fst (run (get_companytickers L false) srv) = Ok df0 ->
  fst (run (get_companytickers L true) srv) = Ok df1 ->
  cell df0 i "cik" = Some (Val (JInt n)) ->
  (0 <= n < 10 ^ 10)%Z ->
  exists cik s,
    cell df1 i "cik" = Some (Val (JStr cik)) /\
    String.length s = 10%nat /\ all_digits s = true /\
    int_of_digits s = n /\
    snd (run (get_submissions L cik email) srv')
    = [mkRequest
         ("https://data.sec.gov/submissions/CIK" ++ s ++ ".json")%string
         [("User-Agent", email)]].
Proof.
  intros H0 H1 Hcell Hn.
  exists ("CIK" ++ str_pad 10 "0" (str_int n))%string.
  exists (str_pad 10 "0" (str_int n)).
  split; [apply (padded_cell L srv df0 df1 i _ H0 H1 Hcell)|].
  destruct (str_pad_digits n Hn) as (Hl & Ha & Hv).
  split; [exact Hl|]. split; [exact Ha|]. split; [exact Hv|].
  unfold run, get_submissions, io_bind, requests_get, lift.
  destruct (srv' _ _); reflexivity.
Qed.

Lemma padded_cik_addresses_submissions_witness :
  exists df0 df1,
    fst (run (get_companytickers sample_library false)
             (upstream 200 (Some tickers_doc))) = Ok df0 /\
    fst (run (get_companytickers sample_library true)
             (upstream 200 (Some tickers_doc))) = Ok df1 /\
    cell df0 0 "cik" = Some (Val (JInt 320193)) /\
    (0 <= 320193 < 10 ^ 10)%Z /\
    exists cik,
      cell df1 0 "cik" = Some (Val (JStr cik)) /\
      exists s,
        int_of_digits s = 320193%Z /\
        snd (run (get_submissions sample_library cik "a@b.org")
                 (upstream 200 (Some submissions_doc)))
        = [mkRequest
             ("https://data.sec.gov/submissions/CIK" ++ s ++ ".json")%string
             [("User-Agent", "a@b.org")]].
Proof.
  eexists. eexists.
  split; [vm_compute; reflexivity|].
  split; [vm_compute; reflexivity|].
  split; [reflexivity|].
  split; [split; [discriminate | reflexivity]|].
  assert (0 <= 320193 < 10 ^ 10)%Z as Hn
      by (split; [discriminate | reflexivity]).
  destruct (padded_cik_addresses_submissions
              sample_library (upstream 200 (Some tickers_doc))
              (upstream 200 (Some submissions_doc))
              _ _ 0%nat 320193%Z "a@b.org" eq_refl eq_refl eq_refl Hn)
    as (cik & s & Hc & _ & _ & Hv & Hreq).
  exists cik. split; [exact Hc|]. exists s. split; [exact Hv | exact Hreq].
Defined.

(** *** Which missing metadata field is reported *)

Lemma getitem_missing (j : json) (k : string) :
  is_obj j = true -> has_key j k = false -> getitem j k = Raise (KeyError k).
Proof.
  intros Hj Hk. destruct (getitem_absent j k Hk) as (e & -> & _ & He).
  rewrite (He Hj). reflexivity.
Qed.

Lemma companyconcept_row_first_missing (raw : json) (u : string) (o : json)
  (k : string) :
  is_obj raw = true -> first_missing raw concept_metadata = Some k ->
  companyconcept_row raw u o = Raise (KeyError k).
Proof.
  intros Ho Hf. unfold companyconcept_row.
  destruct (has_key raw "cik") eqn:E1;
    [|unfold first_missing in Hf; cbn [find concept_metadata] in Hf;
      rewrite E1 in Hf; injection Hf as <-;
      rewrite (getitem_missing raw _ Ho E1); reflexivity].
  destruct (has_key raw "taxonomy") eqn:E2;
    [|unfold first_missing in Hf; cbn [find concept_metadata] in Hf;
      rewrite E1, E2 in Hf; injection Hf as <-;
      subscript_known E1;
      rewrite (getitem_missing raw _ Ho E2); reflexivity].
  destruct (has_key raw "tag") eqn:E3;
    [|unfold first_missing in Hf; cbn [find concept_metadata] in Hf;
      rewrite E1, E2, E3 in Hf; injection Hf as <-;
      subscript_known E1; subscript_known E2;
      rewrite (getitem_missing raw _ Ho E3); reflexivity].
  destruct (has_key raw "label") eqn:E4;
    [|unfold first_missing in Hf; cbn [find concept_metadata] in Hf;
      rewrite E1, E2, E3, E4 in Hf; injection Hf as <-;
      subscript_known E1; subscript_known E2; subscript_known E3;
      rewrite (getitem_missing raw _ Ho E4); reflexivity].
  destruct (has_key raw "description") eqn:E5;
    [|unfold first_missing in Hf; cbn [find concept_metadata] in Hf;
      rewrite E1, E2, E3, E4, E5 in Hf; injection Hf as <-;
      subscript_known E1; subscript_known E2; subscript_known E3;
      subscript_known E4;
      rewrite (getitem_missing raw _ Ho E5); reflexivity].
  destruct (has_key raw "entityName") eqn:E6;
    [|unfold first_missing in Hf; cbn [find concept_metadata] in Hf;
      rewrite E1, E2, E3, E4, E5, E6 in Hf; injection Hf as <-;
      subscript_known E1; subscript_known E2; subscript_known E3;
      subscript_known E4; subscript_known E5;
      rewrite (getitem_missing raw _ Ho E6); reflexivity].
  unfold first_missing in Hf. cbn [find concept_metadata] in Hf.
  rewrite E1, E2, E3, E4, E5, E6 in Hf. discriminate Hf.
Qed.

Lemma frames_row_first_missing (raw o : json) (k : string) :
  is_obj raw = true -> first_missing raw frames_metadata = Some k ->
  frames_row raw o = Raise (KeyError k).
Proof.
  intros Ho Hf. unfold frames_row.
  destruct (has_key raw "taxonomy") eqn:E1;
    [|unfold first_missing in Hf; cbn [find frames_metadata] in Hf;
      rewrite E1 in Hf; injection Hf as <-;
      rewrite (getitem_missing raw _ Ho E1); reflexivity].
  destruct (has_key raw "tag") eqn:E2;
    [|unfold first_missing in Hf; cbn [find frames_metadata] in Hf;
      rewrite E1, E2 in Hf; injection Hf as <-;
      subscript_known E1;
      rewrite (getitem_missing raw _ Ho E2); reflexivity].
  destruct (has_key raw "ccp") eqn:E3;
    [|unfold first_missing in Hf; cbn [find frames_metadata] in Hf;
      rewrite E1, E2, E3 in Hf; injection Hf as <-;
      subscript_known E1; subscript_known E2;
      rewrite (getitem_missing raw _ Ho E3); reflexivity].
  destruct (has_key raw "uom") eqn:E4;
    [|unfold first_missing in Hf; cbn [find frames_metadata] in Hf;
      rewrite E1, E2, E3, E4 in Hf; injection Hf as <-;
      subscript_known E1; subscript_known E2; subscript_known E3;
      rewrite (getitem_missing raw _ Ho E4); reflexivity].
  destruct (has_key raw "label") eqn:E5;
    [|unfold first_missing in Hf; cbn [find frames_metadata] in Hf;
      rewrite E1, E2, E3, E4, E5 in Hf; injection Hf as <-;
      subscript_known E1; subscript_known E2; subscript_known E3;
      subscript_known E4;
      rewrite (getitem_missing raw _ Ho E5); reflexivity].
  destruct (has_key raw "description") eqn:E6;
    [|unfold first_missing in Hf; cbn [find frames_metadata] in Hf;
      rewrite E1, E2, E3, E4, E5, E6 in Hf; injection Hf as <-;
      subscript_known E1; subscript_known E2; subscript_known E3;
      subscript_known E4; subscript_known E5;
      rewrite (getitem_missing raw _ Ho E6); reflexivity].
  unfold first_missing in Hf. cbn [find frames_metadata] in Hf.
  rewrite E1, E2, E3, E4, E5, E6 in Hf. discriminate Hf.
Qed.

Lemma units_loop_all_raise (row : string -> json -> result (dict pyval))
  (u : json) (e : exn) :
  units_arrays u = true -> unit_leaves u <> [] ->
  (forall k o, row k o = Raise e) ->
  (units_items <- items u ;;
   flat_mapM (fun '(key_units, value_units) =>
                rows <- iter value_units ;;
                mapM (row key_units) rows) units_items) = Raise e.
Proof.
  intros Harr Hne Hrow. destruct u as [| | | | | |d]; try discriminate Harr.
  cbn [items bind]. cbn [units_arrays] in Harr.
  unfold unit_leaves in Hne. cbn [obj_items] in Hne.
  induction d as [|[k vu] d IH]; [exfalso; apply Hne; reflexivity|].
  cbn [forallb snd] in Harr. apply andb_prop in Harr.
  destruct Harr as [Hvu Hd].
  destruct vu as [| | | | |l|]; try discriminate Hvu.
  destruct l as [|o l].
  - cbn [flat_mapM iter bind mapM]. rewrite (IH Hd); [reflexivity|].
    exact Hne.
  - cbn [flat_mapM iter bind mapM]. rewrite (Hrow k o). reflexivity.
Qed.

Lemma lookup_is_obj (j : json) (k : string) (v : json) :
  lookup j k = Some v -> is_obj j = true.
Proof. destruct j; simpl; try discriminate. reflexivity. Qed.

(** X15. The metadata fields are read in the order the row lists them,
    once per observation: when the document has at least one observation
    and lacks some metadata field, the call raises [KeyError] naming the
    first field it lacks in that order -- cik, taxonomy, tag, label,
    description, entityName for [get_companyconcept]; taxonomy, tag, ccp,
    uom, label, description for [get_frames] -- even if the observations
    themselves are malformed. *)
Theorem first_missing_metadata_is_reported (L : library) (srv : server) (raw : json)
  (k : string) :
  (forall cik email taxonomy tag u,
      delivers srv (companyconcept_request cik email taxonomy tag) raw ->
      lookup raw "units" = Some u ->
      units_arrays u = true -> unit_leaves u <> [] ->
      first_missing raw concept_metadata = Some k ->
      fst (run (get_companyconcept L cik email taxonomy tag) srv)
      = Raise (KeyError k)) /\
  (forall email taxonomy tag units period o rest,
      delivers srv (frames_request email taxonomy tag units period) raw ->
      lookup raw "data" = Some (JArr (o :: rest)) ->
      first_missing raw frames_metadata = Some k ->
      fst (run (get_frames L email taxonomy tag units period) srv)
      = Raise (KeyError k)).
Proof.
  split.
  - intros cik email taxonomy tag u Hd Hu Harr Hne Hf.
    rewrite (run_get_companyconcept L _ _ _ _ _ _ Hd).
    unfold companyconcept_df_list.
    rewrite (getitem_lookup _ _ _ Hu). cbn [bind].
    rewrite (units_loop_all_raise (companyconcept_row raw) u (KeyError k)
               Harr Hne); [reflexivity|].
    intros ku o.
    apply (companyconcept_row_first_missing raw ku o k
             (lookup_is_obj _ _ _ Hu) Hf).
  - intros email taxonomy tag units period o rest Hd Hdata Hf.
    rewrite (run_get_frames L _ _ _ _ _ _ _ Hd).
    unfold frames_df_list.
    rewrite (getitem_lookup _ _ _ Hdata). cbn [bind iter mapM].
    rewrite (frames_row_first_missing raw o k (lookup_is_obj _ _ _ Hdata) Hf).
    reflexivity.
Qed.

Lemma first_missing_metadata_is_reported_witness :
  delivers (upstream 200 (Some concept_doc_no_taxonomy))
           (companyconcept_request "CIK0000320193" "a@b.org" "us-gaap"
                                   "Assets") concept_doc_no_taxonomy /\
  first_missing concept_doc_no_taxonomy concept_metadata = Some "taxonomy" /\
  has_key concept_doc_no_taxonomy "label" = false /\
  fst (run (get_companyconcept sample_library "CIK0000320193" "a@b.org" "us-gaap" "Assets")
           (upstream 200 (Some concept_doc_no_taxonomy)))
  = Raise (KeyError "taxonomy").
Proof.
  split; [apply delivers_upstream|]. split; [reflexivity|].
  split; [reflexivity|].
  apply (proj1 (first_missing_metadata_is_reported sample_library
                  (upstream 200 (Some concept_doc_no_taxonomy))
                  concept_doc_no_taxonomy "taxonomy")
           "CIK0000320193" "a@b.org" "us-gaap" "Assets"
           (JObj [("EUR", JArr []); ("USD", JArr [JObj [("val", JInt 1)]])])
           (delivers_upstream _ _ _) eq_refl eq_refl);
    [discriminate | reflexivity].
Defined.

(* ------------------------------------------------------------------ *)
(** ** The shape of every result, and the padded identifier *)

Lemma tickers_nrows (L : library) (p : bool) (srv : server)
  (entries : dict json) (df : DataFrame) :
  delivers srv tickers_request (JObj entries) ->
  fst (run (get_companytickers L p) srv) = Ok df ->
  nrows df = List.length entries.
Proof.
  intros Hd Hrun. destruct p.
  - destruct (fst (run (get_companytickers L false) srv)) as [df0|e] eqn:E.
    + destruct (tickers_raw_Ok_inv L srv entries df0 Hd E) as (_ & Hn & _).
      rewrite (run_tickers_padded L srv df0 E) in Hrun.
      injection Hrun as <-.
      unfold nrows. cbn [values]. rewrite length_map. exact Hn.
    + rewrite (run_tickers_failure L srv e E) in Hrun. discriminate Hrun.
  - apply (tickers_raw_Ok_inv L srv entries df Hd Hrun).
Qed.

Lemma submissions_columns (L : library) (cik email : string) (srv : server)
  (raw filings : json) (fields : dict json) (df : DataFrame) :
  delivers srv (submissions_request cik email) raw ->
  lookup raw "filings" = Some filings ->
  lookup filings "recent" = Some (JObj fields) ->
  fst (run (get_submissions L cik email) srv) = Ok df ->
  forall name, In (LStr name) (columns df) <-> In name (keys fields).
Proof.
  intros Hd Hf Hr. rewrite (run_get_submissions L _ _ _ _ Hd).
  rewrite (getitem_lookup _ _ _ Hf). cbn [bind].
  rewrite (getitem_lookup _ _ _ Hr). cbn [bind].
  unfold from_records. intros H name.
  destruct (from_records_dict_Ok_inv L fields df H) as (-> & _ & _).
  rewrite in_map_iff. split.
  - intros (k & Hk & Hin). injection Hk as ->. apply sorted_In. exact Hin.
  - intros Hin. exists name. split; [reflexivity|]. apply sorted_In.
    exact Hin.
Qed.

(** C4. Whatever the operation, the rows of one result all have a cell
    for each column of the frame.  The three operations that build their
    rows field by field return, on a well-formed document, one row per
    observation and, unless there is none, exactly the declared columns;
    a field that an upstream observation lacks is held as the
    missing-value marker [NaN] in that observation's row -- no column is
    dropped and nothing is raised; so for an observation without ["fy"].
    [get_companytickers] returns one row per entry with the columns cik,
    ticker, title, and [get_submissions] one column per field name of
    the "recent" section. *)
Theorem rows_carry_all_declared_columns :
  (forall L cik email taxonomy tag srv raw,
      delivers srv (companyconcept_request cik email taxonomy tag) raw ->
      concept_ok raw = true ->
      exists df,
        fst (run (get_companyconcept L cik email taxonomy tag) srv) = Ok df /\
        nrows df = List.length (concept_leaves raw) /\
        rectangular df /\
        ((0 < nrows df)%nat -> columns df = map LStr concept_columns) /\
        forall i u o,
          nth_error (concept_leaves raw) i = Some (u, o) ->
          (forall k, In k observation_fields -> marks_missing df i o k) /\
          (lookup o "fy" = None -> cell df i "fy" = Some NaN)) /\
  (forall L cik email srv raw,
      delivers srv (companyfacts_request cik email) raw ->
      facts_ok raw = true ->
      exists df,
        fst (run (get_companyfacts L cik email) srv) = Ok df /\
        nrows df = List.length (facts_leaves raw) /\
        rectangular df /\
        ((0 < nrows df)%nat -> columns df = map LStr facts_columns) /\
        forall i l,
          nth_error (facts_leaves raw) i = Some l ->
          (forall k, In k observation_fields ->
                     marks_missing df i (leaf_obs l) k) /\
          (lookup (leaf_obs l) "fy" = None -> cell df i "fy" = Some NaN)) /\
  (forall L email taxonomy tag units period srv raw,
      delivers srv (frames_request email taxonomy tag units period) raw ->
      frames_ok raw = true ->
      exists df,
        fst (run (get_frames L email taxonomy tag units period) srv) = Ok df /\
        nrows df = List.length (frames_entries raw) /\
        rectangular df /\
        ((0 < nrows df)%nat -> columns df = map LStr frames_columns) /\
        forall i o,
          nth_error (frames_entries raw) i = Some o ->
          forall k, In k entry_fields -> marks_missing df i o k) /\
  (forall L parse_cik srv entries df,
      delivers srv tickers_request (JObj entries) ->
      fst (run (get_companytickers L parse_cik) srv) = Ok df ->
      rectangular df /\ columns df = map LStr tickers_columns /\
      nrows df = List.length entries) /\
  (forall L cik email srv raw filings fields df,
      delivers srv (submissions_request cik email) raw ->
      lookup raw "filings" = Some filings ->
      lookup filings "recent" = Some (JObj fields) ->
      fst (run (get_submissions L cik email) srv) = Ok df ->
      rectangular df /\
      forall name, In (LStr name) (columns df) <-> In name (keys fields)).
Proof.
  split; [|split; [|split; [|split]]].
  - intros L cik email taxonomy tag srv raw Hd Hok. eexists.
    split; [apply (get_companyconcept_ok L _ _ _ _ _ _ Hd Hok)|].
    split; [apply rows_nrows|].
    split; [apply rows_rectangular|].
    split; [apply rows_columns;
            [exact concept_columns_nodup | reflexivity]|].
    intros i u o Hi.
    assert (forall k, In k observation_fields ->
              marks_missing
                (from_records_dicts L
                   (map (concept_row_of raw) (concept_leaves raw))) i o k)
      as Hall.
    { intros k Hk.
      apply (holds_in_column_marks
               _ _ _ _ _ _ (concept_frame_observation L raw i u o k Hi Hk)). }
    split; [exact Hall|].
    apply (Hall "fy"). unfold observation_fields. simpl. tauto.
  - intros L cik email srv raw Hd Hok. eexists.
    split; [apply (get_companyfacts_ok L _ _ _ _ Hd Hok)|].
    split; [apply rows_nrows|].
    split; [apply rows_rectangular|].
    split; [apply rows_columns; [exact facts_columns_nodup | reflexivity]|].
    intros i l Hi.
    assert (forall k, In k observation_fields ->
              marks_missing
                (from_records_dicts L
                   (map (facts_row_of raw) (facts_leaves raw)))
                i (leaf_obs l) k)
      as Hall.
    { intros k Hk.
      apply (holds_in_column_marks
               _ _ _ _ _ _ (facts_frame_observation L raw i l k Hi Hk)). }
    split; [exact Hall|].
    apply (Hall "fy"). unfold observation_fields. simpl. tauto.
  - intros L email taxonomy tag units period srv raw Hd Hok. eexists.
    split; [apply (get_frames_ok L _ _ _ _ _ _ _ Hd Hok)|].
    split; [apply rows_nrows|].
    split; [apply rows_rectangular|].
    split; [apply rows_columns; [exact frames_columns_nodup | reflexivity]|].
    intros i o Hi k Hk.
    apply (holds_in_column_marks
             _ _ _ _ _ _ (frames_frame_entry L raw i o k Hi Hk)).
  - intros L parse_cik srv entries df Hd Hrun.
    destruct (tickers_rectangular L parse_cik srv entries df Hd Hrun)
      as [Hrect Hcols].
    split; [exact Hrect|]. split; [exact Hcols|].
    apply (tickers_nrows L parse_cik srv entries df Hd Hrun).
  - intros L cik email srv raw filings fields df Hd Hf Hr Hrun. split.
    + apply (submissions_rectangular L cik email srv raw filings fields df
               Hd Hf Hr Hrun).
    + apply (submissions_columns L cik email srv raw filings fields df
               Hd Hf Hr Hrun).
Qed.

Lemma rows_carry_all_declared_columns_witness :
  delivers (upstream 200 (Some concept_doc))
           (companyconcept_request "CIK0000320193" "a@b.org" "us-gaap" "Assets")
           concept_doc /\
  concept_ok concept_doc = true /\
  nth_error (concept_leaves concept_doc) 1 = Some ("USD", obs2) /\
  lookup obs2 "fy" = None /\
  exists df,
    fst (run (get_companyconcept sample_library
                "CIK0000320193" "a@b.org" "us-gaap" "Assets")
             (upstream 200 (Some concept_doc))) = Ok df /\
    nrows df = 3%nat /\
    rectangular df /\
    columns df = map LStr concept_columns /\
    cell df 1 "fy" = Some NaN.
Proof.
  split; [apply delivers_upstream|]. split; [reflexivity|].
  split; [reflexivity|]. split; [reflexivity|].
  destruct (proj1 rows_carry_all_declared_columns
              sample_library "CIK0000320193" "a@b.org" "us-gaap" "Assets"
              (upstream 200 (Some concept_doc)) concept_doc
              (delivers_upstream _ _ _) eq_refl)
    as (df & Hrun & Hn & Hrect & Hcols & Hrows).
  exists df. split; [exact Hrun|]. split; [exact Hn|].
  split; [exact Hrect|].
  split; [apply Hcols; rewrite Hn; repeat constructor|].
  apply (proj2 (Hrows 1%nat "USD" obs2 eq_refl)). reflexivity.
Defined.

(** C5, as stated, fails: the identifier 12345678901 of [tickers_doc_wide]
    has eleven digits, and the padded mode renders it as ["CIK"] followed
    by these eleven digits, not by exactly ten. *)
Lemma padded_cik_keeps_eleven_digits :
  lookup tickers_doc_wide "0"
  = Some (JObj [("cik_str", JInt 12345678901); ("ticker", JStr "WIDE");
                ("title", JStr "Wide Identifier Corp")]) /\
  exists df,
    fst (run (get_companytickers sample_library true)
             (upstream 200 (Some tickers_doc_wide))) = Ok df /\
    cell df 0 "cik" = Some (Val (JStr "CIK12345678901")) /\
    ~ (exists s,
          cell df 0 "cik" = Some (Val (JStr ("CIK" ++ s))) /\
          String.length s = 10%nat).
Proof.
  split; [reflexivity|]. eexists.
  split; [vm_compute; reflexivity|].
  split; [reflexivity|].
  intros (s & Hs & Hl).
  change (Some (Val (JStr "CIK12345678901"))
          = Some (Val (JStr (String "C" (String "I" (String "K" s)))))) in Hs.
  injection Hs as <-. discriminate Hl.
Qed.

(** C5, amended.  In padded mode, the identifier of every entry is
    rendered as ["CIK"] followed by its decimal digits, zero-padded on the
    left to at least 10 digits: for a document whose entries are objects
    with three field names in all, the row of an entry -- the [i]-th in
    ascending order of the keys -- whose identifier is an integer
    [n >= 0] (its other two values being strings, 64-bit integers or
    lacking, one of the three a string) holds ["CIK" ++ s] in the cik
    column, where [s] is a string of digits that reads [n], of exactly 10
    digits when [n < 10^10] and the digits of [n] themselves when [n] has
    more; the ticker and title cells hold the entry's other two values.
    For 320193 the cell is ["CIK0000320193"]. *)
Theorem padded_cik_format (L : library) (srv : server) (entries : dict json)
  (f1 f2 f3 : string) :
  delivers srv tickers_request (JObj entries) ->
  Forall (fun kv => is_obj (snd kv) = true) entries ->
  entry_field_names entries = [f1; f2; f3] ->
  exists df,
    fst (run (get_companytickers L true) srv) = Ok df /\
    nrows df = List.length entries /\
    forall i k n,
      nth_error (sorted (keys entries)) i = Some k ->
      field (dict_item entries k) f1 = Val (JInt n) ->
      (0 <= n)%Z ->
      object_column (entry_values entries k f1 f2 f3) = true ->
      exists s,
        cell df i "cik" = Some (Val (JStr ("CIK" ++ s))) /\
        all_digits s = true /\
        int_of_digits s = n /\
        String.length s = Nat.max 10 (String.length (str_int n)) /\
        ((n < 10 ^ 10)%Z -> String.length s = 10%nat) /\
        ((10 ^ 10 <= n)%Z -> s = str_int n) /\
        (n = 320193%Z -> s = "0000320193") /\
        cell df i "ticker" = Some (field (dict_item entries k) f2) /\
        cell df i "title" = Some (field (dict_item entries k) f3).
Proof.
  intros Hd Hall Hnames.
  destruct (tickers_raw_cells L srv entries f1 f2 f3 Hd Hall Hnames)
    as (df0 & Hraw & Hcells).
  pose proof (run_tickers_padded L srv df0 Hraw) as Hpad.
  pose proof (run_tickers_columns L srv df0 Hraw) as Hcols.
  eexists. split; [exact Hpad|].
  split; [apply (tickers_nrows L true srv entries _ Hd Hpad)|].
  intros i k n Hi Hn Hpos Hobj.
  destruct (Hcells i k Hi) as [_ Hexact].
  destruct (Hexact Hobj) as (Hc & Ht & Hx).
  exists (str_pad 10 "0" (str_int n)).
  destruct (str_pad_any n Hpos) as (Ha & Hv & Hl & Hbig).
  split.
  { rewrite Hn in Hc.
    apply (padded_cell L srv df0 _ i _ Hraw Hpad Hc). }
  split; [exact Ha|]. split; [exact Hv|]. split; [exact Hl|].
  split; [intros Hlt; apply (str_pad_digits n (conj Hpos Hlt))|].
  split; [intros Hge; apply (proj2 (Hbig Hge))|].
  split; [intros ->; vm_compute; reflexivity|].
  split.
  - rewrite (padded_cell_other L df0 i 0 "ticker" Hcols eq_refl). exact Ht.
  - rewrite (padded_cell_other L df0 i 1 "title" Hcols eq_refl). exact Hx.
Qed.

Lemma padded_cik_format_witness :
  delivers (upstream 200 (Some tickers_doc)) tickers_request tickers_doc /\
  entry_field_names
    [("0", JObj [("cik_str", JInt 320193); ("ticker", JStr "AAPL");
                 ("title", JStr "Apple Inc.")]);
     ("1", JObj [("cik_str", JInt 789019); ("ticker", JStr "MSFT");
                 ("title", JStr "MICROSOFT CORP")])]
  = ["cik_str"; "ticker"; "title"] /\
  exists df,
    fst (run (get_companytickers sample_library true)
             (upstream 200 (Some tickers_doc))) = Ok df /\
    nrows df = 2%nat /\
    cell df 0 "cik" = Some (Val (JStr "CIK0000320193")) /\
    cell df 0 "ticker" = Some (Val (JStr "AAPL")).
Proof.
  split; [apply delivers_upstream|]. split; [reflexivity|].
  destruct (padded_cik_format
              sample_library (upstream 200 (Some tickers_doc))
              [("0", JObj [("cik_str", JInt 320193); ("ticker", JStr "AAPL");
                           ("title", JStr "Apple Inc.")]);
               ("1", JObj [("cik_str", JInt 789019); ("ticker", JStr "MSFT");
                           ("title", JStr "MICROSOFT CORP")])]
              "cik_str" "ticker" "title"
              (delivers_upstream _ _ _)
              ltac:(repeat constructor) eq_refl)
    as (df & Hrun & Hn & Hrows).
  exists df. split; [exact Hrun|]. split; [exact Hn|].
  destruct (Hrows 0%nat "0" 320193%Z eq_refl eq_refl ltac:(discriminate)
                  eq_refl)
    as (s & Hc & _ & _ & _ & _ & _ & Hs & Ht & _).
  rewrite (Hs eq_refl) in Hc. split; [exact Hc | exact Ht].
Defined.
